(** * organixBackend: task ordering, instance synchronisation and account
      gates, embedded from the route handlers.

    The handlers of [src/routes/*.js] are written here as functions from a
    database state (the Mongo collections, as lists of documents in natural
    order) to an HTTP response and a new state.  Every definition carries the
    name of the source function or of the route it embeds. *)

From Stdlib Require Import ZArith List String Ascii Bool Arith.
From Stdlib Require Import DecimalString Permutation Sorted Lia.
From Stdlib Require PrimFloat FloatOps SpecFloat.
Import ListNotations.

Local Open Scope string_scope.
Local Open Scope list_scope.
Local Open Scope Z_scope.

(* ===================================================================== *)
(** ** JavaScript array primitives used by the handlers *)
(* ===================================================================== *)

Module Js.

Section Arrays.
Context {A : Type}.

  (** [Array.prototype.sort] with a comparator [cmp a b] (negative: a first).
      The engine's sort is stable; with a comparator that is a total preorder
      the result is the unique stable arrangement, which insertion from the
      right computes. *)
Fixpoint insertBy (cmp : A -> A -> Z) (x : A) (l : list A) : list A :=
    match l with
    | [] => [x]
    | y :: l' => if cmp x y <=? 0 then x :: y :: l' else y :: insertBy cmp x l'
    end.

Fixpoint sort (cmp : A -> A -> Z) (l : list A) : list A :=
    match l with
    | [] => []
    | x :: l' => insertBy cmp x (sort cmp l')
    end.

  (** [Array.prototype.findIndex]; [None] stands for the -1 of the source. *)
Fixpoint findIndex (p : A -> bool) (l : list A) : option nat :=
    match l with
    | [] => None
    | x :: l' => if p x then Some O else option_map S (findIndex p l')
    end.

  (** [Array.prototype.every], [some], [find], [filter]. *)
Definition every (p : A -> bool) (l : list A) : bool := forallb p l.
Definition some (p : A -> bool) (l : list A) : bool := existsb p l.
Definition find (p : A -> bool) (l : list A) : option A := List.find p l.
End Arrays.

(** [new Set(xs).size] on numbers. *)
Definition setSize (xs : list Z) : nat := List.length (nodup Z.eq_dec xs).

(** [Math.max(...xs)] on a non-empty array (the callers guard the empty
    case, where JavaScript would give -Infinity). *)
Definition mathMax (xs : list Z) : Z :=
  match xs with
  | [] => 0
  | x :: xs' => fold_left Z.max xs' x
  end.

(** [x || 0] on a number. *)
Definition orZero (x : Z) : Z := if x =? 0 then 0 else x.

(** Numbers are IEEE doubles.  [roundDouble z] is the double nearest to the
    integer [z], ties to the even mantissa: the integers below 2^53 in
    magnitude are doubles themselves, above them the doubles are 2^e apart
    (magnitudes from 2^1024 on, which become Infinity, are not told
    apart). *)
Definition roundDouble (z : Z) : Z :=
  let a := Z.abs z in
  if a <? 2 ^ 53 then z
  else
    let e := Z.log2 a - 52 in
    let q := Z.shiftr a e in
    let r := a - Z.shiftl q e in
    let half := 2 ^ (e - 1) in
    let m := if r <? half then q
             else if half <? r then q + 1
             else if Z.even q then q else q + 1 in
    Z.sgn z * (m * 2 ^ e).

(** [x + 1] on a number that is an integer. *)
Definition plusOne (x : Z) : Z := roundDouble (x + 1).


(** What [isBoolean()] of the request validators lets through: the JSON
    booleans, the numbers 1 and 0, and the strings "true", "false", "1" and
    "0".  Mongoose casts each to a boolean when it is stored; a handler that
    tests the value itself sees its truthiness, and a string that is not
    empty is truthy. *)
Inductive BooleanInput : Type :=
| JsonTrue | JsonFalse | NumberOne | NumberZero
| StringTrue | StringFalse | StringOne | StringZero.

Definition castBoolean (v : BooleanInput) : bool :=
  match v with
  | JsonTrue | NumberOne | StringTrue | StringOne => true
  | JsonFalse | NumberZero | StringFalse | StringZero => false
  end.

Definition truthy (v : BooleanInput) : bool :=
  match v with
  | JsonFalse | NumberZero => false
  | _ => true
  end.

(** Doubles that are not integers: the interval of [Math.random()]. *)
Module Double.
Import PrimFloat.

Definition t : Set := float.

(** [Math.floor(x)] of a finite double, as an integer (0 for NaN and the
    infinities, which no caller produces). *)
Definition floor (x : t) : Z :=
  match FloatOps.Prim2SF x with
  | SpecFloat.S754_finite negative m e =>
      let n := if negative then Z.neg m else Z.pos m in
      if 0 <=? e then Z.shiftl n e else Z.shiftr n (- e)
  | _ => 0
  end.

(** [100000 + r * 900000], each operation rounded as the engine does. *)
Definition resetCodeNumber (r : t) : t := (100000 + r * 900000)%float.

Definition quarter : t := 0.25%float.
Definition half : t := 0.5%float.
(** A value where the exact product and the rounded one fall on different
    sides of an integer. *)
Definition edge : t := 0x1.179ec9cbd821ep-16%float.

End Double.

End Js.

(* ===================================================================== *)
(** ** Dates *)
(* ===================================================================== *)

(** A [Date] is its time value, milliseconds since the epoch.  The handlers
    normalise dates with [setHours], which works in the server's local time
    zone; the zone is an interface of the embedding. *)
Definition Date := Z.

Class LocalTime : Type := {
  (** [d.setHours(0, 0, 0, 0)] *)
  startOfDay : Date -> Date;
  (** [d.setHours(23, 59, 59, 999)] *)
  endOfDay : Date -> Date;
  (** [new Date(year, monthIndex, day)] *)
  localDate : Z -> Z -> Z -> Date;
  (** [(d.getFullYear(), d.getMonth(), d.getDate())] *)
  localFields : Date -> Z * Z * Z
}.

Definition msPerDay : Z := 86400000.

(** ECMAScript [MakeDay] restricted to the proleptic Gregorian calendar:
    the day number of the first of month [m] (0-based, any integer) of year
    [y], plus [d - 1]. *)
Definition daysFromCivil (y m d : Z) : Z :=
  let ym := y + m / 12 in
  let mn := m mod 12 in
  let y' := if mn <? 2 then ym - 1 else ym in
  let era := y' / 400 in
  let yoe := y' - era * 400 in
  let mp := (mn + 10) mod 12 in
  let doy := (153 * mp + 2) / 5 in
  let doe := yoe * 365 + yoe / 4 - yoe / 100 + doy in
  era * 146097 + doe - 719468 + (d - 1).

(** The year, the month (0-based) and the day of the month of a day number:
    the inverse of [daysFromCivil] on proper dates. *)
Definition civilFromDays (z : Z) : Z * Z * Z :=
  let z := z + 719468 in
  let era := z / 146097 in
  let doe := z - era * 146097 in
  let yoe := (doe - doe / 1460 + doe / 36524 - doe / 146096) / 365 in
  let y := yoe + era * 400 in
  let doy := doe - (365 * yoe + yoe / 4 - yoe / 100) in
  let mp := (5 * doy + 2) / 153 in
  let d := doy - (153 * mp + 2) / 5 + 1 in
  let m := if mp <? 10 then mp + 3 else mp - 9 in
  (if m <=? 2 then y + 1 else y, m - 1, d).

(** A server whose local zone is UTC.  The constructor takes a year from 0
    to 99 as a year of the twentieth century. *)
#[export] Instance UTC : LocalTime := {|
  startOfDay t := t - t mod msPerDay;
  endOfDay t := t - t mod msPerDay + (msPerDay - 1);
  localDate y m d :=
    let y' := if (0 <=? y) && (y <=? 99) then 1900 + y else y in
    daysFromCivil y' m d * msPerDay;
  localFields t := civilFromDays (t / msPerDay)
|}.

(* ===================================================================== *)
(** ** Documents (src/models) *)
(* ===================================================================== *)

(** An [ObjectId]; route parameters are compared with [_id.toString()],
    which is injective, so one type serves both. *)
Definition ObjectId := nat.
Bind Scope nat_scope with ObjectId.

(** A task document.  [order] is a JavaScript number; the routes compute
    integers only (the default 0, [maxOrder + 1], [i + 1], the swap), and
    the embedding covers the stores whose orders are integers: a fractional
    order, which only the body of an update could bring in, is outside
    it. *)
Module Task.
Record t : Type := mk {
    _id : ObjectId;
    title : string;
    completed : bool;
    order : Z;
    startDate : option Date;
    endDate : option Date;
    userId : ObjectId;
    createdBy : option ObjectId;
    subtasks : list ObjectId;
    createdAt : Date
  }.

Definition setOrder (x : t) (o : Z) : t :=
    mk (_id x) (title x) (completed x) o (startDate x) (endDate x)
       (userId x) (createdBy x) (subtasks x) (createdAt x).
End Task.

Module Subtask.
Record t : Type := mk {
    _id : ObjectId;
    title : string;
    completed : bool;
    notes : string;
    taskId : ObjectId
  }.
End Subtask.

Module SubtaskInstance.
Record t : Type := mk {
    subtaskId : ObjectId;
    completed : bool
  }.
End SubtaskInstance.

Module TaskInstance.
Record t : Type := mk {
    _id : ObjectId;
    taskId : ObjectId;
    userId : ObjectId;
    date : Date;
    completed : bool;
    subtaskInstances : list SubtaskInstance.t
  }.
End TaskInstance.

Module ResetCode.
Record t : Type := mk {
    _id : ObjectId;
    code : string;
    email : string;
    generatedBy : ObjectId;
    isUsed : bool;
    usedAt : option Date;
    expiresAt : Date
  }.
End ResetCode.

Module User.
  (** Modelled from the spec: src/models/User.js is not part of the sources;
      the spec's data model gives a user a name, a unique email, a hashed
      password and an admin flag. *)
Record t : Type := mk {
    _id : ObjectId;
    name : string;
    email : string;
    password : string;
    isAdmin : bool
  }.
End User.

Module Whitelist.
  (** Modelled from the spec: src/models/Whitelist.js is not part of the
      sources; the spec's data model gives an entry an email, a creator
      reference, a used flag and a user reference once consumed. *)
Record t : Type := mk {
    _id : ObjectId;
    email : string;
    addedBy : ObjectId;
    isUsed : bool;
    usedBy : option ObjectId
  }.
End Whitelist.

(** The collections, each in natural order. *)
Record Db : Type := mkDb {
  users : list User.t;
  whitelist : list Whitelist.t;
  resetCodes : list ResetCode.t;
  tasks : list Task.t;
  subtasks : list Subtask.t;
  taskInstances : list TaskInstance.t
}.

Definition emptyDb : Db := mkDb [] [] [] [] [] [].

Definition withTasks (db : Db) (ts : list Task.t) : Db :=
  mkDb (users db) (whitelist db) (resetCodes db) ts (subtasks db)
       (taskInstances db).

Definition withSubtasks (db : Db) (ss : list Subtask.t) : Db :=
  mkDb (users db) (whitelist db) (resetCodes db) (tasks db) ss
       (taskInstances db).

Definition withTaskInstances (db : Db) (xs : list TaskInstance.t) : Db :=
  mkDb (users db) (whitelist db) (resetCodes db) (tasks db) (subtasks db) xs.

Definition withResetCodes (db : Db) (rs : list ResetCode.t) : Db :=
  mkDb (users db) (whitelist db) rs (tasks db) (subtasks db)
       (taskInstances db).

Definition withUsers (db : Db) (us : list User.t) : Db :=
  mkDb us (whitelist db) (resetCodes db) (tasks db) (subtasks db)
       (taskInstances db).

Definition withWhitelist (db : Db) (ws : list Whitelist.t) : Db :=
  mkDb (users db) ws (resetCodes db) (tasks db) (subtasks db)
       (taskInstances db).

(** [res.status(code).json({ message })] *)
Record Response : Type := mkResponse {
  status : nat;
  message : string
}.

Definition isSome {A : Type} (o : option A) : bool :=
  match o with Some _ => true | None => false end.

Definition isEmpty {A : Type} (l : list A) : bool :=
  match l with [] => true | _ :: _ => false end.

(* ===================================================================== *)
(** ** src/models/Task.js *)
(* ===================================================================== *)

Module TaskModel.
Section WithZone.
Context `{LocalTime}.

(** The sort [{ order: 1, createdAt: -1 }] of the queries. *)
Definition cmpOrderNewest (a b : Task.t) : Z :=
  if negb (Task.order a =? Task.order b)
  then Task.order a - Task.order b
  else Task.createdAt b - Task.createdAt a.

(** The query of [findTasksForDate]: the user's tasks with
    [startDate <= endOfDay], [endDate >= startOfDay], neither null. *)
Definition activeOn (userId : ObjectId) (date : Date) (t : Task.t) : bool :=
  (Task.userId t =? userId)%nat
  && match Task.startDate t with
     | Some s => s <=? endOfDay date
     | None => false
     end
  && match Task.endDate t with
     | Some e => startOfDay date <=? e
     | None => false
     end.

(** [taskSchema.statics.findTasksForDate], called with a [Date]. *)
Definition findTasksForDate (coll : list Task.t) (userId : ObjectId)
    (date : Date) : list Task.t :=
  Js.sort cmpOrderNewest (filter (activeOn userId date) coll).

(** The static-task filter the routes repeat: the user's tasks with
    [startDate] null or [endDate] null (a missing field matches null). *)
Definition isStaticOf (userId : ObjectId) (t : Task.t) : bool :=
  (Task.userId t =? userId)%nat
  && (negb (isSome (Task.startDate t)) || negb (isSome (Task.endDate t))).

(** The [endDate] validator of the schema, with [this] the document. *)
Definition endDateValidator (this : Task.t) (value : option Date) : bool :=
  match Task.startDate this, value with
  | Some s, Some v => s <=? v
  | _, _ => true
  end.

(** The validation that [save()] runs on a document, new or loaded: every
    path is validated again, also one the request did not touch.  The other
    validators of the schema (the title's length, the required [userId])
    repeat what the routes check before they store a document, so that a
    stored document passes them; the [endDate] validator decides. *)
Definition validates (doc : Task.t) : bool :=
  endDateValidator doc (Task.endDate doc).

End WithZone.
End TaskModel.

(* ===================================================================== *)
(** ** src/routes/tasks.js *)
(* ===================================================================== *)

Module Tasks.

(** Body of [POST /tasks]; [errors] is [validationResult(req)], the dates are
    the time values [new Date(...)] gives for the validated strings. *)
Record CreateBody : Type := mkCreateBody {
  c_errors : list string;
  c_title : string;
  c_startDate : option Date;
  c_endDate : option Date
}.

(** Body of [PUT /tasks/:id]: the paths of the schema that
    [Object.assign(task, req.body)] may set, validated by the route or not,
    each with the value Mongoose casts it to ([u_completed] is the cast of
    what [isBoolean()] let through; the handler passes it on and never tests
    it).  An order in the body is taken as an integer. *)
Record UpdateBody : Type := mkUpdateBody {
  u_errors : list string;
  u_title : option string;
  u_completed : option bool;
  u_startDate : option Date;
  u_endDate : option Date;
  u_order : option Z;
  u_userId : option ObjectId;
  u_createdBy : option ObjectId;
  u_subtasks : option (list ObjectId)
}.

(** The write of [doc.save()] for a loaded document that passed validation:
    the stored document with the same [_id] is replaced. *)
Definition saveTask (coll : list Task.t) (doc : Task.t) : list Task.t :=
  map (fun t => if (Task._id t =? Task._id doc)%nat then doc else t) coll.

(** [doc.save()] of a loaded document: [None] is the validation error it
    throws, before anything is written. *)
Definition save (coll : list Task.t) (doc : Task.t) : option (list Task.t) :=
  if TaskModel.validates doc then Some (saveTask coll doc) else None.

(** Documents saved one after the other, each awaited: the ones written
    before the first that fails, and whether all were written. *)
Fixpoint saveEach (docs : list Task.t) : list Task.t * bool :=
  match docs with
  | [] => ([], true)
  | doc :: rest =>
      if TaskModel.validates doc
      then let '(saved, ok) := saveEach rest in (doc :: saved, ok)
      else ([], false)
  end.

Section WithZone.
Context `{LocalTime}.

(** The date-range guard of the create routes (lines 106-118). *)
Definition endBeforeStart (startDate endDate : option Date) : bool :=
  match startDate, endDate with
  | Some s, Some e => startOfDay e <? startOfDay s
  | _, _ => false
  end.

(** The both-or-neither guard of the create routes (lines 120-123). *)
Definition oneDateOnly (startDate endDate : option Date) : bool :=
  (isSome startDate && negb (isSome endDate))
  || (negb (isSome startDate) && isSome endDate).

(** "Get the next order number for this task type" (lines 125-148). *)
Definition nextOrder (coll : list Task.t) (userId : ObjectId)
    (startDate endDate : option Date) : Z :=
  let existingTasks :=
    match startDate, endDate with
    | Some s, Some _ => TaskModel.findTasksForDate coll userId s
    | _, _ => filter (TaskModel.isStaticOf userId) coll
    end in
  if (0 <? List.length existingTasks)%nat
  then Js.plusOne
         (Js.mathMax (map (fun t => Js.orZero (Task.order t)) existingTasks))
  else 1.

(** [new Task(taskData)] followed by [task.save()]: every path of a new
    document is validated; the title constraints of the schema repeat those
    of the request validators. *)
Definition createTask (db : Db) (doc : Task.t) : option Db :=
  if TaskModel.endDateValidator doc (Task.endDate doc)
  then Some (withTasks db (tasks db ++ [doc]))
  else None.

(** [router.post('/')]; [oid] is the new document's id, [now] the time of
    the request. *)
Definition post (db : Db) (user : User.t) (body : CreateBody)
    (oid : ObjectId) (now : Date) : Response * Db :=
  if negb (isEmpty (c_errors body)) then
    (mkResponse 400 "Validation failed", db)
  else
  let startDate := c_startDate body in
  let endDate := c_endDate body in
  if endBeforeStart startDate endDate then
    (mkResponse 400 "End date must be after or equal to start date", db)
  else if oneDateOnly startDate endDate then
    (mkResponse 400 "Both start date and end date must be provided together, or leave both empty for static tasks", db)
  else
  let order := nextOrder (tasks db) (User._id user) startDate endDate in
  let both := isSome startDate && isSome endDate in
  let task :=
    Task.mk oid (c_title body) false order
      (if both then startDate else None) (if both then endDate else None)
      (User._id user) None [] now in
  match createTask db task with
  | Some db' => (mkResponse 201 "Task created successfully", db')
  | None => (mkResponse 500 "Server error while creating task", db)
  end.

(** [Object.assign(task, updates)] *)
Definition assign (task : Task.t) (updates : UpdateBody) : Task.t :=
  Task.mk (Task._id task)
    (match u_title updates with Some x => x | None => Task.title task end)
    (match u_completed updates with
     | Some x => x | None => Task.completed task end)
    (match u_order updates with Some x => x | None => Task.order task end)
    (match u_startDate updates with
     | Some x => Some x | None => Task.startDate task end)
    (match u_endDate updates with
     | Some x => Some x | None => Task.endDate task end)
    (match u_userId updates with Some x => x | None => Task.userId task end)
    (match u_createdBy updates with
     | Some x => Some x | None => Task.createdBy task end)
    (match u_subtasks updates with
     | Some x => x | None => Task.subtasks task end)
    (Task.createdAt task).

(** [Subtask.updateMany({ taskId: id }, { completed })] *)
Definition cascadeCompleted (coll : list Subtask.t) (id : ObjectId)
    (completed : bool) : list Subtask.t :=
  map (fun s =>
         if (Subtask.taskId s =? id)%nat
         then Subtask.mk (Subtask._id s) (Subtask.title s) completed
                (Subtask.notes s) (Subtask.taskId s)
         else s) coll.

(** The value of a date path in memory when [save()] validates: the body's
    value where the body has one, else the document's own [Date] object,
    which the guard (when it ran) has set to the start of its day in
    place. *)
Definition inMemory (checked : bool) (body stored : option Date)
    : option Date :=
  match body with
  | Some x => Some x
  | None => if checked then option_map startOfDay stored else stored
  end.

(** [router.put('/:id')].  The guard normalises the document's own [Date]
    objects in place when the body leaves a date out; the store keeps the old
    value (an in-place change is not a modified path) but the schema validator
    of [endDate], which [save()] runs on every update, reads the objects in
    memory. *)
Definition put (db : Db) (user : User.t) (id : ObjectId)
    (updates : UpdateBody) : Response * Db :=
  if negb (isEmpty (u_errors updates)) then
    (mkResponse 400 "Validation failed", db)
  else
  match Js.find (fun t => (Task._id t =? id)%nat
                          && (Task.userId t =? User._id user)%nat)
                (tasks db) with
  | None => (mkResponse 404 "Task not found", db)
  | Some task =>
    let checked := isSome (u_startDate updates) || isSome (u_endDate updates) in
    let startDate :=
      match u_startDate updates with
      | Some x => Some x | None => Task.startDate task end in
    let endDate :=
      match u_endDate updates with
      | Some x => Some x | None => Task.endDate task end in
    if checked && endBeforeStart startDate endDate then
      (mkResponse 400 "End date must be after or equal to start date", db)
    else
    let db1 :=
      match u_completed updates with
      | Some c => withSubtasks db (cascadeCompleted (subtasks db) id c)
      | None => db
      end in
    let task' := assign task updates in
    let valid :=
      match inMemory checked (u_startDate updates) (Task.startDate task),
            inMemory checked (u_endDate updates) (Task.endDate task) with
      | Some s, Some v => s <=? v
      | _, _ => true
      end in
    if valid then
      (mkResponse 200 "Task updated successfully",
       withTasks db1 (saveTask (tasks db1) task'))
    else
      (mkResponse 500 "Server error while updating task", db1)
  end.

(** [router.delete('/:id')] *)
Definition delete (db : Db) (user : User.t) (id : ObjectId) : Response * Db :=
  match Js.find (fun t => (Task._id t =? id)%nat
                          && (Task.userId t =? User._id user)%nat)
                (tasks db) with
  | None => (mkResponse 404 "Task not found", db)
  | Some _ =>
    let db1 :=
      withSubtasks db
        (filter (fun s => negb (Subtask.taskId s =? id)%nat) (subtasks db)) in
    let db2 :=
      withTasks db1
        (filter (fun t => negb (Task._id t =? id)%nat) (tasks db1)) in
    (mkResponse 200 "Task and its subtasks deleted successfully", db2)
  end.

(** *** [router.put('/:id/order')] *)

(** [hasProperOrders] (lines 372-373). *)
Definition hasProperOrders (allTasks : list Task.t) : bool :=
  Js.every (fun t => 0 <? Task.order t) allTasks
  && (Js.setSize (map Task.order allTasks) =? List.length allTasks)%nat.

(** The comparator of the repair sort (lines 378-381). *)
Definition cmpRepair (a b : Task.t) : Z :=
  if negb (Task.order a =? Task.order b)
  then Js.orZero (Task.order a) - Js.orZero (Task.order b)
  else Task.createdAt a - Task.createdAt b.

(** The comparator of the re-sort (line 392). *)
Definition cmpOrder (a b : Task.t) : Z := Task.order a - Task.order b.

(** "Assign sequential orders" (lines 384-387): [allTasks[i].order = i + 1],
    for [i] counting from the given start. *)
Fixpoint assignSequential (i : nat) (allTasks : list Task.t) : list Task.t :=
  match allTasks with
  | [] => []
  | t :: rest =>
      Task.setOrder t (Z.of_nat i + 1) :: assignSequential (S i) rest
  end.

(** The repair step (lines 371-389): the array after the step and the
    documents its loop saves, in the order of the saves. *)
Definition repairOrders (allTasks : list Task.t)
    : list Task.t * list Task.t :=
  if hasProperOrders allTasks then (allTasks, [])
  else
    let renumbered := assignSequential 0 (Js.sort cmpRepair allTasks) in
    (renumbered, renumbered).

(** "Calculate target position" (lines 404-412). *)
Definition targetIndex (direction : string) (currentIndex len : nat)
    : option nat :=
  if (direction =? "up")%string && (0 <? currentIndex)%nat
  then Some (currentIndex - 1)%nat
  else if (direction =? "down")%string && (currentIndex <? len - 1)%nat
  then Some (currentIndex + 1)%nat
  else None.

(** The handler from the size check on (lines 366-444), on the array
    [allTasks] the query returned: the response and the documents saved, in
    the order of the saves.  A save that fails validation throws, which the
    handler answers with 500: the repair loop awaits its saves in turn and
    stops at the first that fails; the two saves of the swap are started
    together ([Promise.all]), so each of the two documents that passes
    validation is written, whatever becomes of the other. *)
Definition reorderGroup (allTasks : list Task.t) (id : ObjectId)
    (direction : string) : Response * list Task.t :=
  if (List.length allTasks <=? 1)%nat then
    (mkResponse 400 "Cannot reorder with only one task", [])
  else
  let '(repaired, renumbered) := repairOrders allTasks in
  let '(saved, ok) := saveEach renumbered in
  if negb ok then
    (mkResponse 500 "Server error while updating task order", saved)
  else
  let sorted := Js.sort cmpOrder repaired in
  match Js.findIndex (fun t => (Task._id t =? id)%nat) sorted with
  | None => (mkResponse 404 "Task not found in list", saved)
  | Some currentIndex =>
    match targetIndex direction currentIndex (List.length sorted) with
    | None =>
        (mkResponse 400 ("Cannot move task " ++ direction)%string, saved)
    | Some targetIndex =>
      match nth_error sorted currentIndex, nth_error sorted targetIndex with
      | Some currentTask, Some targetTask =>
          let swapped :=
            [Task.setOrder currentTask (Task.order targetTask);
             Task.setOrder targetTask (Task.order currentTask)] in
          if forallb TaskModel.validates swapped then
            (mkResponse 200 "Task order updated successfully",
             saved ++ swapped)
          else
            (mkResponse 500 "Server error while updating task order",
             saved ++ filter TaskModel.validates swapped)
      | _, _ => (mkResponse 500 "Server error while updating task order", saved)
      end
    end
  end.

(** The validator [body('direction').isIn(['up', 'down'])]. *)
Definition directionErrors (direction : string) : list string :=
  if (direction =? "up")%string || (direction =? "down")%string then []
  else ["Direction must be up or down"].

(** The sibling group the handler queries (lines 344-361). *)
Definition siblingGroup (coll : list Task.t) (userId : ObjectId)
    (task : Task.t) : list Task.t :=
  match Task.startDate task, Task.endDate task with
  | Some s, Some _ => TaskModel.findTasksForDate coll userId s
  | _, _ =>
      Js.sort TaskModel.cmpOrderNewest
        (filter (TaskModel.isStaticOf userId) coll)
  end.

(** [router.put('/:id/order')] *)
Definition putOrder (db : Db) (user : User.t) (id : ObjectId)
    (direction : string) : Response * Db :=
  if negb (isEmpty (directionErrors direction)) then
    (mkResponse 400 "Validation failed", db)
  else
  match Js.find (fun t => (Task._id t =? id)%nat
                          && (Task.userId t =? User._id user)%nat)
                (tasks db) with
  | None => (mkResponse 404 "Task not found", db)
  | Some task =>
    let allTasks := siblingGroup (tasks db) (User._id user) task in
    let '(response, saved) := reorderGroup allTasks id direction in
    (response, withTasks db (fold_left saveTask saved (tasks db)))
  end.

End WithZone.
End Tasks.

(* ===================================================================== *)
(** ** src/routes/taskInstances.js *)
(* ===================================================================== *)

Module TaskInstances.

(** The test [/^\d{4}-\d{2}-\d{2}$/] and [date.split('-').map(Number)]. *)
Definition isDigit (c : ascii) : bool :=
  ((48 <=? nat_of_ascii c) && (nat_of_ascii c <=? 57))%nat.

Definition digit (c : ascii) : Z := Z.of_nat (nat_of_ascii c) - 48.

Definition number (cs : list ascii) : Z :=
  fold_left (fun acc c => 10 * acc + digit c) cs 0.

Definition isDash (c : ascii) : bool := (nat_of_ascii c =? 45)%nat.

Definition parseDateParam (date : string) : option (Z * Z * Z) :=
  match list_ascii_of_string date with
  | [y1; y2; y3; y4; s1; m1; m2; s2; d1; d2] =>
      if forallb isDigit [y1; y2; y3; y4; m1; m2; d1; d2]
         && isDash s1 && isDash s2
      then Some (number [y1; y2; y3; y4], number [m1; m2], number [d1; d2])
      else None
  | _ => None
  end.

(** [task.populate('subtasks')]: the referenced documents, in the order of
    the references; a reference whose document is gone is left out. *)
Definition populateSubtasks (coll : list Subtask.t) (task : Task.t)
    : list Subtask.t :=
  flat_map
    (fun ref =>
       match Js.find (fun s => (Subtask._id s =? ref)%nat) coll with
       | Some s => [s]
       | None => []
       end)
    (Task.subtasks task).

Definition hasId (ids : list ObjectId) (x : ObjectId) : bool :=
  existsb (fun y => (y =? x)%nat) ids.

(** "Create new instance with all current subtasks" (lines 38-41). *)
Definition seedSubtaskInstances (subs : list Subtask.t)
    : list SubtaskInstance.t :=
  map (fun subtask => SubtaskInstance.mk (Subtask._id subtask) false) subs.

(** "Add missing subtask instances" (lines 59-69): the entries pushed. *)
Definition missingSubtaskInstances (subs : list Subtask.t)
    (existing : list SubtaskInstance.t) : list SubtaskInstance.t :=
  let instanceSubtaskIds := map SubtaskInstance.subtaskId existing in
  map (fun subtask => SubtaskInstance.mk (Subtask._id subtask) false)
      (filter (fun subtask => negb (hasId instanceSubtaskIds
                                          (Subtask._id subtask)))
              subs).

(** "Remove subtask instances for deleted subtasks" (lines 72-75). *)
Definition keepCurrent (subs : list Subtask.t)
    (entries : list SubtaskInstance.t) : list SubtaskInstance.t :=
  let currentSubtaskIds := map Subtask._id subs in
  filter (fun si => hasId currentSubtaskIds (SubtaskInstance.subtaskId si))
         entries.

Definition setSubtaskInstances (x : TaskInstance.t)
    (entries : list SubtaskInstance.t) : TaskInstance.t :=
  TaskInstance.mk (TaskInstance._id x) (TaskInstance.taskId x)
    (TaskInstance.userId x) (TaskInstance.date x) (TaskInstance.completed x)
    entries.

(** [instance.save()] of a loaded instance. *)
Definition saveInstance (coll : list TaskInstance.t) (doc : TaskInstance.t)
    : list TaskInstance.t :=
  map (fun x => if (TaskInstance._id x =? TaskInstance._id doc)%nat
                then doc else x) coll.

Definition findInstance (coll : list TaskInstance.t)
    (taskId userId : ObjectId) (date : Date) : option TaskInstance.t :=
  Js.find (fun x => (TaskInstance.taskId x =? taskId)%nat
                    && (TaskInstance.userId x =? userId)%nat
                    && (TaskInstance.date x =? date))
          coll.

Section WithZone.
Context `{LocalTime}.

(** [getOrCreateTaskInstance], called with a [Date]; [None] is the thrown
    "Task not found".  [oid] is the id of the instance if one is created. *)
Definition getOrCreateTaskInstance (db : Db) (taskId userId : ObjectId)
    (date : Date) (oid : ObjectId) : option (TaskInstance.t * Db) :=
  let targetDate := startOfDay date in
  let found := findInstance (taskInstances db) taskId userId targetDate in
  match Js.find (fun t => (Task._id t =? taskId)%nat) (tasks db) with
  | None => None
  | Some task =>
    let subs := populateSubtasks (subtasks db) task in
    match found with
    | None =>
        let instance :=
          TaskInstance.mk oid taskId userId targetDate false
            (seedSubtaskInstances subs) in
        Some (instance,
              withTaskInstances db (taskInstances db ++ [instance]))
    | Some instance =>
        let added :=
          missingSubtaskInstances subs (TaskInstance.subtaskInstances instance)
        in
        let pushed := TaskInstance.subtaskInstances instance ++ added in
        let originalLength := List.length pushed in
        let kept := keepCurrent subs pushed in
        let needsUpdate :=
          negb (isEmpty added)
          || negb (List.length kept =? originalLength)%nat in
        let instance' := setSubtaskInstances instance kept in
        if needsUpdate
        then Some (instance',
                   withTaskInstances db
                     (saveInstance (taskInstances db) instance'))
        else Some (instance', db)
    end
  end.

(** The loop of [router.get('/date/:date')] (lines 122-137): the instances
    pushed so far and the store; [oid i] is the id a new instance gets in
    iteration [i]; a throw inside the loop body is logged and skipped. *)
Fixpoint collectInstances (db : Db) (userId : ObjectId) (targetDate : Date)
    (oid : nat -> ObjectId) (i : nat) (activeTasks : list Task.t)
    : list TaskInstance.t * Db :=
  match activeTasks with
  | [] => ([], db)
  | task :: rest =>
      match getOrCreateTaskInstance db (Task._id task) userId targetDate
              (oid i) with
      | Some (instance, db') =>
          let '(more, db'') :=
            collectInstances db' userId targetDate oid (S i) rest in
          (instance :: more, db'')
      | None => collectInstances db userId targetDate oid (S i) rest
      end
  end.

(** [router.get('/date/:date')] *)
Definition getDate (db : Db) (user : User.t) (date : string)
    (oid : nat -> ObjectId) : Response * list TaskInstance.t * Db :=
  match parseDateParam date with
  | None => (mkResponse 400 "Invalid date format. Use YYYY-MM-DD", [], db)
  | Some (year, month, day) =>
      let targetDate := localDate year (month - 1) day in
      let activeTasks :=
        TaskModel.findTasksForDate (tasks db) (User._id user) targetDate in
      let '(taskInstances, db') :=
        collectInstances db (User._id user) targetDate oid 0 activeTasks in
      (mkResponse 200 "", taskInstances, db')
  end.

End WithZone.

(** [router.put('/:id/complete')] *)
Definition putComplete (db : Db) (user : User.t) (id : ObjectId)
    : Response * Db :=
  match Js.find (fun x => (TaskInstance._id x =? id)%nat
                          && (TaskInstance.userId x =? User._id user)%nat)
                (taskInstances db) with
  | None => (mkResponse 404 "Task instance not found", db)
  | Some instance =>
      let completed := negb (TaskInstance.completed instance) in
      let instance' :=
        TaskInstance.mk (TaskInstance._id instance)
          (TaskInstance.taskId instance) (TaskInstance.userId instance)
          (TaskInstance.date instance) completed
          (map (fun subtaskInstance =>
                  SubtaskInstance.mk
                    (SubtaskInstance.subtaskId subtaskInstance) completed)
               (TaskInstance.subtaskInstances instance)) in
      (mkResponse 200 "Task instance updated successfully",
       withTaskInstances db (saveInstance (taskInstances db) instance'))
  end.

(** [subtaskInstance.completed = !subtaskInstance.completed] on the entry
    [find] returned, the first one with the given [subtaskId]. *)
Fixpoint toggleFirst (subtaskId : ObjectId) (entries : list SubtaskInstance.t)
    : list SubtaskInstance.t :=
  match entries with
  | [] => []
  | si :: rest =>
      if (SubtaskInstance.subtaskId si =? subtaskId)%nat
      then SubtaskInstance.mk (SubtaskInstance.subtaskId si)
             (negb (SubtaskInstance.completed si)) :: rest
      else si :: toggleFirst subtaskId rest
  end.

(** [router.put('/:id/subtask/:subtaskId')] *)
Definition putSubtask (db : Db) (user : User.t) (id subtaskId : ObjectId)
    : Response * Db :=
  match Js.find (fun x => (TaskInstance._id x =? id)%nat
                          && (TaskInstance.userId x =? User._id user)%nat)
                (taskInstances db) with
  | None => (mkResponse 404 "Task instance not found", db)
  | Some instance =>
    match Js.find (fun si => (SubtaskInstance.subtaskId si =? subtaskId)%nat)
                  (TaskInstance.subtaskInstances instance) with
    | None => (mkResponse 404 "Subtask instance not found", db)
    | Some _ =>
      let entries :=
        toggleFirst subtaskId (TaskInstance.subtaskInstances instance) in
      let allSubtasksCompleted := Js.every SubtaskInstance.completed entries in
      let anySubtaskIncomplete :=
        Js.some (fun si => negb (SubtaskInstance.completed si)) entries in
      let completed :=
        if allSubtasksCompleted && (0 <? List.length entries)%nat then true
        else if anySubtaskIncomplete && TaskInstance.completed instance
        then false
        else TaskInstance.completed instance in
      let instance' :=
        TaskInstance.mk (TaskInstance._id instance)
          (TaskInstance.taskId instance) (TaskInstance.userId instance)
          (TaskInstance.date instance) completed entries in
      (mkResponse 200 "Subtask instance updated successfully",
       withTaskInstances db (saveInstance (taskInstances db) instance'))
    end
  end.

End TaskInstances.

(* ===================================================================== *)
(** ** src/routes/admin.js *)
(* ===================================================================== *)

Module Admin.

(** [adminAuth] *)
Definition adminAuth (user : User.t) : bool := User.isAdmin user.

Definition accessDenied : Response :=
  mkResponse 403 "Access denied. Admin privileges required.".

(** Body of [POST /admin/create-task]. *)
Record CreateTaskBody : Type := mkCreateTaskBody {
  ct_errors : list string;
  ct_userId : ObjectId;
  ct_title : string;
  ct_startDate : option Date;
  ct_endDate : option Date
}.

Section WithZone.
Context `{LocalTime}.

(** [router.post('/create-task')]; the guards and the order computation are
    the text of [POST /tasks] again. *)
Definition postCreateTask (db : Db) (user : User.t) (body : CreateTaskBody)
    (oid : ObjectId) (now : Date) : Response * Db :=
  if negb (adminAuth user) then (accessDenied, db)
  else if negb (isEmpty (ct_errors body)) then
    (mkResponse 400 "Validation failed", db)
  else
  let userId := ct_userId body in
  let startDate := ct_startDate body in
  let endDate := ct_endDate body in
  match Js.find (fun u => (User._id u =? userId)%nat) (users db) with
  | None => (mkResponse 404 "Target user not found", db)
  | Some targetUser =>
    if Tasks.endBeforeStart startDate endDate then
      (mkResponse 400 "End date must be after or equal to start date", db)
    else if Tasks.oneDateOnly startDate endDate then
      (mkResponse 400 "Both start date and end date must be provided together, or leave both empty for static tasks", db)
    else
    let order := Tasks.nextOrder (tasks db) userId startDate endDate in
    let both := isSome startDate && isSome endDate in
    let task :=
      Task.mk oid (ct_title body) false order
        (if both then startDate else None) (if both then endDate else None)
        userId (Some (User._id user)) [] now in
    match Tasks.createTask db task with
    | Some db' =>
        (mkResponse 201
           ("Task created successfully for " ++ User.name targetUser)%string,
         db')
    | None => (mkResponse 500 "Server error while creating task", db)
    end
  end.

End WithZone.

(** [generateResetCode], on the value [r] that [Math.random()] returned, a
    double of [0, 1): the product and the sum are rounded as doubles, and the
    floor, an integer of six digits, prints as its decimal numeral. *)
Definition generateResetCode (r : Js.Double.t) : string :=
  NilZero.string_of_int
    (Z.to_int (Js.Double.floor (Js.Double.resetCodeNumber r))).

(** "Expire any existing unused codes for this email" (lines 358-362). *)
Definition expireUnused (coll : list ResetCode.t) (email : string)
    (now : Date) : list ResetCode.t :=
  map (fun rc =>
         if (ResetCode.email rc =? email)%string && negb (ResetCode.isUsed rc)
         then ResetCode.mk (ResetCode._id rc) (ResetCode.code rc)
                (ResetCode.email rc) (ResetCode.generatedBy rc) true
                (Some now) (ResetCode.expiresAt rc)
         else rc) coll.

(** [ResetCode.findOne({ code, isUsed: false })] found a document. *)
Definition unusedWithCode (coll : list ResetCode.t) (code : string) : bool :=
  isSome (Js.find (fun rc => (ResetCode.code rc =? code)%string
                             && negb (ResetCode.isUsed rc)) coll).

(** "Generate unique code" (lines 364-371): the loop draws [random i],
    [random (i+1)], ... until a code is free; [fuel] bounds the number of
    draws, [None] is a loop still running after them. *)
Fixpoint uniqueCode (fuel : nat) (random : nat -> Js.Double.t) (i : nat)
    (coll : list ResetCode.t) : option string :=
  match fuel with
  | O => None
  | S fuel' =>
      let code := generateResetCode (random i) in
      if unusedWithCode coll code
      then uniqueCode fuel' random (S i) coll
      else Some code
  end.

(** [resetCode.save()] of a new document: the schema's unique index on
    [code] refuses a code that any stored document has; [expiresAt] takes
    its default, 24 hours from now. *)
Definition createResetCode (coll : list ResetCode.t) (doc : ResetCode.t)
    : option (list ResetCode.t) :=
  if existsb (fun rc => (ResetCode.code rc =? ResetCode.code doc)%string) coll
  then None
  else Some (coll ++ [doc]).

(** Body of [POST /admin/reset-codes]. *)
Record ResetCodeBody : Type := mkResetCodeBody {
  rc_errors : list string;
  rc_email : string
}.

(** [router.post('/reset-codes')]; the outer [None] is a code loop that has
    not ended within [fuel] draws. *)
Definition postResetCodes (db : Db) (user : User.t) (body : ResetCodeBody)
    (random : nat -> Js.Double.t) (fuel : nat) (oid : ObjectId) (now : Date)
    : option (Response * Db) :=
  if negb (adminAuth user) then Some (accessDenied, db)
  else if negb (isEmpty (rc_errors body)) then
    Some (mkResponse 400 "Validation failed", db)
  else
  let email := rc_email body in
  match Js.find (fun u => (User.email u =? email)%string) (users db) with
  | None => Some (mkResponse 404 "User not found with this email", db)
  | Some _ =>
    match Js.find (fun w => (Whitelist.email w =? email)%string)
                  (whitelist db) with
    | None => Some (mkResponse 403 "Email is not whitelisted", db)
    | Some _ =>
      let expired := expireUnused (resetCodes db) email now in
      let db1 := withResetCodes db expired in
      match uniqueCode fuel random 0 expired with
      | None => None
      | Some code =>
        let resetCode :=
          ResetCode.mk oid code email (User._id user) false None
            (now + 24 * 60 * 60 * 1000) in
        match createResetCode expired resetCode with
        | Some coll =>
            Some (mkResponse 201 "Reset code generated successfully",
                  withResetCodes db coll)
        | None =>
            Some (mkResponse 500 "Server error while generating reset code",
                  db1)
        end
      end
    end
  end.

(** [router.delete('/reset-codes/:id')] *)
Definition deleteResetCode (db : Db) (user : User.t) (id : ObjectId)
    : Response * Db :=
  if negb (adminAuth user) then (accessDenied, db)
  else
  match Js.find (fun rc => (ResetCode._id rc =? id)%nat) (resetCodes db) with
  | None => (mkResponse 404 "Reset code not found", db)
  | Some _ =>
      (mkResponse 200 "Reset code deleted successfully",
       withResetCodes db
         (filter (fun rc => negb (ResetCode._id rc =? id)%nat)
                 (resetCodes db)))
  end.

End Admin.

(* ===================================================================== *)
(** ** src/routes/auth.js *)
(* ===================================================================== *)

Module Auth.

Definition bootstrapEmail : string := "admin@afterlife.org.in".

Definition adminEmails : list string :=
  [ "admin@afterlife.org.in";
    "xanderash44@gmail.com";
    "ashrith@afterlife.org.in";
    "dhanush@afterlife.org.in";
    "austinak@afterlife.org.in" ].

(** Body of [POST /auth/register]. *)
Record RegisterBody : Type := mkRegisterBody {
  r_errors : list string;
  r_name : string;
  r_email : string;
  r_password : string
}.

(** Body of [POST /auth/reset-password]. *)
Record ResetPasswordBody : Type := mkResetPasswordBody {
  p_errors : list string;
  p_email : string;
  p_code : string;
  p_newPassword : string
}.

(** [Whitelist.findOneAndUpdate({ email }, { isUsed: true, usedBy })]: the
    first entry with the email is updated. *)
Fixpoint markUsed (coll : list Whitelist.t) (email : string)
    (usedBy : ObjectId) : list Whitelist.t :=
  match coll with
  | [] => []
  | w :: rest =>
      if (Whitelist.email w =? email)%string
      then Whitelist.mk (Whitelist._id w) (Whitelist.email w)
             (Whitelist.addedBy w) true (Some usedBy) :: rest
      else w :: markUsed rest email usedBy
  end.

Section WithHash.
(** The password hashing the user model applies when a password is saved
    (src/models/User.js is not part of the sources). *)
Variable hash : string -> string.

(** [router.post('/register')]; [oid] is the new user's id. *)
Definition register (db : Db) (body : RegisterBody) (oid : ObjectId)
    : Response * Db :=
  if negb (isEmpty (r_errors body)) then
    (mkResponse 400 "Validation failed", db)
  else
  let email := r_email body in
  match Js.find (fun u => (User.email u =? email)%string) (users db) with
  | Some _ => (mkResponse 400 "User already exists with this email", db)
  | None =>
    let gate :=
      if negb (email =? bootstrapEmail)%string then
        match Js.find (fun w => (Whitelist.email w =? email)%string)
                      (whitelist db) with
        | None =>
            Some (mkResponse 403 "Email not authorized. Please contact admin to whitelist your email address.")
        | Some whitelistEntry =>
            if Whitelist.isUsed whitelistEntry
            then Some (mkResponse 400 "This email has already been used for registration")
            else None
        end
      else None in
    match gate with
    | Some response => (response, db)
    | None =>
      let isAdmin := existsb (fun e => (e =? email)%string) adminEmails in
      let user :=
        User.mk oid (r_name body) email (hash (r_password body)) isAdmin in
      let db1 := withUsers db (users db ++ [user]) in
      let db2 :=
        if negb (email =? bootstrapEmail)%string
        then withWhitelist db1 (markUsed (whitelist db1) email oid)
        else db1 in
      (mkResponse 201 "User registered successfully", db2)
    end
  end.

(** [router.post('/reset-password')] *)
Definition resetPassword (db : Db) (body : ResetPasswordBody) (now : Date)
    : Response * Db :=
  if negb (isEmpty (p_errors body)) then
    (mkResponse 400 "Validation failed", db)
  else
  let email := p_email body in
  match Js.find (fun u => (User.email u =? email)%string) (users db) with
  | None => (mkResponse 404 "User not found with this email", db)
  | Some user =>
    match Js.find (fun w => (Whitelist.email w =? email)%string)
                  (whitelist db) with
    | None => (mkResponse 403 "Email is not whitelisted", db)
    | Some _ =>
      match Js.find (fun rc => (ResetCode.code rc =? p_code body)%string
                               && (ResetCode.email rc =? email)%string
                               && negb (ResetCode.isUsed rc)
                               && (now <? ResetCode.expiresAt rc))
                    (resetCodes db) with
      | None => (mkResponse 400 "Invalid or expired access code", db)
      | Some resetCode =>
        let user' :=
          User.mk (User._id user) (User.name user) (User.email user)
            (hash (p_newPassword body)) (User.isAdmin user) in
        let db1 :=
          withUsers db
            (map (fun u => if (User._id u =? User._id user)%nat
                           then user' else u) (users db)) in
        let resetCode' :=
          ResetCode.mk (ResetCode._id resetCode) (ResetCode.code resetCode)
            (ResetCode.email resetCode) (ResetCode.generatedBy resetCode)
            true (Some now) (ResetCode.expiresAt resetCode) in
        (mkResponse 200 "Password reset successfully. You can now login with your new password.",
         withResetCodes db1
           (map (fun rc => if (ResetCode._id rc =? ResetCode._id resetCode)%nat
                           then resetCode' else rc) (resetCodes db1)))
      end
    end
  end.

End WithHash.
End Auth.

(* ===================================================================== *)
(** ** More of src/models/Task.js *)
(* ===================================================================== *)

(** What [setHours] gives in a zone whose days are intervals of instants
    (UTC is one): the start of a day is not after its instants, the end not
    before them, both follow time, and the two ends of a day name the same
    day. *)
Record LawfulZone `{LocalTime} : Prop := {
  startOfDay_le : forall t, startOfDay t <= t;
  endOfDay_ge : forall t, t <= endOfDay t;
  startOfDay_mono : forall a b, a <= b -> startOfDay a <= startOfDay b;
  endOfDay_mono : forall a b, a <= b -> endOfDay a <= endOfDay b;
  startOfDay_endOfDay : forall t, startOfDay (endOfDay t) = startOfDay t;
  endOfDay_startOfDay : forall t, endOfDay (startOfDay t) = endOfDay t
}.

Module TaskMethods.
Section WithZone.
Context `{LocalTime}.

(** [taskSchema.methods.isActiveOnDate] *)
Definition isActiveOnDate (this : Task.t) (date : Date) : bool :=
  match Task.startDate this, Task.endDate this with
  | Some s, Some e =>
      let checkDate := startOfDay date in
      let start := startOfDay s in
      let end_ := endOfDay e in
      (start <=? checkDate) && (checkDate <=? end_)
  | _, _ => false
  end.

End WithZone.
End TaskMethods.

(* ===================================================================== *)
(** ** More of src/routes/tasks.js *)
(* ===================================================================== *)

Module TaskLists.

(** The sort [{ createdAt: -1 }]. *)
Definition cmpNewest (a b : Task.t) : Z := Task.createdAt b - Task.createdAt a.

(** [.populate('subtasks')] on a query result: every task with its subtask
    documents. *)
Definition populated (db : Db) (found : list Task.t)
    : list (Task.t * list Subtask.t) :=
  map (fun t => (t, TaskInstances.populateSubtasks (subtasks db) t)) found.

(** [router.get('/')] *)
Definition get (db : Db) (user : User.t) : list (Task.t * list Subtask.t) :=
  populated db
    (Js.sort cmpNewest
       (filter (fun t => (Task.userId t =? User._id user)%nat) (tasks db))).

Section WithZone.
Context `{LocalTime}.

(** [router.get('/static')] *)
Definition getStatic (db : Db) (user : User.t)
    : list (Task.t * list Subtask.t) :=
  populated db
    (Js.sort TaskModel.cmpOrderNewest
       (filter (TaskModel.isStaticOf (User._id user)) (tasks db))).

(** [router.get('/today')]; [today] is [new Date()]. *)
Definition getToday (db : Db) (user : User.t) (today : Date)
    : list (Task.t * list Subtask.t) :=
  populated db (TaskModel.findTasksForDate (tasks db) (User._id user) today).

End WithZone.
End TaskLists.

Module TaskSubtasks.

(** Body of [POST /tasks/:taskId/subtasks]. *)
Record Body : Type := mkBody {
  errors : list string;
  title : string;
  notes : option string
}.

Definition setSubtasks (x : Task.t) (refs : list ObjectId) : Task.t :=
  Task.mk (Task._id x) (Task.title x) (Task.completed x) (Task.order x)
    (Task.startDate x) (Task.endDate x) (Task.userId x) (Task.createdBy x)
    refs (Task.createdAt x).

(** [instance.subtaskInstances.push({ subtaskId, completed: false })] *)
Definition pushEntry (subtaskId : ObjectId) (x : TaskInstance.t)
    : TaskInstance.t :=
  TaskInstances.setSubtaskInstances x
    (TaskInstance.subtaskInstances x
     ++ [SubtaskInstance.mk subtaskId false]).

(** [TaskInstance.find({ taskId, userId })] *)
Definition instancesOf (coll : list TaskInstance.t) (taskId userId : ObjectId)
    : list TaskInstance.t :=
  filter (fun x => (TaskInstance.taskId x =? taskId)%nat
                   && (TaskInstance.userId x =? userId)%nat) coll.

(** [router.post('/:taskId/subtasks')]; [oid] is the new subtask's id.  The
    task is saved after the subtask is stored: when its validation fails the
    route answers 500 and the subtask stays.  The loop saves the instances
    one by one, each after its push. *)
Definition post (db : Db) (user : User.t) (taskId : ObjectId) (body : Body)
    (oid : ObjectId) : Response * Db :=
  if negb (isEmpty (errors body)) then
    (mkResponse 400 "Validation failed", db)
  else
  match Js.find (fun t => (Task._id t =? taskId)%nat
                          && (Task.userId t =? User._id user)%nat)
                (tasks db) with
  | None => (mkResponse 404 "Task not found", db)
  | Some task =>
    let subtask :=
      Subtask.mk oid (title body) false
        (match notes body with
         | Some n => if (n =? "")%string then "" else n
         | None => ""
         end)
        taskId in
    let db1 := withSubtasks db (subtasks db ++ [subtask]) in
    let task' := setSubtasks task (Task.subtasks task ++ [oid]) in
    match Tasks.save (tasks db1) task' with
    | None => (mkResponse 500 "Server error while creating subtask", db1)
    | Some saved =>
      let db2 := withTasks db1 saved in
      let existingInstances :=
        instancesOf (taskInstances db2) taskId (User._id user) in
      let db3 :=
        withTaskInstances db2
          (fold_left TaskInstances.saveInstance
             (map (pushEntry oid) existingInstances) (taskInstances db2)) in
      (mkResponse 201 "Subtask created successfully", db3)
    end
  end.

End TaskSubtasks.

(* ===================================================================== *)
(** ** src/routes/subtasks.js *)
(* ===================================================================== *)

Module Subtasks.

(** Body of [PUT /subtasks/:id]: the paths of the schema that
    [Object.assign(subtask, req.body)] may set.  [completed] is the value as
    it came, one that [isBoolean()] lets through; [taskId] is not validated
    by the route. *)
Record UpdateBody : Type := mkUpdateBody {
  errors : list string;
  title : option string;
  completed : option Js.BooleanInput;
  notes : option string;
  taskId : option ObjectId
}.

(** [Object.assign(subtask, updates)]; the document holds the cast of the
    body's [completed], and the body's [taskId] in place of the populated
    task. *)
Definition assign (subtask : Subtask.t) (updates : UpdateBody) : Subtask.t :=
  Subtask.mk (Subtask._id subtask)
    (match title updates with Some x => x | None => Subtask.title subtask end)
    (match completed updates with
     | Some x => Js.castBoolean x | None => Subtask.completed subtask end)
    (match notes updates with Some x => x | None => Subtask.notes subtask end)
    (match taskId updates with
     | Some x => x | None => Subtask.taskId subtask end).

(** [subtask.save()] of a loaded subtask. *)
Definition saveSubtask (coll : list Subtask.t) (doc : Subtask.t)
    : list Subtask.t :=
  map (fun s => if (Subtask._id s =? Subtask._id doc)%nat then doc else s)
      coll.

Definition setCompleted (x : Task.t) (c : bool) : Task.t :=
  Task.mk (Task._id x) (Task.title x) c (Task.order x) (Task.startDate x)
    (Task.endDate x) (Task.userId x) (Task.createdBy x) (Task.subtasks x)
    (Task.createdAt x).

(** The parent check of the update route (lines 42-60), on the store after
    the subtask was saved, for the task [subtask.taskId._id] names after the
    assignment; [c] is the truthiness of [updates.completed], which the two
    tests read for the updated subtask.  [None] is a throw: the task is
    gone, or its [save()] fails validation. *)
Definition recomputeParent (db : Db) (taskId id : ObjectId) (c : bool)
    : option Db :=
  match Js.find (fun t => (Task._id t =? taskId)%nat) (tasks db) with
  | None => None
  | Some task =>
    let subs := TaskInstances.populateSubtasks (subtasks db) task in
    if (0 <? List.length subs)%nat then
      let allSubtasksCompleted :=
        Js.every (fun st => if (Subtask._id st =? id)%nat then c
                            else Subtask.completed st) subs in
      let anySubtaskIncomplete :=
        Js.some (fun st => if (Subtask._id st =? id)%nat then negb c
                           else negb (Subtask.completed st)) subs in
      if allSubtasksCompleted then
        option_map (withTasks db)
          (Tasks.save (tasks db) (setCompleted task true))
      else if anySubtaskIncomplete && Task.completed task then
        option_map (withTasks db)
          (Tasks.save (tasks db) (setCompleted task false))
      else Some db
    else Some db
  end.

(** [router.put('/:id')].  [populate('taskId')] leaves null for a task that
    is gone, and reading its [userId] throws: the 500 of the handler. *)
Definition put (db : Db) (user : User.t) (id : ObjectId)
    (updates : UpdateBody) : Response * Db :=
  if negb (isEmpty (errors updates)) then
    (mkResponse 400 "Validation failed", db)
  else
  match Js.find (fun s => (Subtask._id s =? id)%nat) (subtasks db) with
  | None => (mkResponse 404 "Subtask not found", db)
  | Some subtask =>
    match Js.find (fun t => (Task._id t =? Subtask.taskId subtask)%nat)
                  (tasks db) with
    | None => (mkResponse 500 "Server error while updating subtask", db)
    | Some task =>
      if negb (Task.userId task =? User._id user)%nat then
        (mkResponse 403 "Access denied", db)
      else
      let db1 :=
        withSubtasks db (saveSubtask (subtasks db) (assign subtask updates)) in
      match completed updates with
      | None => (mkResponse 200 "Subtask updated successfully", db1)
      | Some v =>
        match recomputeParent db1 (Subtask.taskId (assign subtask updates))
                id (Js.truthy v) with
        | Some db2 => (mkResponse 200 "Subtask updated successfully", db2)
        | None => (mkResponse 500 "Server error while updating subtask", db1)
        end
      end
    end
  end.

(** [Task.findByIdAndUpdate(id, { $pull: { subtasks: subtaskId } })] *)
Definition pullSubtask (coll : list Task.t) (taskId subtaskId : ObjectId)
    : list Task.t :=
  map (fun t =>
         if (Task._id t =? taskId)%nat
         then TaskSubtasks.setSubtasks t
                (filter (fun ref => negb (ref =? subtaskId)%nat)
                        (Task.subtasks t))
         else t) coll.

(** The filter of the delete route on one instance (lines 104-108). *)
Definition dropEntry (subtaskId : ObjectId) (x : TaskInstance.t)
    : TaskInstance.t :=
  TaskInstances.setSubtaskInstances x
    (filter (fun si => negb (SubtaskInstance.subtaskId si =? subtaskId)%nat)
            (TaskInstance.subtaskInstances x)).

(** [router.delete('/:id')] *)
Definition delete (db : Db) (user : User.t) (id : ObjectId) : Response * Db :=
  match Js.find (fun s => (Subtask._id s =? id)%nat) (subtasks db) with
  | None => (mkResponse 404 "Subtask not found", db)
  | Some subtask =>
    match Js.find (fun t => (Task._id t =? Subtask.taskId subtask)%nat)
                  (tasks db) with
    | None => (mkResponse 500 "Server error while deleting subtask", db)
    | Some task =>
      if negb (Task.userId task =? User._id user)%nat then
        (mkResponse 403 "Access denied", db)
      else
      let db1 := withTasks db (pullSubtask (tasks db) (Task._id task) id) in
      let existingInstances :=
        TaskSubtasks.instancesOf (taskInstances db1) (Task._id task)
          (User._id user) in
      let db2 :=
        withTaskInstances db1
          (fold_left TaskInstances.saveInstance
             (map (dropEntry id) existingInstances) (taskInstances db1)) in
      let db3 :=
        withSubtasks db2
          (filter (fun s => negb (Subtask._id s =? id)%nat) (subtasks db2)) in
      (mkResponse 200 "Subtask deleted successfully", db3)
    end
  end.

End Subtasks.

(* ===================================================================== *)
(** ** More of src/routes/admin.js *)
(* ===================================================================== *)

Module AdminUsers.

(** [router.delete('/users/:id')] *)
Definition deleteUser (db : Db) (user : User.t) (id : ObjectId)
    : Response * Db :=
  if negb (Admin.adminAuth user) then (Admin.accessDenied, db)
  else if (id =? User._id user)%nat then
    (mkResponse 400 "Cannot delete your own admin account", db)
  else
  match Js.find (fun u => (User._id u =? id)%nat) (users db) with
  | None => (mkResponse 404 "User not found", db)
  | Some target =>
    let db1 :=
      withTasks db
        (filter (fun t => negb (Task.userId t =? id)%nat) (tasks db)) in
    let db2 :=
      withUsers db1
        (filter (fun u => negb (User._id u =? id)%nat) (users db1)) in
    (mkResponse 200
       ("User " ++ User.name target
        ++ " and all their data deleted successfully")%string,
     db2)
  end.

(** Body of [POST /admin/whitelist]. *)
Record WhitelistBody : Type := mkWhitelistBody {
  w_errors : list string;
  w_email : string
}.

(** [router.post('/whitelist')]; a new entry is not used (the register route
    reads [isUsed] of the entries this route makes). *)
Definition postWhitelist (db : Db) (user : User.t) (body : WhitelistBody)
    (oid : ObjectId) : Response * Db :=
  if negb (Admin.adminAuth user) then (Admin.accessDenied, db)
  else if negb (isEmpty (w_errors body)) then
    (mkResponse 400 "Validation failed", db)
  else
  let email := w_email body in
  match Js.find (fun w => (Whitelist.email w =? email)%string)
                (whitelist db) with
  | Some _ => (mkResponse 400 "Email is already whitelisted", db)
  | None =>
    match Js.find (fun u => (User.email u =? email)%string) (users db) with
    | Some _ =>
        (mkResponse 400 "Email is already registered as a user", db)
    | None =>
        (mkResponse 201 "Email added to whitelist successfully",
         withWhitelist db
           (whitelist db
            ++ [Whitelist.mk oid email (User._id user) false None]))
    end
  end.

(** [router.delete('/whitelist/:id')] *)
Definition deleteWhitelist (db : Db) (user : User.t) (id : ObjectId)
    : Response * Db :=
  if negb (Admin.adminAuth user) then (Admin.accessDenied, db)
  else
  match Js.find (fun w => (Whitelist._id w =? id)%nat) (whitelist db) with
  | None => (mkResponse 404 "Whitelist entry not found", db)
  | Some whitelistEntry =>
    if Whitelist.isUsed whitelistEntry then
      (mkResponse 400
         "Cannot remove email that has been used for registration", db)
    else
      (mkResponse 200 "Email removed from whitelist successfully",
       withWhitelist db
         (filter (fun w => negb (Whitelist._id w =? id)%nat) (whitelist db)))
  end.

Section WithZone.
Context `{LocalTime}.

(** [new Date(d.getFullYear(), d.getMonth(), d.getDate(), 0, 0, 0, 0)]: the
    route builds its bounds and the instance date from the fields of the
    target date, through the constructor once more. *)
Definition rebuild (d : Date) : Date :=
  let '(y, m, day) := localFields d in localDate y m day.

(** The query of the route (lines 445-449): the user's tasks that start by
    [dayEnd] and end at [dayStart] or later, neither date null. *)
Definition activeIn (userId : ObjectId) (dayStart dayEnd : Date)
    (t : Task.t) : bool :=
  (Task.userId t =? userId)%nat
  && match Task.startDate t with
     | Some s => s <=? dayEnd
     | None => false
     end
  && match Task.endDate t with
     | Some e => dayStart <=? e
     | None => false
     end.

(** The loop of [router.get('/user-tasks/:userId/date/:date')] (lines
    455-487), [day] being the rebuilt date: an instance is created where none
    is stored; a stored one is pushed as it is. *)
Fixpoint collectStored (db : Db) (userId : ObjectId) (day : Date)
    (oid : nat -> ObjectId) (i : nat) (activeTasks : list Task.t)
    : list TaskInstance.t * Db :=
  match activeTasks with
  | [] => ([], db)
  | task :: rest =>
      match TaskInstances.findInstance (taskInstances db) (Task._id task)
              userId day with
      | Some instance =>
          let '(more, db') :=
            collectStored db userId day oid (S i) rest in
          (instance :: more, db')
      | None =>
          let instance :=
            TaskInstance.mk (oid i) (Task._id task) userId
              day false
              (TaskInstances.seedSubtaskInstances
                 (TaskInstances.populateSubtasks (subtasks db) task)) in
          let '(more, db') :=
            collectStored
              (withTaskInstances db (taskInstances db ++ [instance]))
              userId day oid (S i) rest in
          (instance :: more, db')
      end
  end.

(** [router.get('/user-tasks/:userId/date/:date')]; the bounds of the query
    and the date of the instances are rebuilt from the fields of the target
    date (the end of the day, with the hours 23:59:59.999, as [setHours]
    makes it from the rebuilt midnight). *)
Definition getUserTasks (db : Db) (user : User.t) (userId : ObjectId)
    (date : string) (oid : nat -> ObjectId)
    : Response * list TaskInstance.t * Db :=
  if negb (Admin.adminAuth user) then (Admin.accessDenied, [], db)
  else
  match TaskInstances.parseDateParam date with
  | None => (mkResponse 400 "Invalid date format. Use YYYY-MM-DD", [], db)
  | Some (year, month, day) =>
    match Js.find (fun u => (User._id u =? userId)%nat) (users db) with
    | None => (mkResponse 404 "User not found", [], db)
    | Some _ =>
      let targetDate := localDate year (month - 1) day in
      let dayStart := rebuild targetDate in
      let activeTasks :=
        Js.sort TaskModel.cmpOrderNewest
          (filter (activeIn userId dayStart (endOfDay dayStart)) (tasks db)) in
      let '(taskInstances, db') :=
        collectStored db userId dayStart oid 0 activeTasks in
      (mkResponse 200 "", taskInstances, db')
    end
  end.

End WithZone.
End AdminUsers.

(* ===================================================================== *)
(** ** More of src/routes/auth.js *)
(* ===================================================================== *)

Module AuthCodes.

(** Body of [POST /auth/verify-reset-code]. *)
Record VerifyBody : Type := mkVerifyBody {
  v_errors : list string;
  v_email : string;
  v_code : string
}.

(** [router.post('/verify-reset-code')]; the route writes nothing. *)
Definition verifyResetCode (db : Db) (body : VerifyBody) (now : Date)
    : Response :=
  if negb (isEmpty (v_errors body)) then mkResponse 400 "Validation failed"
  else
  let email := v_email body in
  match Js.find (fun u => (User.email u =? email)%string) (users db) with
  | None => mkResponse 404 "User not found with this email"
  | Some _ =>
    match Js.find (fun w => (Whitelist.email w =? email)%string)
                  (whitelist db) with
    | None => mkResponse 403 "Email is not whitelisted"
    | Some _ =>
      match Js.find (fun rc => (ResetCode.code rc =? v_code body)%string
                               && (ResetCode.email rc =? email)%string
                               && negb (ResetCode.isUsed rc)
                               && (now <? ResetCode.expiresAt rc))
                    (resetCodes db) with
      | None => mkResponse 400 "Invalid or expired access code"
      | Some _ => mkResponse 200 "Access code is valid"
      end
    end
  end.

End AuthCodes.

(* ===================================================================== *)
(** ** The API as a transition system *)
(* ===================================================================== *)

Module Api.
Section WithEnv.
Context `{LocalTime}.
Variable hash : string -> string.

(** One request served: the store before and after. *)
Inductive Step : Db -> Db -> Prop :=
| step_register db body oid :
    Step db (snd (Auth.register hash db body oid))
| step_resetPassword db body now :
    Step db (snd (Auth.resetPassword hash db body now))
| step_postResetCodes db user body random fuel oid now response db' :
    Admin.postResetCodes db user body random fuel oid now
      = Some (response, db') ->
    Step db db'
| step_deleteResetCode db user id :
    Step db (snd (Admin.deleteResetCode db user id))
| step_postCreateTask db user body oid now :
    Step db (snd (Admin.postCreateTask db user body oid now))
| step_postTask db user body oid now :
    Step db (snd (Tasks.post db user body oid now))
| step_putTask db user id updates :
    Step db (snd (Tasks.put db user id updates))
| step_deleteTask db user id :
    Step db (snd (Tasks.delete db user id))
| step_putOrder db user id direction :
    Step db (snd (Tasks.putOrder db user id direction))
| step_getDate db user date oid :
    Step db (snd (TaskInstances.getDate db user date oid))
| step_putComplete db user id :
    Step db (snd (TaskInstances.putComplete db user id))
| step_putSubtask db user id subtaskId :
    Step db (snd (TaskInstances.putSubtask db user id subtaskId))
(** The other routes (login, whitelist and user management, the subtask
    routes, the admin's view of a user's day) never write a reset code. *)
| step_other db db' :
    resetCodes db' = resetCodes db ->
    Step db db'.

(** The stores the API reaches from one without reset codes. *)
Inductive Reachable : Db -> Prop :=
| reach_init db : resetCodes db = [] -> Reachable db
| reach_step db db' : Reachable db -> Step db db' -> Reachable db'.

End WithEnv.
End Api.

(* ===================================================================== *)
(** ** Properties the specification names *)
(* ===================================================================== *)

Module Spec.

(** The sequence 1..n. *)
Definition oneTo (n : nat) : list Z := map Z.of_nat (seq 1 n).

(** "A dense, collision-free 1..N sequence": the order values of the group
    are 1..N, each once. *)
Definition dense (group : list Task.t) : Prop :=
  Permutation (map Task.order group) (oneTo (List.length group)).

(** "Existing order ascending, then creation time ascending". *)
Definition orderThenCreated (a b : Task.t) : Prop :=
  Task.order a < Task.order b
  \/ (Task.order a = Task.order b /\ Task.createdAt a <= Task.createdAt b).


(** Tasks with the same sort key. *)
Definition sameKey (a b : Task.t) : bool :=
  (Task.order a =? Task.order b) && (Task.createdAt a =? Task.createdAt b).



(** [b] is [a] but for its order value. *)
Definition sameButOrder (a b : Task.t) : Prop :=
  exists o, b = Task.setOrder a o.

(** "Every current subtask of the task": the documents of the subtask
    collection that the task's [subtasks] array refers to, in the order of
    the array. *)
Definition currentSubtasks (coll : list Subtask.t) (task : Task.t)
    : list Subtask.t :=
  flat_map (fun ref => filter (fun s => (Subtask._id s =? ref)%nat) coll)
           (Task.subtasks task).

(** What a read of a day leaves for one task: [instance] against the task's
    current subtasks [subs] and the instance stored before the read, if any.
    A new instance is incomplete with one incomplete entry per subtask; an
    existing one gains an incomplete entry per subtask it lacks, loses the
    entries of subtasks gone from the task, and keeps the other entries with
    their flags. *)
Definition synced (subs : list Subtask.t) (before : option TaskInstance.t)
    (instance : TaskInstance.t) : Prop :=
  match before with
  | None =>
      TaskInstance.completed instance = false
      /\ TaskInstance.subtaskInstances instance
         = map (fun s => SubtaskInstance.mk (Subtask._id s) false) subs
  | Some old =>
      TaskInstance._id instance = TaskInstance._id old
      /\ TaskInstance.completed instance = TaskInstance.completed old
      /\ (forall s, In s subs ->
            ~ In (Subtask._id s)
                (map SubtaskInstance.subtaskId
                     (TaskInstance.subtaskInstances old)) ->
            In (SubtaskInstance.mk (Subtask._id s) false)
               (TaskInstance.subtaskInstances instance))
      /\ (forall si, In si (TaskInstance.subtaskInstances instance) ->
            In (SubtaskInstance.subtaskId si) (map Subtask._id subs))
      /\ (forall si, In si (TaskInstance.subtaskInstances old) ->
            In (SubtaskInstance.subtaskId si) (map Subtask._id subs) ->
            In si (TaskInstance.subtaskInstances instance))
      /\ (forall si, In si (TaskInstance.subtaskInstances instance) ->
            In si (TaskInstance.subtaskInstances old)
            \/ (SubtaskInstance.completed si = false
                /\ ~ In (SubtaskInstance.subtaskId si)
                       (map SubtaskInstance.subtaskId
                            (TaskInstance.subtaskInstances old))))
  end.

(** The unused codes of an email. *)
Definition unusedFor (coll : list ResetCode.t) (email : string)
    : list ResetCode.t :=
  filter (fun rc => (ResetCode.email rc =? email)%string
                    && negb (ResetCode.isUsed rc)) coll.

(** The unused, unexpired codes of an email at time [now]. *)
Definition liveFor (coll : list ResetCode.t) (email : string) (now : Date)
    : list ResetCode.t :=
  filter (fun rc => now <? ResetCode.expiresAt rc) (unusedFor coll email).

End Spec.

(* ===================================================================== *)
(** ** Scenarios *)
(* ===================================================================== *)

Module Scenario.

Definition alice : User.t := User.mk 7 "Alice" "alice@example.com" "h" false.
Definition root : User.t :=
  User.mk 1 "Admin" "admin@afterlife.org.in" "h" true.

Definition static (id : ObjectId) (order created : Z) : Task.t :=
  Task.mk id "task" false order None None 7 None [] created.

(** Two static tasks with orders 1 and 3 (the task of order 2 was deleted). *)
Definition gapGroup : list Task.t := [static 1 1 10; static 3 3 30].

Definition day (n : Z) : Date := n * msPerDay.

Definition ranged (id : ObjectId) (order : Z) (s e : Z) (created : Z)
    : Task.t :=
  Task.mk id "task" false order (Some (day s)) (Some (day e)) 7 None []
    created.

(** X runs over days 1-10, Y is created for day 5 and Z for days 1-5: the
    create route gives X order 1, Y order 2 and Z order 2. *)
Definition overlapDb : Db :=
  withTasks emptyDb [ranged 1 1 1 10 100; ranged 2 2 5 5 200;
                     ranged 3 2 1 5 300].

(** The store after the seed script: the demo user, no whitelist entry. *)
Definition seededDb : Db :=
  withUsers emptyDb [User.mk 2 "Demo User" "demo@example.com" "h" false].

Definition demoRegistration : Auth.RegisterBody :=
  Auth.mkRegisterBody [] "Demo" "demo@example.com" "secret1".

(** A static task and the update that sets only its start date. *)
Definition staticDb : Db := withTasks emptyDb [static 1 1 10].

Definition onlyStart : Tasks.UpdateBody :=
  Tasks.mkUpdateBody [] None None (Some (day 19875)) None None
    None None None.

End Scenario.

(* ===================================================================== *)
(** ** Shapes of documents and stores *)
(* ===================================================================== *)

Module Inv.

(** An instance as the routes create it: for the user, open, with open
    entries. *)
Definition freshInstanceOf (userId : ObjectId) (x : TaskInstance.t) : Prop :=
  TaskInstance.userId x = userId
  /\ TaskInstance.completed x = false
  /\ Forall (fun si => SubtaskInstance.completed si = false)
            (TaskInstance.subtaskInstances x).

(** Two tasks trade their order values: what the two saves of a successful
    reorder do to the collection. *)
Definition exchangeOrders (a b : Task.t) (t : Task.t) : Task.t :=
  if (Task._id t =? Task._id a)%nat then Task.setOrder t (Task.order b)
  else if (Task._id t =? Task._id b)%nat then Task.setOrder t (Task.order a)
  else t.

(** The same task, recorded as created by someone. *)
Definition setCreatedBy (t : Task.t) (by_ : option ObjectId) : Task.t :=
  Task.mk (Task._id t) (Task.title t) (Task.completed t) (Task.order t)
    (Task.startDate t) (Task.endDate t) (Task.userId t) by_
    (Task.subtasks t) (Task.createdAt t).

(** A stored task after the documents [docs], of pairwise distinct ids,
    were saved: the saved document with its id, if there is one. *)
Definition savedAs (docs : list Task.t) (t : Task.t) : Task.t :=
  match Js.find (fun d => (Task._id d =? Task._id t)%nat) docs with
  | Some d => d
  | None => t
  end.

(** The direction that undoes a move. *)
Definition opposite (direction : string) : string :=
  if (direction =? "up")%string then "down" else "up".

(** A target date that the admin route rebuilds to the start of its own
    day, the day whose end [setHours] gives from either: so it is for a
    date of a year from 100 on; the years 0 to 99 come back as 1900 to
    1999. *)
Definition rebuiltInPlace `{LocalTime} (targetDate : Date) : Prop :=
  AdminUsers.rebuild targetDate = startOfDay targetDate
  /\ endOfDay (startOfDay targetDate) = endOfDay targetDate.

End Inv.

(* ===================================================================== *)
(** ** Facts about the array primitives *)
(* ===================================================================== *)

Section SortFacts.
Context {A : Type}.
Variable cmp : A -> A -> Z.

Lemma insertBy_perm (x : A) (l : list A) :
  Permutation (Js.insertBy cmp x l) (x :: l).
Proof.
  induction l as [|y l IH]; simpl.
  - apply Permutation_refl.
  - destruct (cmp x y <=? 0).
    + apply Permutation_refl.
    + apply perm_trans with (y :: x :: l).
      * apply perm_skip, IH.
      * apply perm_swap.
Qed.

Lemma sort_perm (l : list A) : Permutation (Js.sort cmp l) l.
Proof.
  induction l as [|x l IH]; simpl.
  - apply perm_nil.
  - apply perm_trans with (x :: Js.sort cmp l).
    + apply insertBy_perm.
    + apply perm_skip, IH.
Qed.

Lemma sort_length (l : list A) : List.length (Js.sort cmp l) = List.length l.
Proof. apply Permutation_length, sort_perm. Qed.

Lemma sort_In (l : list A) (x : A) : In x (Js.sort cmp l) <-> In x l.
Proof.
  split; apply Permutation_in.
  - apply sort_perm.
  - apply Permutation_sym, sort_perm.
Qed.

(** Stability: the members of a class on which the comparator never says
    "after" keep their relative order. *)
Lemma insertBy_filter (p : A -> bool) (x : A) (l : list A) :
  (forall y, In y l -> p x = true -> p y = true -> cmp x y <= 0) ->
  filter p (Js.insertBy cmp x l) = filter p (x :: l).
Proof.
  induction l as [|y l IH]; intros Hcls; simpl.
  - reflexivity.
  - destruct (cmp x y <=? 0) eqn:E.
    + reflexivity.
    + simpl. rewrite IH by (intros; apply Hcls; simpl; auto).
      simpl. destruct (p x) eqn:Px, (p y) eqn:Py; try reflexivity.
      exfalso. apply Z.leb_gt in E.
      specialize (Hcls y (or_introl eq_refl) eq_refl Py). lia.
Qed.

Lemma sort_stable (p : A -> bool) (l : list A) :
  (forall x y, p x = true -> p y = true -> cmp x y <= 0) ->
  filter p (Js.sort cmp l) = filter p l.
Proof.
  intros Hcls. induction l as [|x l IH]; simpl.
  - reflexivity.
  - rewrite insertBy_filter by (intros; apply Hcls; assumption).
    simpl. rewrite IH. reflexivity.
Qed.

Section Preorder.
Hypothesis cmp_total : forall a b, cmp a b <= 0 \/ cmp b a <= 0.
Hypothesis cmp_trans :
  forall a b c, cmp a b <= 0 -> cmp b c <= 0 -> cmp a c <= 0.

Lemma insertBy_sorted (x : A) (l : list A) :
  StronglySorted (fun a b => cmp a b <= 0) l ->
  StronglySorted (fun a b => cmp a b <= 0) (Js.insertBy cmp x l).
Proof.
  induction 1 as [|y l Hs IH Hall]; simpl.
  - constructor; constructor.
  - destruct (cmp x y <=? 0) eqn:E.
    + apply Z.leb_le in E. constructor.
      * constructor; assumption.
      * constructor; [assumption|].
        eapply Forall_impl; [|exact Hall].
        intros z Hz. eapply cmp_trans; eassumption.
    + apply Z.leb_gt in E. constructor; [exact IH|].
      apply Forall_forall. intros z Hz.
      apply (Permutation_in _ (insertBy_perm x l)) in Hz.
      destruct Hz as [<-|Hz].
      * destruct (cmp_total y x); [assumption|lia].
      * rewrite Forall_forall in Hall. apply Hall, Hz.
Qed.

Lemma sort_sorted (l : list A) :
  StronglySorted (fun a b => cmp a b <= 0) (Js.sort cmp l).
Proof.
  induction l as [|x l IH]; simpl.
  - constructor.
  - apply insertBy_sorted, IH.
Qed.
End Preorder.

(** Sorting an array that is in order leaves it as it is. *)
Lemma sort_of_sorted (l : list A) :
  StronglySorted (fun a b => cmp a b <= 0) l -> Js.sort cmp l = l.
Proof.
  induction 1 as [|x l Hs IH Hall]; simpl.
  - reflexivity.
  - rewrite IH. destruct l as [|y l]; simpl.
    + reflexivity.
    + inversion Hall as [|? ? Hxy _]; subst.
      apply Z.leb_le in Hxy. rewrite Hxy. reflexivity.
Qed.

Section Extremes.
Hypothesis cmp_anti : forall a b, cmp b a = - cmp a b.






End Extremes.

End SortFacts.

Section ArrayFacts.
Context {A : Type}.

Lemma findIndex_Some (p : A -> bool) (l : list A) (i : nat) :
  Js.findIndex p l = Some i ->
  exists x, nth_error l i = Some x /\ p x = true.
Proof.
  revert i. induction l as [|y l IH]; intros i Hf; simpl in Hf.
  - discriminate.
  - destruct (p y) eqn:Py.
    + injection Hf as <-. exists y. split; [reflexivity|exact Py].
    + destruct (Js.findIndex p l) as [j|]; [|discriminate].
      injection Hf as <-. apply IH. reflexivity.
Qed.



Lemma find_map_same (p : A -> bool) (f : A -> A) (l : list A) :
  (forall x, In x l -> p (f x) = p x) ->
  Js.find p (map f l) = option_map f (Js.find p l).
Proof.
  unfold Js.find. induction l as [|x l IH]; intros Hp; simpl.
  - reflexivity.
  - rewrite (Hp x) by (simpl; auto). destruct (p x).
    + reflexivity.
    + apply IH. intros; apply Hp; simpl; auto.
Qed.

Lemma find_app_miss (p : A -> bool) (l : list A) (x : A) :
  p x = false -> Js.find p (l ++ [x]) = Js.find p l.
Proof.
  unfold Js.find. intros Px. induction l as [|y l IH]; simpl.
  - rewrite Px. reflexivity.
  - destruct (p y); [reflexivity|exact IH].
Qed.

Lemma find_In (p : A -> bool) (l : list A) (x : A) :
  Js.find p l = Some x -> In x l /\ p x = true.
Proof. unfold Js.find. apply find_some. Qed.

End ArrayFacts.

Lemma nodup_length_le (l : list Z) :
  (List.length (nodup Z.eq_dec l) <= List.length l)%nat.
Proof.
  induction l as [|x l IH]; simpl.
  - lia.
  - destruct (in_dec Z.eq_dec x l); simpl; lia.
Qed.

Lemma setSize_full (l : list Z) :
  Js.setSize l = List.length l <-> NoDup l.
Proof.
  unfold Js.setSize. split.
  - induction l as [|x l IH]; simpl; intros Hlen.
    + constructor.
    + destruct (in_dec Z.eq_dec x l) as [Hin|Hin].
      * pose proof (nodup_length_le l). lia.
      * simpl in Hlen. constructor; [exact Hin|]. apply IH. lia.
  - intros Hnd. rewrite nodup_fixed_point by exact Hnd. reflexivity.
Qed.

Lemma NoDup_map_filter {Doc Key : Type} (keep : Doc -> bool)
    (key : Doc -> Key) (coll : list Doc) :
  NoDup (map key coll) -> NoDup (map key (filter keep coll)).
Proof.
  intros Hnd. induction coll as [|doc coll IH]; simpl in *.
  - constructor.
  - apply NoDup_cons_iff in Hnd. destruct Hnd as [Hdoc Hrest].
    destruct (keep doc); simpl; [|apply IH, Hrest].
    apply NoDup_cons; [|apply IH, Hrest].
    rewrite in_map_iff. intros [other [Hkey Hin]].
    apply filter_In in Hin. apply Hdoc, in_map_iff.
    exists other. tauto.
Qed.

Lemma NoDup_map_inj {A B : Type} (f : A -> B) (l : list A) (x y : A) :
  NoDup (map f l) -> In x l -> In y l -> f x = f y -> x = y.
Proof.
  induction l as [|z l IH]; simpl; intros Hnd Hx Hy Hf; [contradiction|].
  inversion Hnd as [|? ? Hz Hl]; subst.
  destruct Hx as [->|Hx], Hy as [->|Hy].
  - reflexivity.
  - exfalso. apply Hz. rewrite Hf. apply in_map, Hy.
  - exfalso. apply Hz. rewrite <- Hf. apply in_map, Hx.
  - apply IH; assumption.
Qed.

(** *** The order comparators *)

Lemma orZero_id (x : Z) : Js.orZero x = x.
Proof. unfold Js.orZero. destruct (x =? 0) eqn:E; [apply Z.eqb_eq in E|]; lia. Qed.

Lemma cmpRepair_le (a b : Task.t) :
  Tasks.cmpRepair a b <= 0 <-> Spec.orderThenCreated a b.
Proof.
  unfold Tasks.cmpRepair, Spec.orderThenCreated. rewrite !orZero_id.
  destruct (Task.order a =? Task.order b) eqn:E; simpl.
  - apply Z.eqb_eq in E. lia.
  - apply Z.eqb_neq in E. lia.
Qed.


Lemma cmpRepair_anti (a b : Task.t) :
  Tasks.cmpRepair b a = - Tasks.cmpRepair a b.
Proof.
  unfold Tasks.cmpRepair. rewrite !orZero_id, (Z.eqb_sym (Task.order b)).
  destruct (Task.order a =? Task.order b); simpl; lia.
Qed.

Lemma cmpRepair_total (a b : Task.t) :
  Tasks.cmpRepair a b <= 0 \/ Tasks.cmpRepair b a <= 0.
Proof. rewrite (cmpRepair_anti a b). lia. Qed.

Lemma cmpRepair_trans (a b c : Task.t) :
  Tasks.cmpRepair a b <= 0 -> Tasks.cmpRepair b c <= 0 ->
  Tasks.cmpRepair a c <= 0.
Proof.
  rewrite !cmpRepair_le. unfold Spec.orderThenCreated. lia.
Qed.

Lemma cmpOrder_anti (a b : Task.t) : Tasks.cmpOrder b a = - Tasks.cmpOrder a b.
Proof. unfold Tasks.cmpOrder. lia. Qed.

Lemma cmpOrder_total (a b : Task.t) :
  Tasks.cmpOrder a b <= 0 \/ Tasks.cmpOrder b a <= 0.
Proof. unfold Tasks.cmpOrder. lia. Qed.

Lemma cmpOrder_trans (a b c : Task.t) :
  Tasks.cmpOrder a b <= 0 -> Tasks.cmpOrder b c <= 0 ->
  Tasks.cmpOrder a c <= 0.
Proof. unfold Tasks.cmpOrder. lia. Qed.

(** *** The repair step *)

Lemma hasProperOrders_iff (allTasks : list Task.t) :
  Tasks.hasProperOrders allTasks = true <->
  Forall (fun t => 0 < Task.order t) allTasks
  /\ NoDup (map Task.order allTasks).
Proof.
  unfold Tasks.hasProperOrders, Js.every.
  rewrite andb_true_iff, forallb_forall, Nat.eqb_eq, Forall_forall.
  rewrite <- (length_map Task.order allTasks) at 1.
  rewrite setSize_full.
  split; intros [Hpos Hnd]; (split; [|exact Hnd]); intros t Ht.
  - apply Z.ltb_lt, Hpos, Ht.
  - apply Z.ltb_lt, Hpos, Ht.
Qed.

Lemma assignSequential_orders (i : nat) (l : list Task.t) :
  map Task.order (Tasks.assignSequential i l)
  = map Z.of_nat (seq (S i) (List.length l)).
Proof.
  revert i. induction l as [|t l IH]; intros i; simpl.
  - reflexivity.
  - rewrite IH. f_equal. lia.
Qed.

Lemma assignSequential_ids (i : nat) (l : list Task.t) :
  map Task._id (Tasks.assignSequential i l) = map Task._id l.
Proof.
  revert i. induction l as [|t l IH]; intros i; simpl.
  - reflexivity.
  - rewrite IH. reflexivity.
Qed.

Lemma assignSequential_length (i : nat) (l : list Task.t) :
  List.length (Tasks.assignSequential i l) = List.length l.
Proof.
  rewrite <- (length_map Task._id), assignSequential_ids, length_map.
  reflexivity.
Qed.

Lemma assignSequential_same (i : nat) (l : list Task.t) :
  Forall2 Spec.sameButOrder l (Tasks.assignSequential i l).
Proof.
  revert i. induction l as [|t l IH]; intros i; simpl; constructor.
  - exists (Z.of_nat i + 1). reflexivity.
  - apply IH.
Qed.

Lemma assignSequential_sorted (i : nat) (l : list Task.t) :
  StronglySorted (fun a b => Tasks.cmpOrder a b <= 0)
    (Tasks.assignSequential i l)
  /\ Forall (fun t => Z.of_nat i + 1 <= Task.order t)
       (Tasks.assignSequential i l).
Proof.
  revert i. induction l as [|t l IH]; intros i; cbn [Tasks.assignSequential].
  - split; constructor.
  - destruct (IH (S i)) as [Hs Hall]. split.
    + constructor; [exact Hs|].
      eapply Forall_impl; [|exact Hall].
      intros a Ha. unfold Tasks.cmpOrder, Task.setOrder. cbn [Task.order].
      cbv beta in Ha. lia.
    + constructor; [unfold Task.setOrder; cbn [Task.order]; lia|].
      eapply Forall_impl; [|exact Hall]. intros a Ha. cbv beta in Ha. lia.
Qed.

Lemma oneTo_NoDup (n : nat) : NoDup (Spec.oneTo n).
Proof.
  unfold Spec.oneTo. apply Finite.Injective_map_NoDup.
  - intros a b. apply Nat2Z.inj.
  - apply seq_NoDup.
Qed.

Lemma oneTo_In (n : nat) (k : Z) :
  In k (Spec.oneTo n) <-> 1 <= k <= Z.of_nat n.
Proof.
  unfold Spec.oneTo. rewrite in_map_iff. split.
  - intros [m [<- Hm]]. apply in_seq in Hm. lia.
  - intros Hk. exists (Z.to_nat k). split; [lia|]. apply in_seq. lia.
Qed.

Lemma strongly_sorted_impl {A : Type} (R S : A -> A -> Prop) (l : list A) :
  (forall a b, R a b -> S a b) -> StronglySorted R l -> StronglySorted S l.
Proof.
  intros HRS. induction 1 as [|x l Hs IH Hall]; constructor.
  - exact IH.
  - eapply Forall_impl; [|exact Hall]. intros; apply HRS; assumption.
Qed.

Lemma sameKey_class (k x y : Task.t) :
  Spec.sameKey k x = true -> Spec.sameKey k y = true ->
  Tasks.cmpRepair x y <= 0.
Proof.
  unfold Spec.sameKey. rewrite !andb_true_iff, !Z.eqb_eq.
  intros [Ho Hc] [Ho' Hc']. apply cmpRepair_le.
  unfold Spec.orderThenCreated. lia.
Qed.

(** *** Saves and the schema validator *)


Lemma validates_setOrder (t : Task.t) (o : Z) :
  TaskModel.validates (Task.setOrder t o) = TaskModel.validates t.
Proof. destruct t; reflexivity. Qed.

Lemma saveEach_valid (docs : list Task.t) :
  forallb TaskModel.validates docs = true ->
  Tasks.saveEach docs = (docs, true).
Proof.
  induction docs as [|d docs IH]; simpl; [reflexivity|].
  intros Hv. apply andb_true_iff in Hv. destruct Hv as [Hd Hrest].
  rewrite Hd, (IH Hrest). reflexivity.
Qed.

Lemma saveEach_stops (docs : list Task.t) :
  snd (Tasks.saveEach docs) = false ->
  exists d, In d docs /\ TaskModel.validates d = false.
Proof.
  induction docs as [|d docs IH]; simpl; [discriminate|].
  destruct (TaskModel.validates d) eqn:Hd.
  - destruct (Tasks.saveEach docs) as [saved ok]. simpl. intros ->.
    destruct (IH eq_refl) as [x [Hx Hv]]. exists x. auto.
  - intros _. exists d. auto.
Qed.

Lemma saveEach_saved (docs : list Task.t) (d : Task.t) :
  In d (fst (Tasks.saveEach docs)) -> In d docs.
Proof.
  induction docs as [|x docs IH]; simpl; [intros []|].
  destruct (TaskModel.validates x); [|intros []].
  destruct (Tasks.saveEach docs) as [saved ok]. simpl in *.
  intros [->|Hd]; auto.
Qed.

Lemma renumbered_from (i : nat) (l : list Task.t) (d : Task.t) :
  In d (Tasks.assignSequential i l) ->
  exists g o, In g l /\ d = Task.setOrder g o.
Proof.
  revert i. induction l as [|t l IH]; intros i; simpl; [intros []|].
  intros [<-|Hd].
  - exists t, (Z.of_nat i + 1). auto.
  - destruct (IH (S i) Hd) as [g [o [Hg Heq]]]. exists g, o. auto.
Qed.

Lemma renumbered_of (i : nat) (l : list Task.t) (g : Task.t) :
  In g l -> exists o, In (Task.setOrder g o) (Tasks.assignSequential i l).
Proof.
  revert i. induction l as [|t l IH]; intros i; simpl; [intros []|].
  intros [->|Hg].
  - eexists. left. reflexivity.
  - destruct (IH (S i) Hg) as [o Ho]. exists o. auto.
Qed.

Lemma saveEach_passed (docs : list Task.t) :
  snd (Tasks.saveEach docs) = true ->
  forallb TaskModel.validates docs = true.
Proof.
  induction docs as [|d docs IH]; simpl; [reflexivity|].
  destruct (TaskModel.validates d); [|discriminate].
  destruct (Tasks.saveEach docs) as [saved ok]. exact IH.
Qed.

Lemma renumbered_valid (group : list Task.t) :
  forallb TaskModel.validates group = true ->
  forallb TaskModel.validates
    (Tasks.assignSequential 0 (Js.sort Tasks.cmpRepair group)) = true.
Proof.
  rewrite !forallb_forall. intros Hv d Hd.
  destruct (renumbered_from _ _ _ Hd) as [g [o [Hg ->]]].
  rewrite validates_setOrder. apply Hv, (sort_In Tasks.cmpRepair), Hg.
Qed.

Lemma renumbered_proper (l : list Task.t) :
  Tasks.hasProperOrders (Tasks.assignSequential 0 l) = true.
Proof.
  apply hasProperOrders_iff. split.
  - apply Forall_forall. intros d Hd. apply (in_map Task.order) in Hd.
    rewrite assignSequential_orders in Hd. apply oneTo_In in Hd. lia.
  - rewrite assignSequential_orders. apply oneTo_NoDup.
Qed.

(** The handler on a group with proper orders: no repair, no save before
    the swap. *)
Lemma reorderGroup_proper (group : list Task.t) (id : ObjectId)
    (direction : string) :
  Tasks.hasProperOrders group = true ->
  Tasks.reorderGroup group id direction
  = if (List.length group <=? 1)%nat then
      (mkResponse 400 "Cannot reorder with only one task", [])
    else
    match Js.findIndex (fun t => (Task._id t =? id)%nat)
            (Js.sort Tasks.cmpOrder group) with
    | None => (mkResponse 404 "Task not found in list", [])
    | Some currentIndex =>
      match Tasks.targetIndex direction currentIndex
              (List.length (Js.sort Tasks.cmpOrder group)) with
      | None => (mkResponse 400 ("Cannot move task " ++ direction)%string, [])
      | Some targetIndex =>
        match nth_error (Js.sort Tasks.cmpOrder group) currentIndex,
              nth_error (Js.sort Tasks.cmpOrder group) targetIndex with
        | Some currentTask, Some targetTask =>
            if TaskModel.validates currentTask
               && TaskModel.validates targetTask
            then
              (mkResponse 200 "Task order updated successfully",
               [Task.setOrder currentTask (Task.order targetTask);
                Task.setOrder targetTask (Task.order currentTask)])
            else
              (mkResponse 500 "Server error while updating task order",
               filter TaskModel.validates
                 [Task.setOrder currentTask (Task.order targetTask);
                  Task.setOrder targetTask (Task.order currentTask)])
        | _, _ =>
            (mkResponse 500 "Server error while updating task order", [])
        end
      end
    end.
Proof.
  intros Hproper. unfold Tasks.reorderGroup, Tasks.repairOrders.
  rewrite Hproper. cbn [Tasks.saveEach negb].
  destruct (List.length group <=? 1)%nat; [reflexivity|].
  destruct (Js.findIndex _ _) as [ci|]; [|reflexivity].
  destruct (Tasks.targetIndex _ _ _) as [ti|]; [|reflexivity].
  destruct (nth_error _ ci) as [c|]; [|reflexivity].
  destruct (nth_error _ ti) as [t|]; [|reflexivity].
  cbn [forallb app]. rewrite !validates_setOrder, andb_true_r.
  reflexivity.
Qed.

(** The handler on a group that needs the repair and whose documents all
    pass validation: the renumbered array is saved, and the rest runs as on
    the renumbered group. *)
Lemma reorderGroup_repaired (group : list Task.t) (id : ObjectId)
    (direction : string) :
  (1 < List.length group)%nat ->
  Tasks.hasProperOrders group = false ->
  forallb TaskModel.validates group = true ->
  let renumbered :=
    Tasks.assignSequential 0 (Js.sort Tasks.cmpRepair group) in
  Tasks.reorderGroup group id direction
  = (fst (Tasks.reorderGroup renumbered id direction),
     renumbered ++ snd (Tasks.reorderGroup renumbered id direction)).
Proof.
  intros Hlen Himproper Hvalid renumbered.
  assert (Hlen' : List.length renumbered = List.length group).
  { unfold renumbered. rewrite assignSequential_length. apply sort_length. }
  rewrite (reorderGroup_proper renumbered) by apply renumbered_proper.
  unfold Tasks.reorderGroup, Tasks.repairOrders.
  rewrite Himproper, Hlen'. fold renumbered.
  rewrite (saveEach_valid renumbered) by apply renumbered_valid, Hvalid.
  cbn [negb]. apply Nat.leb_gt in Hlen. rewrite Hlen.
  destruct (Js.findIndex _ _) as [ci|];
    [|cbn [fst snd]; rewrite app_nil_r; reflexivity].
  destruct (Tasks.targetIndex _ _ _) as [ti|];
    [|cbn [fst snd]; rewrite app_nil_r; reflexivity].
  destruct (nth_error _ ci) as [c|];
    [|cbn [fst snd]; rewrite app_nil_r; reflexivity].
  destruct (nth_error _ ti) as [t|];
    [|cbn [fst snd]; rewrite app_nil_r; reflexivity].
  cbn [forallb]. rewrite !validates_setOrder, andb_true_r.
  destruct (TaskModel.validates c && TaskModel.validates t); reflexivity.
Qed.

(** The repair loop stops at the first document that fails validation: the
    handler answers 500, with the documents before it saved. *)
Lemma reorderGroup_stopped (group : list Task.t) (id : ObjectId)
    (direction : string) :
  (1 < List.length group)%nat ->
  Tasks.hasProperOrders group = false ->
  forallb TaskModel.validates group = false ->
  Tasks.reorderGroup group id direction
  = (mkResponse 500 "Server error while updating task order",
     fst (Tasks.saveEach
            (Tasks.assignSequential 0 (Js.sort Tasks.cmpRepair group)))).
Proof.
  intros Hlen Himproper Hinvalid.
  unfold Tasks.reorderGroup, Tasks.repairOrders. rewrite Himproper.
  apply Nat.leb_gt in Hlen. rewrite Hlen.
  set (renumbered := Tasks.assignSequential 0 _).
  destruct (Tasks.saveEach renumbered) as [saved ok] eqn:Esave.
  destruct ok; [|reflexivity]. exfalso.
  assert (Hall : forallb TaskModel.validates group = true);
    [|congruence].
  apply forallb_forall. intros g Hg.
  apply (sort_In Tasks.cmpRepair) in Hg.
  destruct (renumbered_of 0 _ g Hg) as [o Ho]. fold renumbered in Ho.
  rewrite <- (validates_setOrder g o).
  pose proof (saveEach_passed renumbered) as Hpassed.
  rewrite Esave in Hpassed. rewrite forallb_forall in Hpassed.
  apply (Hpassed eq_refl), Ho.
Qed.


(** C1 as the claim states it fails: the group of orders 1 and 3 is not a
    dense 1..N sequence, yet the repair step leaves it alone. *)
Lemma gap_group_is_not_repaired :
  ~ (forall allTasks : list Task.t,
       ~ Spec.dense allTasks ->
       Tasks.hasProperOrders allTasks = false
       /\ Spec.dense (fst (Tasks.repairOrders allTasks))).
Proof.
  intros Hclaim.
  assert (Hgap : ~ Spec.dense Scenario.gapGroup).
  { unfold Spec.dense. intros Hperm.
    apply Permutation_sym in Hperm.
    assert (Hin : In 2 (map Task.order Scenario.gapGroup)).
    { apply (Permutation_in _ Hperm). simpl. auto. }
    simpl in Hin. destruct Hin as [H1|[H3|[]]]; discriminate. }
  destruct (Hclaim Scenario.gapGroup Hgap) as [Hrun _].
  vm_compute in Hrun. discriminate.
Qed.

(** *** Positions in a sorted group *)

Lemma sorted_nth_le {A : Type} (R : A -> A -> Prop) (l : list A)
    (i j : nat) (a b : A) :
  StronglySorted R l -> (i < j)%nat ->
  nth_error l i = Some a -> nth_error l j = Some b -> R a b.
Proof.
  intros Hs. revert i j. induction Hs as [|x l Hs IH Hall]; intros i j Hij Hi Hj.
  - destruct i; discriminate.
  - destruct j as [|j]; [lia|]. simpl in Hj. destruct i as [|i]; simpl in Hi.
    + injection Hi as ->. rewrite Forall_forall in Hall.
      apply Hall. eapply nth_error_In, Hj.
    + apply (IH i j); [lia|assumption|assumption].
Qed.

Lemma NoDup_map_nth_neq {A B : Type} (f : A -> B) (l : list A)
    (i j : nat) (a b : A) :
  NoDup (map f l) -> i <> j ->
  nth_error l i = Some a -> nth_error l j = Some b -> f a <> f b.
Proof.
  intros Hnd Hij Hi Hj Hf.
  apply Hij. apply (proj1 (NoDup_nth_error (map f l)) Hnd).
  - rewrite length_map. apply nth_error_Some. rewrite Hi. discriminate.
  - rewrite !nth_error_map, Hi, Hj. simpl. rewrite Hf. reflexivity.
Qed.

Lemma sort_NoDup_map {A B : Type} (cmp : A -> A -> Z) (f : A -> B)
    (l : list A) :
  NoDup (map f l) -> NoDup (map f (Js.sort cmp l)).
Proof.
  intros Hnd. eapply Permutation_NoDup; [|exact Hnd].
  apply Permutation_map, Permutation_sym, sort_perm.
Qed.

Lemma targetIndex_Some (direction : string) (i len j : nat) :
  Tasks.targetIndex direction i len = Some j ->
  (direction = "up" /\ (0 < i)%nat /\ j = (i - 1)%nat)
  \/ (direction = "down" /\ (i < len - 1)%nat /\ j = (i + 1)%nat).
Proof.
  unfold Tasks.targetIndex.
  destruct (direction =? "up")%string eqn:Eu; simpl.
  - apply String.eqb_eq in Eu.
    destruct (0 <? i)%nat eqn:Ei.
    + apply Nat.ltb_lt in Ei. intros [= <-]. left. auto.
    + destruct (direction =? "down")%string eqn:Ed; simpl.
      * apply String.eqb_eq in Ed. congruence.
      * discriminate.
  - destruct (direction =? "down")%string eqn:Ed; simpl; [|discriminate].
    apply String.eqb_eq in Ed.
    destruct (i <? len - 1)%nat eqn:Ei; [|discriminate].
    apply Nat.ltb_lt in Ei. intros [= <-]. right. auto.
Qed.

(** On a group with proper orders a successful reorder saves exactly the
    task and its neighbour, each with the other's order value. *)
Lemma reorderGroup_swap (group : list Task.t) (id : ObjectId)
    (direction : string) (response : Response) (saved : list Task.t) :
  NoDup (map Task._id group) ->
  Tasks.hasProperOrders group = true ->
  Tasks.reorderGroup group id direction = (response, saved) ->
  status response = 200%nat ->
  exists current target : Task.t,
    In current group /\ In target group
    /\ Task._id current = id /\ Task._id target <> id
    /\ ((direction = "up" /\ Task.order target < Task.order current)
        \/ (direction = "down" /\ Task.order current < Task.order target))
    /\ (forall t, In t group ->
          ~ (Z.min (Task.order current) (Task.order target) < Task.order t
             < Z.max (Task.order current) (Task.order target)))
    /\ saved = [Task.setOrder current (Task.order target);
                Task.setOrder target (Task.order current)].
Proof.
  intros Hids Hproper Hrun Hok.
  rewrite (reorderGroup_proper group id direction Hproper) in Hrun.
  destruct (List.length group <=? 1)%nat;
    [injection Hrun as <- <-; discriminate|].
  set (sorted := Js.sort Tasks.cmpOrder group) in *.
  destruct (Js.findIndex _ sorted) as [ci|] eqn:Efind;
    [|injection Hrun as <- <-; discriminate].
  destruct (Tasks.targetIndex direction ci (List.length sorted)) as [ti|]
    eqn:Etarget; [|injection Hrun as <- <-; discriminate].
  destruct (nth_error sorted ci) as [current|] eqn:Ecur;
    [|injection Hrun as <- <-; discriminate].
  destruct (nth_error sorted ti) as [target|] eqn:Etgt;
    [|injection Hrun as <- <-; discriminate].
  destruct (TaskModel.validates current && TaskModel.validates target);
    [|injection Hrun as <- <-; discriminate].
  injection Hrun as _ <-.
  apply hasProperOrders_iff in Hproper. destruct Hproper as [_ Horders].
  assert (Hsorted : StronglySorted
                      (fun a b => Task.order a <= Task.order b) sorted).
  { apply strongly_sorted_impl with (R := fun a b => Tasks.cmpOrder a b <= 0).
    - unfold Tasks.cmpOrder. intros; lia.
    - apply sort_sorted; [apply cmpOrder_total|apply cmpOrder_trans]. }
  assert (Hsorders : NoDup (map Task.order sorted))
    by (apply sort_NoDup_map, Horders).
  assert (Hsids : NoDup (map Task._id sorted))
    by (apply sort_NoDup_map, Hids).
  destruct (findIndex_Some _ _ _ Efind) as [x [Ex Hx]].
  rewrite Ecur in Ex. injection Ex as <-. apply Nat.eqb_eq in Hx.
  assert (Hbetween : forall lo hi a b t,
            (hi = lo + 1)%nat -> nth_error sorted lo = Some a ->
            nth_error sorted hi = Some b -> In t group ->
            Task.order a < Task.order b
            /\ ~ (Task.order a < Task.order t < Task.order b)).
  { intros lo hi a b t Hhi Ha Hb Ht. split.
    - assert (Hlohi : (lo < hi)%nat) by lia.
      pose proof (sorted_nth_le (fun x y => Task.order x <= Task.order y)
                    sorted lo hi a b Hsorted Hlohi Ha Hb) as Hle.
      cbv beta in Hle.
      assert (Task.order a <> Task.order b)
        by (apply (NoDup_map_nth_neq Task.order sorted lo hi); auto; lia).
      lia.
    - apply (sort_In Tasks.cmpOrder) in Ht. fold sorted in Ht.
      apply In_nth_error in Ht. destruct Ht as [k Hk].
      destruct (Nat.lt_trichotomy k lo) as [Hlt|[->|Hgt]].
      + pose proof (sorted_nth_le (fun x y => Task.order x <= Task.order y)
                      sorted k lo t a Hsorted Hlt Hk Ha) as Hle.
        cbv beta in Hle. lia.
      + rewrite Ha in Hk. injection Hk as <-. lia.
      + destruct (Nat.eq_dec k hi) as [->|Hne].
        * rewrite Hb in Hk. injection Hk as <-. lia.
        * assert (Hlt : (hi < k)%nat) by lia.
          pose proof (sorted_nth_le (fun x y => Task.order x <= Task.order y)
                        sorted hi k b t Hsorted Hlt Hb Hk) as Hle.
          cbv beta in Hle. lia. }
  exists current, target.
  assert (Hne : ci <> ti)
    by (destruct (targetIndex_Some _ _ _ _ Etarget) as [[_ [? ->]]|[_ [? ->]]];
        lia).
  split; [apply (sort_In Tasks.cmpOrder), (nth_error_In _ _ Ecur)|].
  split; [apply (sort_In Tasks.cmpOrder), (nth_error_In _ _ Etgt)|].
  split; [exact Hx|].
  split.
  { rewrite <- Hx. intros Heq.
    apply (NoDup_map_nth_neq Task._id sorted ci ti current target); auto. }
  destruct (targetIndex_Some _ _ _ _ Etarget)
    as [[Hdir [Hpos ->]]|[Hdir [Hlast ->]]].
  - assert (Hhi : ci = (ci - 1 + 1)%nat) by lia.
    split; [left; split; [exact Hdir|]|split; [|reflexivity]].
    + apply (Hbetween (ci - 1)%nat ci target current current Hhi Etgt Ecur).
      apply (sort_In Tasks.cmpOrder), (nth_error_In _ _ Ecur).
    + intros t Ht.
      destruct (Hbetween (ci - 1)%nat ci target current t Hhi Etgt Ecur Ht).
      lia.
  - split; [right; split; [exact Hdir|]|split; [|reflexivity]].
    + apply (Hbetween ci (ci + 1)%nat current target current eq_refl Ecur Etgt).
      apply (sort_In Tasks.cmpOrder), (nth_error_In _ _ Ecur).
    + intros t Ht.
      destruct (Hbetween ci (ci + 1)%nat current target t eq_refl Ecur Etgt Ht).
      lia.
Qed.

(** *** The reorder route on the store *)

Ltac concrete_NoDup :=
  repeat (constructor; [simpl; intuition discriminate|]); constructor.

Section ReorderFacts.
Context `{LocalTime}.

Lemma siblingGroup_shape (coll : list Task.t) (userId : ObjectId)
    (task : Task.t) :
  exists p, Tasks.siblingGroup coll userId task
            = Js.sort TaskModel.cmpOrderNewest (filter p coll).
Proof.
  unfold Tasks.siblingGroup, TaskModel.findTasksForDate.
  destruct (Task.startDate task) as [s|]; [destruct (Task.endDate task)|];
    eexists; reflexivity.
Qed.

Lemma siblingGroup_In (coll : list Task.t) (userId : ObjectId)
    (task t : Task.t) :
  In t (Tasks.siblingGroup coll userId task) -> In t coll.
Proof.
  destruct (siblingGroup_shape coll userId task) as [p ->].
  rewrite sort_In, filter_In. tauto.
Qed.

Lemma siblingGroup_NoDup (coll : list Task.t) (userId : ObjectId)
    (task : Task.t) :
  NoDup (map Task._id coll) ->
  NoDup (map Task._id (Tasks.siblingGroup coll userId task)).
Proof.
  destruct (siblingGroup_shape coll userId task) as [p ->].
  intros Hnd. apply sort_NoDup_map, NoDup_map_filter, Hnd.
Qed.

Lemma withTasks_same (db : Db) : withTasks db (tasks db) = db.
Proof. destruct db; reflexivity. Qed.

(** Saving the two swapped documents changes the order of those two tasks
    and nothing else in the collection. *)
Lemma save_swapped (coll : list Task.t) (current target : Task.t) :
  NoDup (map Task._id coll) -> In current coll -> In target coll ->
  Task._id target <> Task._id current ->
  fold_left Tasks.saveTask
    [Task.setOrder current (Task.order target);
     Task.setOrder target (Task.order current)] coll
  = map (fun t =>
           if (Task._id t =? Task._id current)%nat
           then Task.setOrder t (Task.order target)
           else if (Task._id t =? Task._id target)%nat
                then Task.setOrder t (Task.order current)
                else t) coll.
Proof.
  intros Hnd Hcur Htgt Hne. simpl. unfold Tasks.saveTask.
  rewrite map_map. apply map_ext_in. intros t Ht. simpl.
  destruct (Task._id t =? Task._id current)%nat eqn:Ec.
  - apply Nat.eqb_eq in Ec.
    rewrite (NoDup_map_inj Task._id coll t current Hnd Ht Hcur Ec).
    simpl. destruct (Task._id current =? Task._id target)%nat eqn:Et.
    + apply Nat.eqb_eq in Et. congruence.
    + reflexivity.
  - destruct (Task._id t =? Task._id target)%nat eqn:Et.
    + apply Nat.eqb_eq in Et.
      rewrite (NoDup_map_inj Task._id coll t target Hnd Ht Htgt Et).
      reflexivity.
    + reflexivity.
Qed.

(** C2 (as amended).  For every successful reorder request on a sibling
    group whose order values are positive and pairwise distinct (so that the
    repair step does not run), exactly two tasks have their order values
    exchanged: the target task and its immediate neighbour in the requested
    direction, the sibling with the next smaller order for "up" and the next
    larger one for "down"; every other task keeps its order value, and no
    other collection changes. *)
Theorem reorder_swaps_two_orders (db : Db) (user : User.t) (id : ObjectId)
    (direction : string) (task : Task.t) (response : Response) (db' : Db) :
  NoDup (map Task._id (tasks db)) ->
  Js.find (fun t => (Task._id t =? id)%nat
                    && (Task.userId t =? User._id user)%nat) (tasks db)
    = Some task ->
  Tasks.hasProperOrders
    (Tasks.siblingGroup (tasks db) (User._id user) task) = true ->
  Tasks.putOrder db user id direction = (response, db') ->
  status response = 200%nat ->
  exists current target : Task.t,
    In current (Tasks.siblingGroup (tasks db) (User._id user) task)
    /\ In target (Tasks.siblingGroup (tasks db) (User._id user) task)
    /\ Task._id current = id /\ Task._id target <> id
    /\ ((direction = "up" /\ Task.order target < Task.order current)
        \/ (direction = "down" /\ Task.order current < Task.order target))
    /\ (forall t,
          In t (Tasks.siblingGroup (tasks db) (User._id user) task) ->
          ~ (Z.min (Task.order current) (Task.order target) < Task.order t
             < Z.max (Task.order current) (Task.order target)))
    /\ tasks db'
       = map (fun t =>
                if (Task._id t =? id)%nat
                then Task.setOrder t (Task.order target)
                else if (Task._id t =? Task._id target)%nat
                     then Task.setOrder t (Task.order current)
                     else t) (tasks db)
    /\ db' = withTasks db (tasks db').
Proof.
  intros Hids Hfind Hproper Hrun Hok.
  unfold Tasks.putOrder in Hrun.
  destruct (isEmpty (Tasks.directionErrors direction));
    [|injection Hrun as <- <-; discriminate].
  simpl in Hrun. rewrite Hfind in Hrun.
  destruct (Tasks.reorderGroup _ id direction) as [r saved] eqn:Egroup.
  injection Hrun as -> <-.
  destruct (reorderGroup_swap _ id direction response saved
              (siblingGroup_NoDup _ _ _ Hids) Hproper Egroup Hok)
    as [current [target [Hcur [Htgt [Hid [Hne [Hdir [Hbetween ->]]]]]]]].
  exists current, target.
  repeat (split; [assumption|]).
  unfold withTasks at 1. cbn [tasks]. split; [|reflexivity].
  rewrite save_swapped.
  - rewrite Hid. reflexivity.
  - exact Hids.
  - eapply siblingGroup_In, Hcur.
  - eapply siblingGroup_In, Htgt.
  - congruence.
Qed.

End ReorderFacts.

(** The theorem on three static tasks of orders 1, 2, 3: moving the second
    one up. *)
Lemma reorder_swaps_two_orders_witness :
  let db := withTasks emptyDb [Scenario.static 1 1 10; Scenario.static 2 2 20;
                               Scenario.static 3 3 30] in
  exists current target : Task.t,
    Task._id current = 2%nat /\ Task._id target <> 2%nat
    /\ tasks (snd (Tasks.putOrder db Scenario.alice 2 "up"))
       = map (fun t =>
                if (Task._id t =? 2)%nat
                then Task.setOrder t (Task.order target)
                else if (Task._id t =? Task._id target)%nat
                     then Task.setOrder t (Task.order current)
                     else t) (tasks db).
Proof.
  intros db.
  destruct (reorder_swaps_two_orders db Scenario.alice 2 "up"
              (Scenario.static 2 2 20)
              (fst (Tasks.putOrder db Scenario.alice 2 "up"))
              (snd (Tasks.putOrder db Scenario.alice 2 "up")))
    as [current [target [_ [_ [Hid [Hne [_ [_ [Htasks _]]]]]]]]].
  - simpl. concrete_NoDup.
  - reflexivity.
  - reflexivity.
  - reflexivity.
  - reflexivity.
  - exists current, target. split; [exact Hid|]. split; [exact Hne|].
    exact Htasks.
Defined.

(** C2 as the claim states it fails: X (days 1-10, order 1), Y (day 5,
    order 2) and Z (days 1-5, order 2) are the siblings of day 5; moving Y up
    succeeds and changes the order of all three, so no two tasks account for
    the change. *)
Lemma reorder_renumbers_a_third_sibling :
  ~ (forall (db : Db) (user : User.t) (id : ObjectId) (direction : string),
       status (fst (Tasks.putOrder db user id direction)) = 200%nat ->
       exists a b : ObjectId,
         forall t t' : Task.t,
           In t (tasks db) ->
           In t' (tasks (snd (Tasks.putOrder db user id direction))) ->
           Task._id t' = Task._id t ->
           Task._id t <> a -> Task._id t <> b ->
           Task.order t' = Task.order t).
Proof.
  intros Hclaim.
  destruct (Hclaim Scenario.overlapDb Scenario.alice 2%nat "up" eq_refl)
    as [a [b Hrest]].
  assert (H1 : a = 1%nat \/ b = 1%nat).
  { destruct (Nat.eq_dec a 1) as [|Ha]; [auto|].
    destruct (Nat.eq_dec b 1) as [|Hb]; [auto|]. exfalso.
    specialize (Hrest (Scenario.ranged 1 1 1 10 100)
                  (Task.setOrder (Scenario.ranged 1 1 1 10 100) 2)).
    assert (2 = 1) by (apply Hrest; vm_compute; auto). discriminate. }
  assert (H2 : a = 2%nat \/ b = 2%nat).
  { destruct (Nat.eq_dec a 2) as [|Ha]; [auto|].
    destruct (Nat.eq_dec b 2) as [|Hb]; [auto|]. exfalso.
    specialize (Hrest (Scenario.ranged 2 2 5 5 200)
                  (Task.setOrder (Scenario.ranged 2 2 5 5 200) 1)).
    assert (1 = 2) by (apply Hrest; vm_compute; auto). discriminate. }
  assert (H3 : a = 3%nat \/ b = 3%nat).
  { destruct (Nat.eq_dec a 3) as [|Ha]; [auto|].
    destruct (Nat.eq_dec b 3) as [|Hb]; [auto|]. exfalso.
    specialize (Hrest (Scenario.ranged 3 2 1 5 300)
                  (Task.setOrder (Scenario.ranged 3 2 1 5 300) 3)).
    assert (3 = 2) by (apply Hrest; vm_compute; auto). discriminate. }
  lia.
Qed.

(** *** The ends of a group *)













Section EdgeFacts.
Context `{LocalTime}.


End EdgeFacts.


(** The 500 at an end of the group.  Alice creates A for day 5 and B for
    day 5 from 10:00 to 12:00, then updates B with an end at 05:00 and the
    order 1: the guard of the update compares days, so the update is
    accepted and B is stored with its end before its start.  Moving A, the
    first of the two, up now starts the repair, whose save of B fails. *)
Example first_task_up_meets_an_invalid_sibling :
  let a := Tasks.mkCreateBody [] "A" (Some (Scenario.day 5))
             (Some (Scenario.day 5)) in
  let b := Tasks.mkCreateBody [] "B" (Some (Scenario.day 5 + 36000000))
             (Some (Scenario.day 5 + 43200000)) in
  let change :=
    Tasks.mkUpdateBody [] None None None (Some (Scenario.day 5 + 18000000))
      (Some 1) None None None in
  let db1 := snd (Tasks.post emptyDb Scenario.alice a 1 100) in
  let db2 := snd (Tasks.post db1 Scenario.alice b 2 200) in
  let db3 := snd (Tasks.put db2 Scenario.alice 2 change) in
  status (fst (Tasks.put db2 Scenario.alice 2 change)) = 200%nat
  /\ Tasks.putOrder db3 Scenario.alice 1 "up"
     = (mkResponse 500 "Server error while updating task order", db3).
Proof. split; reflexivity. Qed.

(* ===================================================================== *)
(** ** Task instances: the two toggles *)
(* ===================================================================== *)

Lemma toggleFirst_split (subtaskId : ObjectId)
    (entries : list SubtaskInstance.t) (found : SubtaskInstance.t) :
  Js.find (fun si => (SubtaskInstance.subtaskId si =? subtaskId)%nat) entries
    = Some found ->
  exists before after,
    entries = before ++ found :: after
    /\ SubtaskInstance.subtaskId found = subtaskId
    /\ (forall y, In y before -> SubtaskInstance.subtaskId y <> subtaskId)
    /\ TaskInstances.toggleFirst subtaskId entries
       = before
         ++ SubtaskInstance.mk subtaskId
              (negb (SubtaskInstance.completed found)) :: after.
Proof.
  unfold Js.find. induction entries as [|si rest IH]; simpl; intros Hfind.
  - discriminate.
  - destruct (SubtaskInstance.subtaskId si =? subtaskId)%nat eqn:E.
    + injection Hfind as <-. apply Nat.eqb_eq in E.
      exists [], rest. simpl. rewrite E. repeat split. intros y [].
    + destruct (IH Hfind) as [before [after [-> [Hid [Hbefore Htoggle]]]]].
      exists (si :: before), after. simpl. rewrite Htoggle.
      repeat split; [exact Hid|].
      intros y [<-|Hy]; [apply Nat.eqb_neq, E|apply Hbefore, Hy].
Qed.

Lemma every_completed_iff (entries : list SubtaskInstance.t) :
  Js.every SubtaskInstance.completed entries = true
  <-> Forall (fun si => SubtaskInstance.completed si = true) entries.
Proof. unfold Js.every. rewrite forallb_forall, Forall_forall. tauto. Qed.

Lemma some_incomplete_iff (entries : list SubtaskInstance.t) :
  Js.some (fun si => negb (SubtaskInstance.completed si)) entries = true
  <-> Exists (fun si => SubtaskInstance.completed si = false) entries.
Proof.
  unfold Js.some. rewrite existsb_exists, Exists_exists.
  split; intros [si [Hin Hsi]]; exists si; split; try exact Hin.
  - apply negb_true_iff, Hsi.
  - apply negb_true_iff, Hsi.
Qed.

Lemma every_or_some (entries : list SubtaskInstance.t) :
  Js.every SubtaskInstance.completed entries
  = negb (Js.some (fun si => negb (SubtaskInstance.completed si)) entries).
Proof.
  unfold Js.every, Js.some. induction entries as [|si rest IH]; simpl.
  - reflexivity.
  - rewrite IH. destruct (SubtaskInstance.completed si); reflexivity.
Qed.

(** C4.  A toggle of a subtask instance negates the flag of the first entry
    with the given subtask and recomputes the instance's own flag: true when
    every entry is now complete, false when some entry is incomplete and the
    instance was complete (an incomplete instance stays incomplete).  Only
    the instance is written; the Task and Subtask collections are never
    modified, whatever the response. *)
Theorem subtask_toggle_recomputes_instance (db : Db) (user : User.t)
    (id subtaskId : ObjectId) (response : Response) (db' : Db) :
  TaskInstances.putSubtask db user id subtaskId = (response, db') ->
  tasks db' = tasks db /\ subtasks db' = subtasks db
  /\ (status response = 200%nat ->
      exists (instance instance' : TaskInstance.t)
             (before after : list SubtaskInstance.t)
             (toggled : SubtaskInstance.t),
        Js.find (fun x => (TaskInstance._id x =? id)%nat
                          && (TaskInstance.userId x =? User._id user)%nat)
                (taskInstances db) = Some instance
        /\ TaskInstance.subtaskInstances instance
           = before ++ toggled :: after
        /\ SubtaskInstance.subtaskId toggled = subtaskId
        /\ (forall y, In y before -> SubtaskInstance.subtaskId y <> subtaskId)
        /\ TaskInstance.subtaskInstances instance'
           = before
             ++ SubtaskInstance.mk subtaskId
                  (negb (SubtaskInstance.completed toggled)) :: after
        /\ (Forall (fun si => SubtaskInstance.completed si = true)
              (TaskInstance.subtaskInstances instance') ->
            TaskInstance.completed instance' = true)
        /\ (Exists (fun si => SubtaskInstance.completed si = false)
              (TaskInstance.subtaskInstances instance') ->
            TaskInstance.completed instance' = false)
        /\ TaskInstance._id instance' = TaskInstance._id instance
        /\ TaskInstance.taskId instance' = TaskInstance.taskId instance
        /\ TaskInstance.userId instance' = TaskInstance.userId instance
        /\ TaskInstance.date instance' = TaskInstance.date instance
        /\ db' = withTaskInstances db
                   (TaskInstances.saveInstance (taskInstances db) instance')).
Proof.
  unfold TaskInstances.putSubtask. intros Hrun.
  destruct (Js.find _ (taskInstances db)) as [instance|] eqn:Einst;
    [|injection Hrun as <- <-; repeat split; discriminate].
  destruct (Js.find _ (TaskInstance.subtaskInstances instance))
    as [found|] eqn:Eentry;
    [|injection Hrun as <- <-; repeat split; discriminate].
  injection Hrun as <- <-.
  split; [reflexivity|]. split; [reflexivity|]. intros _.
  destruct (toggleFirst_split subtaskId _ found Eentry)
    as [before [after [Hsplit [Hid [Hbefore Htoggle]]]]].
  match goal with
  | |- context [TaskInstances.saveInstance _ ?doc] =>
      exists instance, doc, before, after, found
  end.
  split; [reflexivity|]. split; [exact Hsplit|]. split; [exact Hid|].
  split; [exact Hbefore|]. cbn [TaskInstance.subtaskInstances].
  split; [exact Htoggle|].
  cbn [TaskInstance.completed TaskInstance._id TaskInstance.taskId
       TaskInstance.userId TaskInstance.date].
  set (entries := TaskInstances.toggleFirst subtaskId
                    (TaskInstance.subtaskInstances instance)) in *.
  assert (Hlen : (0 <? List.length entries)%nat = true).
  { rewrite Htoggle, length_app. simpl. apply Nat.ltb_lt. lia. }
  rewrite Hlen, andb_true_r.
  split; [|split; [|repeat split]].
  - intros Hall. apply every_completed_iff in Hall. rewrite Hall.
    reflexivity.
  - intros Hsome. apply some_incomplete_iff in Hsome.
    rewrite every_or_some, Hsome. simpl.
    destruct (TaskInstance.completed instance); reflexivity.
Qed.

(** The theorem on the scenario of the specification: an instance with the
    incomplete entries A and B; A is toggled, then B. *)
Lemma subtask_toggle_recomputes_instance_witness :
  let instance :=
    TaskInstance.mk 50 1 7 (Scenario.day 19875) false
      [SubtaskInstance.mk 11 false; SubtaskInstance.mk 12 false] in
  let db := withTaskInstances emptyDb [instance] in
  let afterA := snd (TaskInstances.putSubtask db Scenario.alice 50 11) in
  let afterB := snd (TaskInstances.putSubtask afterA Scenario.alice 50 12) in
  (tasks afterA = tasks db /\ subtasks afterA = subtasks db)
  /\ map TaskInstance.completed (taskInstances afterA) = [false]
  /\ map TaskInstance.completed (taskInstances afterB) = [true].
Proof.
  intros instance db afterA afterB.
  destruct (subtask_toggle_recomputes_instance db Scenario.alice 50 11
              (fst (TaskInstances.putSubtask db Scenario.alice 50 11))
              afterA eq_refl) as [Htasks [Hsubtasks _]].
  split; [split; assumption|]. split; reflexivity.
Defined.

(** C5.  A direct toggle of an instance negates its completed flag and sets
    the flag of every embedded subtask instance to the new value; the entries
    keep their subtasks and their order, and nothing else is written. *)
Theorem instance_toggle_cascades (db : Db) (user : User.t) (id : ObjectId)
    (response : Response) (db' : Db) :
  TaskInstances.putComplete db user id = (response, db') ->
  status response = 200%nat ->
  exists instance instance' : TaskInstance.t,
    Js.find (fun x => (TaskInstance._id x =? id)%nat
                      && (TaskInstance.userId x =? User._id user)%nat)
            (taskInstances db) = Some instance
    /\ TaskInstance.completed instance'
       = negb (TaskInstance.completed instance)
    /\ Forall (fun si => SubtaskInstance.completed si
                         = TaskInstance.completed instance')
         (TaskInstance.subtaskInstances instance')
    /\ map SubtaskInstance.subtaskId (TaskInstance.subtaskInstances instance')
       = map SubtaskInstance.subtaskId
           (TaskInstance.subtaskInstances instance)
    /\ TaskInstance._id instance' = TaskInstance._id instance
    /\ TaskInstance.taskId instance' = TaskInstance.taskId instance
    /\ TaskInstance.userId instance' = TaskInstance.userId instance
    /\ TaskInstance.date instance' = TaskInstance.date instance
    /\ In instance' (taskInstances db')
    /\ db' = withTaskInstances db
               (TaskInstances.saveInstance (taskInstances db) instance').
Proof.
  unfold TaskInstances.putComplete. intros Hrun Hok.
  destruct (Js.find _ (taskInstances db)) as [instance|] eqn:Einst;
    [|injection Hrun as <- <-; discriminate].
  injection Hrun as _ <-.
  match goal with
  | |- context [TaskInstances.saveInstance _ ?doc] => exists instance, doc
  end.
  split; [reflexivity|].
  cbn [TaskInstance.completed TaskInstance.subtaskInstances TaskInstance._id
       TaskInstance.taskId TaskInstance.userId TaskInstance.date].
  split; [reflexivity|]. split.
  { apply Forall_forall. intros si Hsi. apply in_map_iff in Hsi.
    destruct Hsi as [old [<- _]]. reflexivity. }
  split; [rewrite map_map; reflexivity|].
  repeat (split; [reflexivity|]). split; [|reflexivity].
  cbn [taskInstances withTaskInstances]. unfold TaskInstances.saveInstance.
  apply find_In in Einst. destruct Einst as [Hin _].
  apply in_map_iff. exists instance. split; [|exact Hin].
  cbn [TaskInstance._id]. rewrite Nat.eqb_refl. reflexivity.
Qed.

(** The theorem on a completed instance with two completed entries. *)
Lemma instance_toggle_cascades_witness :
  let instance :=
    TaskInstance.mk 50 1 7 (Scenario.day 19875) true
      [SubtaskInstance.mk 11 true; SubtaskInstance.mk 12 true] in
  let db := withTaskInstances emptyDb [instance] in
  exists instance' : TaskInstance.t,
    In instance'
      (taskInstances (snd (TaskInstances.putComplete db Scenario.alice 50)))
    /\ TaskInstance.completed instance' = false
    /\ Forall (fun si => SubtaskInstance.completed si = false)
         (TaskInstance.subtaskInstances instance').
Proof.
  intros instance db.
  destruct (instance_toggle_cascades db Scenario.alice 50
              (fst (TaskInstances.putComplete db Scenario.alice 50))
              (snd (TaskInstances.putComplete db Scenario.alice 50))
              eq_refl eq_refl)
    as [old [instance' [Hold [Hneg [Hall [_ [_ [_ [_ [_ [Hin _]]]]]]]]]]].
  injection Hold as <-.
  exists instance'. split; [exact Hin|].
  split; [exact Hneg|]. rewrite Hneg in Hall. exact Hall.
Defined.

(* ===================================================================== *)
(** ** Deleting a task *)
(* ===================================================================== *)

(** C10.  Deleting a task removes the task document and every Subtask
    document whose [taskId] is the task, and nothing else of those two
    collections; the TaskInstance collection is left as it was, whatever the
    response, so the instances of the deleted task stay stored with their
    entries and flags. *)
Theorem delete_task_keeps_instances (db : Db) (user : User.t) (id : ObjectId)
    (response : Response) (db' : Db) :
  Tasks.delete db user id = (response, db') ->
  taskInstances db' = taskInstances db
  /\ (status response = 200%nat ->
      (forall t, In t (tasks db') <-> In t (tasks db) /\ Task._id t <> id)
      /\ (forall s, In s (subtasks db')
                    <-> In s (subtasks db) /\ Subtask.taskId s <> id)).
Proof.
  unfold Tasks.delete. intros Hrun.
  destruct (Js.find _ (tasks db)) as [task|];
    injection Hrun as <- <-; (split; [reflexivity|]); [|discriminate].
  intros _. cbn [tasks subtasks withTasks withSubtasks]. split.
  - intros t. rewrite filter_In, negb_true_iff, Nat.eqb_neq. tauto.
  - intros s. rewrite filter_In, negb_true_iff, Nat.eqb_neq. tauto.
Qed.

(** The theorem on a task with one subtask and one instance for a day. *)
Lemma delete_task_keeps_instances_witness :
  let db :=
    mkDb [] [] [] [Scenario.ranged 1 1 1 10 100]
      [Subtask.mk 11 "s" false "" 1]
      [TaskInstance.mk 50 1 7 (Scenario.day 1) true
         [SubtaskInstance.mk 11 true]] in
  taskInstances (snd (Tasks.delete db Scenario.alice 1)) = taskInstances db
  /\ tasks (snd (Tasks.delete db Scenario.alice 1)) = []
  /\ subtasks (snd (Tasks.delete db Scenario.alice 1)) = [].
Proof.
  intros db.
  destruct (delete_task_keeps_instances db Scenario.alice 1
              (fst (Tasks.delete db Scenario.alice 1))
              (snd (Tasks.delete db Scenario.alice 1)) eq_refl)
    as [Hinst _].
  split; [exact Hinst|]. split; reflexivity.
Defined.

(* ===================================================================== *)
(** ** Instance materialisation and sync *)
(* ===================================================================== *)

Lemma hasId_In (ids : list ObjectId) (x : ObjectId) :
  TaskInstances.hasId ids x = true <-> In x ids.
Proof.
  unfold TaskInstances.hasId. rewrite existsb_exists. split.
  - intros [y [Hy Heq]]. apply Nat.eqb_eq in Heq. subst. exact Hy.
  - intros Hx. exists x. split; [exact Hx|apply Nat.eqb_refl].
Qed.

Lemma hasId_not_In (ids : list ObjectId) (x : ObjectId) :
  TaskInstances.hasId ids x = false <-> ~ In x ids.
Proof.
  rewrite <- hasId_In. destruct (TaskInstances.hasId ids x); split;
    intros; congruence.
Qed.

Lemma filter_same_length {A : Type} (p : A -> bool) (l : list A) :
  List.length (filter p l) = List.length l -> filter p l = l.
Proof.
  induction l as [|x l IH]; simpl; intros Hlen; [reflexivity|].
  destruct (p x); simpl in Hlen.
  - f_equal. apply IH. lia.
  - pose proof (filter_length_le p l). lia.
Qed.

Lemma missing_are_current (subs : list Subtask.t)
    (old : list SubtaskInstance.t) :
  TaskInstances.keepCurrent subs
    (TaskInstances.missingSubtaskInstances subs old)
  = TaskInstances.missingSubtaskInstances subs old.
Proof.
  unfold TaskInstances.keepCurrent. apply forallb_filter_id.
  apply forallb_forall. intros si Hsi.
  unfold TaskInstances.missingSubtaskInstances in Hsi.
  apply in_map_iff in Hsi. destruct Hsi as [s [<- Hs]].
  apply filter_In in Hs. simpl. apply hasId_In, in_map, Hs.
Qed.

(** The entries after the sync: the surviving old entries, then the new
    ones. *)
Lemma sync_entries (subs : list Subtask.t) (old : list SubtaskInstance.t) :
  TaskInstances.keepCurrent subs
    (old ++ TaskInstances.missingSubtaskInstances subs old)
  = TaskInstances.keepCurrent subs old
    ++ TaskInstances.missingSubtaskInstances subs old.
Proof.
  unfold TaskInstances.keepCurrent at 1. rewrite filter_app.
  fold (TaskInstances.keepCurrent subs old).
  fold (TaskInstances.keepCurrent subs
          (TaskInstances.missingSubtaskInstances subs old)).
  rewrite missing_are_current. reflexivity.
Qed.

Lemma sync_is_synced (subs : list Subtask.t) (old : TaskInstance.t) :
  Spec.synced subs (Some old)
    (TaskInstances.setSubtaskInstances old
       (TaskInstances.keepCurrent subs
          (TaskInstance.subtaskInstances old
           ++ TaskInstances.missingSubtaskInstances subs
                (TaskInstance.subtaskInstances old)))).
Proof.
  unfold Spec.synced, TaskInstances.setSubtaskInstances.
  cbn [TaskInstance.completed TaskInstance.subtaskInstances TaskInstance._id].
  rewrite sync_entries.
  split; [reflexivity|]. split; [reflexivity|].
  unfold TaskInstances.keepCurrent, TaskInstances.missingSubtaskInstances.
  split; [|split; [|split]].
  - intros s Hs Hnew. apply in_or_app. right.
    apply in_map_iff. exists s. split; [reflexivity|].
    apply filter_In. split; [exact Hs|].
    apply negb_true_iff, hasId_not_In, Hnew.
  - intros si Hsi. apply in_app_or in Hsi. destruct Hsi as [Hsi|Hsi].
    + apply filter_In in Hsi. apply hasId_In, Hsi.
    + apply in_map_iff in Hsi. destruct Hsi as [s [<- Hs]].
      apply filter_In in Hs. simpl. apply in_map, Hs.
  - intros si Hsi Hcur. apply in_or_app. left.
    apply filter_In. split; [exact Hsi|apply hasId_In, Hcur].
  - intros si Hsi. apply in_app_or in Hsi. destruct Hsi as [Hsi|Hsi].
    + left. apply filter_In in Hsi. apply Hsi.
    + right. apply in_map_iff in Hsi. destruct Hsi as [s [<- Hs]].
      apply filter_In in Hs. destruct Hs as [_ Hs]. simpl.
      split; [reflexivity|]. apply hasId_not_In, negb_true_iff, Hs.
Qed.

Lemma saveInstance_same (coll : list TaskInstance.t) (doc : TaskInstance.t) :
  NoDup (map TaskInstance._id coll) -> In doc coll ->
  TaskInstances.saveInstance coll doc = coll.
Proof.
  intros Hnd Hin. unfold TaskInstances.saveInstance.
  rewrite <- (map_id coll) at 2. apply map_ext_in. intros x Hx.
  destruct (TaskInstance._id x =? TaskInstance._id doc)%nat eqn:E;
    [|reflexivity].
  apply Nat.eqb_eq in E. symmetry.
  apply (NoDup_map_inj TaskInstance._id coll); assumption.
Qed.

Lemma saveInstance_ids (coll : list TaskInstance.t) (doc : TaskInstance.t) :
  map TaskInstance._id (TaskInstances.saveInstance coll doc)
  = map TaskInstance._id coll.
Proof.
  unfold TaskInstances.saveInstance. rewrite map_map.
  apply map_ext. intros x.
  destruct (TaskInstance._id x =? TaskInstance._id doc)%nat eqn:E;
    [|reflexivity].
  apply Nat.eqb_eq in E. congruence.
Qed.

(** Looking up a triple after a loaded instance was saved: the instance
    itself under its own triple, the old answer under another task. *)
Lemma findInstance_saved (coll : list TaskInstance.t)
    (old doc : TaskInstance.t) (taskId userId : ObjectId) (date : Date) :
  NoDup (map TaskInstance._id coll) ->
  TaskInstances.findInstance coll (TaskInstance.taskId old)
    (TaskInstance.userId old) (TaskInstance.date old) = Some old ->
  TaskInstance._id doc = TaskInstance._id old ->
  TaskInstance.taskId doc = TaskInstance.taskId old ->
  TaskInstance.userId doc = TaskInstance.userId old ->
  TaskInstance.date doc = TaskInstance.date old ->
  TaskInstances.findInstance (TaskInstances.saveInstance coll doc)
    taskId userId date
  = if (TaskInstance.taskId old =? taskId)%nat
       && (TaskInstance.userId old =? userId)%nat
       && (TaskInstance.date old =? date)
    then Some doc
    else TaskInstances.findInstance coll taskId userId date.
Proof.
  intros Hnd Hold Hid Htask Huser Hdate.
  unfold TaskInstances.findInstance in *.
  destruct (find_In _ _ _ Hold) as [Hin _].
  unfold TaskInstances.saveInstance. rewrite find_map_same.
  - destruct ((TaskInstance.taskId old =? taskId)%nat
              && (TaskInstance.userId old =? userId)%nat
              && (TaskInstance.date old =? date)) eqn:Etriple.
    + apply andb_true_iff in Etriple. destruct Etriple as [Etu Ed].
      apply andb_true_iff in Etu. destruct Etu as [Et Eu].
      apply Nat.eqb_eq in Et, Eu. apply Z.eqb_eq in Ed. subst.
      rewrite Hold. simpl. rewrite Hid, Nat.eqb_refl. reflexivity.
    + clear Hold.
      destruct (Js.find _ coll) as [x|] eqn:Ex; [|reflexivity].
      simpl. destruct (find_In _ _ _ Ex) as [Hx Hpx].
      destruct (TaskInstance._id x =? TaskInstance._id doc)%nat eqn:E;
        [|reflexivity].
      apply Nat.eqb_eq in E. rewrite Hid in E.
      rewrite (NoDup_map_inj TaskInstance._id coll x old Hnd Hx Hin E) in Hpx.
      congruence.
  - intros x Hx.
    destruct (TaskInstance._id x =? TaskInstance._id doc)%nat eqn:E;
      [|reflexivity].
    apply Nat.eqb_eq in E. rewrite Hid in E.
    rewrite (NoDup_map_inj TaskInstance._id coll x old Hnd Hx Hin E).
    rewrite Htask, Huser, Hdate. reflexivity.
Qed.

Lemma findInstance_fields (coll : list TaskInstance.t)
    (taskId userId : ObjectId) (date : Date) (x : TaskInstance.t) :
  TaskInstances.findInstance coll taskId userId date = Some x ->
  In x coll /\ TaskInstance.taskId x = taskId
  /\ TaskInstance.userId x = userId /\ TaskInstance.date x = date.
Proof.
  unfold TaskInstances.findInstance. intros Hfind.
  destruct (find_In _ _ _ Hfind) as [Hin Hp].
  apply andb_true_iff in Hp. destruct Hp as [Htu Hd].
  apply andb_true_iff in Htu. destruct Htu as [Ht Hu].
  apply Nat.eqb_eq in Ht, Hu. apply Z.eqb_eq in Hd. auto.
Qed.

Lemma findInstance_created (coll : list TaskInstance.t)
    (doc : TaskInstance.t) (taskId userId : ObjectId) (date : Date) :
  TaskInstances.findInstance coll (TaskInstance.taskId doc)
    (TaskInstance.userId doc) (TaskInstance.date doc) = None ->
  TaskInstances.findInstance (coll ++ [doc]) taskId userId date
  = if (TaskInstance.taskId doc =? taskId)%nat
       && (TaskInstance.userId doc =? userId)%nat
       && (TaskInstance.date doc =? date)
    then Some doc
    else TaskInstances.findInstance coll taskId userId date.
Proof.
  unfold TaskInstances.findInstance, Js.find. intros Hnone.
  destruct ((TaskInstance.taskId doc =? taskId)%nat
            && (TaskInstance.userId doc =? userId)%nat
            && (TaskInstance.date doc =? date)) eqn:Etriple.
  - apply andb_true_iff in Etriple. destruct Etriple as [Etu Ed].
    apply andb_true_iff in Etu. destruct Etu as [Et Eu].
    apply Nat.eqb_eq in Et, Eu. apply Z.eqb_eq in Ed. subst.
    induction coll as [|x coll IH]; simpl in *.
    + rewrite !Nat.eqb_refl, Z.eqb_refl. reflexivity.
    + destruct ((TaskInstance.taskId x =? TaskInstance.taskId doc)%nat
                && (TaskInstance.userId x =? TaskInstance.userId doc)%nat
                && (TaskInstance.date x =? TaskInstance.date doc));
        [discriminate|]. apply IH, Hnone.
  - apply (find_app_miss _ coll doc). exact Etriple.
Qed.

(** With unique ids, [populate] loads the current subtasks of the task. *)
Lemma populate_current (coll : list Subtask.t) (task : Task.t) :
  NoDup (map Subtask._id coll) ->
  TaskInstances.populateSubtasks coll task = Spec.currentSubtasks coll task.
Proof.
  intros Hnd. unfold TaskInstances.populateSubtasks, Spec.currentSubtasks.
  apply flat_map_ext. intros ref. unfold Js.find.
  induction coll as [|s coll IH]; simpl; [reflexivity|].
  simpl in Hnd. apply NoDup_cons_iff in Hnd. destruct Hnd as [Hs Hrest].
  destruct (Subtask._id s =? ref)%nat eqn:E.
  - f_equal. symmetry. apply Nat.eqb_eq in E. subst ref.
    clear IH Hrest. induction coll as [|x coll IH]; simpl; [reflexivity|].
    destruct (Subtask._id x =? Subtask._id s)%nat eqn:Ex.
    + exfalso. apply Hs. apply Nat.eqb_eq in Ex. left. exact Ex.
    + apply IH. intros Hin. apply Hs. right. exact Hin.
  - apply IH, Hrest.
Qed.

Lemma currentSubtasks_In (coll : list Subtask.t) (task : Task.t)
    (s : Subtask.t) :
  In s (Spec.currentSubtasks coll task)
  <-> In s coll /\ In (Subtask._id s) (Task.subtasks task).
Proof.
  unfold Spec.currentSubtasks. rewrite in_flat_map. split.
  - intros [ref [Href Hs]]. apply filter_In in Hs. destruct Hs as [Hs Hid].
    apply Nat.eqb_eq in Hid. subst ref. auto.
  - intros [Hs Href]. exists (Subtask._id s). split; [exact Href|].
    apply filter_In. split; [exact Hs|apply Nat.eqb_refl].
Qed.

Section SyncFacts.
Context `{LocalTime}.

Lemma setSubtaskInstances_same (x : TaskInstance.t) :
  TaskInstances.setSubtaskInstances x (TaskInstance.subtaskInstances x) = x.
Proof. destruct x; reflexivity. Qed.

(** One call of [getOrCreateTaskInstance] for a stored task. *)
Lemma getOrCreate_spec (db : Db) (task : Task.t) (userId : ObjectId)
    (date : Date) (oid : ObjectId) :
  NoDup (map TaskInstance._id (taskInstances db)) ->
  Js.find (fun t => (Task._id t =? Task._id task)%nat) (tasks db)
    = Some task ->
  exists instance db',
    TaskInstances.getOrCreateTaskInstance db (Task._id task) userId date oid
      = Some (instance, db')
    /\ tasks db' = tasks db /\ subtasks db' = subtasks db
    /\ Spec.synced (TaskInstances.populateSubtasks (subtasks db) task)
         (TaskInstances.findInstance (taskInstances db) (Task._id task)
            userId (startOfDay date))
         instance
    /\ (map TaskInstance._id (taskInstances db')
          = map TaskInstance._id (taskInstances db)
        \/ map TaskInstance._id (taskInstances db')
           = map TaskInstance._id (taskInstances db) ++ [oid])
    /\ (forall taskId' userId' date',
          TaskInstances.findInstance (taskInstances db') taskId' userId' date'
          = if (Task._id task =? taskId')%nat && (userId =? userId')%nat
               && (startOfDay date =? date')
            then Some instance
            else TaskInstances.findInstance (taskInstances db)
                   taskId' userId' date').
Proof.
  intros Hnd Hfind. unfold TaskInstances.getOrCreateTaskInstance.
  rewrite Hfind.
  set (subs := TaskInstances.populateSubtasks (subtasks db) task).
  destruct (TaskInstances.findInstance (taskInstances db) (Task._id task)
              userId (startOfDay date)) as [old|] eqn:Eold.
  - destruct (findInstance_fields _ _ _ _ _ Eold)
      as [Hin [Htask [Huser Hdate]]].
    set (instance' :=
           TaskInstances.setSubtaskInstances old
             (TaskInstances.keepCurrent subs
                (TaskInstance.subtaskInstances old
                 ++ TaskInstances.missingSubtaskInstances subs
                      (TaskInstance.subtaskInstances old)))).
    assert (Hsaved :
              exists db',
                (if negb (isEmpty (TaskInstances.missingSubtaskInstances subs
                                     (TaskInstance.subtaskInstances old)))
                    || negb
                         (List.length
                            (TaskInstances.keepCurrent subs
                               (TaskInstance.subtaskInstances old
                                ++ TaskInstances.missingSubtaskInstances subs
                                     (TaskInstance.subtaskInstances old)))
                          =? List.length
                               (TaskInstance.subtaskInstances old
                                ++ TaskInstances.missingSubtaskInstances subs
                                     (TaskInstance.subtaskInstances old)))%nat
                 then Some (instance',
                            withTaskInstances db
                              (TaskInstances.saveInstance (taskInstances db)
                                 instance'))
                 else Some (instance', db)) = Some (instance', db')
                /\ tasks db' = tasks db /\ subtasks db' = subtasks db
                /\ taskInstances db'
                   = TaskInstances.saveInstance (taskInstances db) instance').
    { destruct (negb (isEmpty _) || negb (_ =? _)%nat) eqn:Eupd.
      - eexists. split; [reflexivity|]. repeat split.
      - exists db. split; [reflexivity|]. repeat split.
        apply orb_false_iff in Eupd. destruct Eupd as [Eadd Elen].
        apply negb_false_iff in Eadd, Elen. apply Nat.eqb_eq in Elen.
        assert (Hsame : instance' = old).
        { unfold instance'. unfold TaskInstances.keepCurrent in *.
          rewrite (filter_same_length _ _ Elen).
          destruct (TaskInstances.missingSubtaskInstances subs
                      (TaskInstance.subtaskInstances old));
            [|discriminate].
          rewrite app_nil_r. apply setSubtaskInstances_same. }
        rewrite Hsame. symmetry. apply saveInstance_same; assumption. }
    destruct Hsaved as [db' [Hrun [Htasks [Hsubs Hinst]]]].
    exists instance', db'. split; [exact Hrun|].
    split; [exact Htasks|]. split; [exact Hsubs|].
    split; [apply sync_is_synced|].
    split; [left; rewrite Hinst; apply saveInstance_ids|].
    intros taskId' userId' date'. rewrite Hinst.
    rewrite <- Htask, <- Huser, <- Hdate in Eold |- *.
    apply findInstance_saved; try assumption; reflexivity.
  - eexists _, _. split; [reflexivity|].
    cbn [tasks subtasks taskInstances withTaskInstances].
    split; [reflexivity|]. split; [reflexivity|].
    split; [split; reflexivity|].
    split; [right; rewrite map_app; reflexivity|].
    intros taskId' userId' date'.
    apply (findInstance_created (taskInstances db)
             (TaskInstance.mk oid (Task._id task) userId (startOfDay date)
                false (TaskInstances.seedSubtaskInstances subs))).
    exact Eold.
Qed.

Lemma find_by_id (coll : list Task.t) (task : Task.t) :
  NoDup (map Task._id coll) -> In task coll ->
  Js.find (fun t => (Task._id t =? Task._id task)%nat) coll = Some task.
Proof.
  intros Hnd Hin. unfold Js.find.
  destruct (List.find _ coll) as [t|] eqn:E.
  - apply find_some in E. destruct E as [Ht Hid]. apply Nat.eqb_eq in Hid.
    f_equal. apply (NoDup_map_inj Task._id coll); assumption.
  - apply (find_none _ _ E) in Hin. rewrite Nat.eqb_refl in Hin.
    discriminate.
Qed.

(** The loop of the route: every task of the array gets its instance, and
    the instance stays as the call for the task left it. *)
Lemma collectInstances_spec (userId : ObjectId) (targetDate : Date)
    (oid : nat -> ObjectId) (activeTasks : list Task.t) :
  (forall j k, oid j = oid k -> j = k) ->
  NoDup (map Task._id activeTasks) ->
  forall (db : Db) (i : nat),
    NoDup (map Task._id (tasks db)) ->
    NoDup (map TaskInstance._id (taskInstances db)) ->
    (forall j, (i <= j)%nat ->
               ~ In (oid j) (map TaskInstance._id (taskInstances db))) ->
    (forall t, In t activeTasks -> In t (tasks db)) ->
    exists instances db',
      TaskInstances.collectInstances db userId targetDate oid i activeTasks
        = (instances, db')
      /\ tasks db' = tasks db /\ subtasks db' = subtasks db
      /\ (forall taskId' userId' date',
            ~ In taskId' (map Task._id activeTasks) ->
            TaskInstances.findInstance (taskInstances db')
              taskId' userId' date'
            = TaskInstances.findInstance (taskInstances db)
                taskId' userId' date')
      /\ (forall task, In task activeTasks ->
            exists instance,
              In instance instances
              /\ TaskInstances.findInstance (taskInstances db')
                   (Task._id task) userId (startOfDay targetDate)
                 = Some instance
              /\ Spec.synced
                   (TaskInstances.populateSubtasks (subtasks db) task)
                   (TaskInstances.findInstance (taskInstances db)
                      (Task._id task) userId (startOfDay targetDate))
                   instance).
Proof.
  intros Hinj. induction activeTasks as [|task rest IH];
    intros Hacts db i Htasks Hinsts Hfresh Hstored.
  - exists [], db. simpl. split; [reflexivity|]. split; [reflexivity|].
    split; [reflexivity|]. split; [reflexivity|]. intros task [].
  - inversion Hacts as [|? ? Hhead Hrest]; subst.
    assert (Hfind : Js.find (fun t => (Task._id t =? Task._id task)%nat)
                      (tasks db) = Some task)
      by (apply find_by_id; [exact Htasks|apply Hstored; simpl; auto]).
    destruct (getOrCreate_spec db task userId targetDate (oid i) Hinsts Hfind)
      as [instance [db1 [Hrun [Ht1 [Hs1 [Hsync [Hids Hlook]]]]]]].
    assert (Hinsts1 : NoDup (map TaskInstance._id (taskInstances db1))).
    { destruct Hids as [->| ->]; [exact Hinsts|].
      apply Permutation_NoDup with (l := oid i :: map TaskInstance._id
                                                    (taskInstances db)).
      - apply Permutation_cons_append.
      - constructor; [apply Hfresh; lia|exact Hinsts]. }
    assert (Hfresh1 : forall j, (S i <= j)%nat ->
              ~ In (oid j) (map TaskInstance._id (taskInstances db1))).
    { intros j Hj Hin. destruct Hids as [Heq|Heq]; rewrite Heq in Hin.
      - apply (Hfresh j); [lia|exact Hin].
      - apply in_app_or in Hin. destruct Hin as [Hin|[Hin|[]]].
        + apply (Hfresh j); [lia|exact Hin].
        + apply Hinj in Hin. lia. }
    destruct (IH Hrest db1 (S i)) as
      [more [db2 [Hloop [Ht2 [Hs2 [Hframe Heach]]]]]].
    { rewrite Ht1. exact Htasks. }
    { exact Hinsts1. }
    { exact Hfresh1. }
    { intros t Ht. rewrite Ht1. apply Hstored. simpl. auto. }
    exists (instance :: more), db2. cbn [TaskInstances.collectInstances].
    rewrite Hrun, Hloop.
    split; [reflexivity|]. split; [congruence|]. split; [congruence|].
    split.
    + intros taskId' userId' date' Hout. simpl in Hout.
      rewrite Hframe by tauto. rewrite Hlook.
      destruct (Task._id task =? taskId')%nat eqn:E; [|reflexivity].
      apply Nat.eqb_eq in E. tauto.
    + intros t [<-|Ht].
      * exists instance. split; [simpl; auto|]. split; [|exact Hsync].
        rewrite Hframe by exact Hhead. rewrite Hlook.
        rewrite !Nat.eqb_refl, Z.eqb_refl. reflexivity.
      * destruct (Heach t Ht) as [inst [Hin [Hfound Hsynced]]].
        exists inst. split; [simpl; auto|]. split; [exact Hfound|].
        rewrite Hs1, Hlook in Hsynced.
        destruct (Task._id task =? Task._id t)%nat eqn:E;
          [|exact Hsynced].
        apply Nat.eqb_eq in E. exfalso. apply Hhead. rewrite E.
        apply in_map, Ht.
Qed.

(** C3.  A read of the dated tasks of a day ([GET /task-instances/date/:date])
    leaves, for every task active on the day, one instance for the task, the
    user and the day, returned in the response.  The current subtasks of the
    task are the stored subtask documents that the task's list refers to.
    If no instance was stored, it is created incomplete with an incomplete
    entry for every current subtask of the task, in the order of the list.
    If one was stored, it gains an incomplete entry for every current
    subtask it lacked, loses every entry whose subtask is not a current
    subtask of the task, and keeps the entries of the surviving subtasks
    with their completed flags. *)
Theorem read_materializes_and_syncs (db : Db) (user : User.t) (date : string)
    (oid : nat -> ObjectId) (year month day : Z) :
  NoDup (map Task._id (tasks db)) ->
  NoDup (map Subtask._id (subtasks db)) ->
  NoDup (map TaskInstance._id (taskInstances db)) ->
  (forall j, ~ In (oid j) (map TaskInstance._id (taskInstances db))) ->
  (forall j k, oid j = oid k -> j = k) ->
  TaskInstances.parseDateParam date = Some (year, month, day) ->
  forall task,
    In task (TaskModel.findTasksForDate (tasks db) (User._id user)
               (localDate year (month - 1) day)) ->
    exists instance,
      In instance (snd (fst (TaskInstances.getDate db user date oid)))
      /\ TaskInstances.findInstance
           (taskInstances (snd (TaskInstances.getDate db user date oid)))
           (Task._id task) (User._id user)
           (startOfDay (localDate year (month - 1) day))
         = Some instance
      /\ Spec.synced (Spec.currentSubtasks (subtasks db) task)
           (TaskInstances.findInstance (taskInstances db) (Task._id task)
              (User._id user) (startOfDay (localDate year (month - 1) day)))
           instance
      /\ (forall s, In s (subtasks db) ->
            In (Subtask._id s) (Task.subtasks task) ->
            In (Subtask._id s)
               (map SubtaskInstance.subtaskId
                    (TaskInstance.subtaskInstances instance)))
      /\ (forall si, In si (TaskInstance.subtaskInstances instance) ->
            In (SubtaskInstance.subtaskId si) (Task.subtasks task)
            /\ In (SubtaskInstance.subtaskId si)
                  (map Subtask._id (subtasks db))).
Proof.
  intros Htasks Hsubs Hinsts Hfresh Hinj Hparse task Hactive.
  unfold TaskInstances.getDate. rewrite Hparse.
  set (targetDate := localDate year (month - 1) day) in *.
  set (activeTasks := TaskModel.findTasksForDate (tasks db) (User._id user)
                        targetDate) in *.
  destruct (collectInstances_spec (User._id user) targetDate oid activeTasks
              Hinj) with (db := db) (i := O)
    as [instances [db' [Hloop [_ [_ [_ Heach]]]]]].
  - apply sort_NoDup_map, NoDup_map_filter, Htasks.
  - exact Htasks.
  - exact Hinsts.
  - intros j _. apply Hfresh.
  - intros t Ht. unfold activeTasks, TaskModel.findTasksForDate in Ht.
    apply sort_In, filter_In in Ht. apply Ht.
  - rewrite Hloop. cbn [fst snd].
    destruct (Heach task Hactive) as [instance [Hin [Hfound Hsynced]]].
    rewrite (populate_current _ task Hsubs) in Hsynced.
    exists instance. split; [exact Hin|]. split; [exact Hfound|].
    split; [exact Hsynced|].
    set (subs := Spec.currentSubtasks (subtasks db) task) in *.
    assert (Hcovered : forall s, In s subs ->
              In (Subtask._id s)
                 (map SubtaskInstance.subtaskId
                      (TaskInstance.subtaskInstances instance))).
    { intros s Hs.
      destruct (TaskInstances.findInstance (taskInstances db) _ _ _)
        as [old|]; cbn [Spec.synced] in Hsynced.
      - destruct Hsynced as [_ [_ [Hadd [_ [Hkeep _]]]]].
        destruct (in_dec Nat.eq_dec (Subtask._id s)
                    (map SubtaskInstance.subtaskId
                         (TaskInstance.subtaskInstances old)))
          as [Hold|Hnew].
        + apply in_map_iff in Hold. destruct Hold as [si [Hid Hsi]].
          rewrite <- Hid. apply in_map, Hkeep; [exact Hsi|].
          rewrite Hid. apply in_map, Hs.
        + exact (in_map SubtaskInstance.subtaskId _ _ (Hadd s Hs Hnew)).
      - destruct Hsynced as [_ ->]. rewrite map_map. cbn.
        apply (in_map Subtask._id), Hs. }
    assert (Hcurrent : forall si,
              In si (TaskInstance.subtaskInstances instance) ->
              In (SubtaskInstance.subtaskId si) (map Subtask._id subs)).
    { intros si Hsi.
      destruct (TaskInstances.findInstance (taskInstances db) _ _ _)
        as [old|]; cbn [Spec.synced] in Hsynced.
      - destruct Hsynced as [_ [_ [_ [Hrefs _]]]]. apply Hrefs, Hsi.
      - destruct Hsynced as [_ Heq]. rewrite Heq in Hsi.
        apply in_map_iff in Hsi. destruct Hsi as [s [<- Hs]].
        exact (in_map Subtask._id _ _ Hs). }
    split.
    + intros s Hs Href. apply Hcovered, currentSubtasks_In. auto.
    + intros si Hsi. specialize (Hcurrent si Hsi).
      apply in_map_iff in Hcurrent. destruct Hcurrent as [s [Hid Hs]].
      apply currentSubtasks_In in Hs. destruct Hs as [Hs Href].
      rewrite <- Hid. split; [exact Href|apply in_map, Hs].
Qed.

End SyncFacts.

(** The theorem on a task of 2024-06-01 with the subtasks A (11) and B (12)
    whose stored instance has a completed entry for A and an entry for a
    subtask (13) that is gone: the read keeps A, drops 13 and adds B. *)
Lemma read_materializes_and_syncs_witness :
  let task :=
    Task.mk 1 "task" false 1 (Some (Scenario.day 19875))
      (Some (Scenario.day 19875)) 7 None [11; 12]%nat 100 in
  let stored :=
    TaskInstance.mk 50 1 7 (Scenario.day 19875) false
      [SubtaskInstance.mk 11 true; SubtaskInstance.mk 13 false] in
  let db :=
    mkDb [] [] [] [task]
      [Subtask.mk 11 "A" false "" 1; Subtask.mk 12 "B" false "" 1]
      [stored] in
  let oid := fun n : nat => (n + 100)%nat in
  exists instance,
    In instance
      (snd (fst (TaskInstances.getDate db Scenario.alice "2024-06-01" oid)))
    /\ TaskInstances.findInstance
         (taskInstances
            (snd (TaskInstances.getDate db Scenario.alice "2024-06-01" oid)))
         1 7 (Scenario.day 19875)
       = Some instance
    /\ Spec.synced
         [Subtask.mk 11 "A" false "" 1; Subtask.mk 12 "B" false "" 1]
         (Some stored) instance
    /\ TaskInstance.subtaskInstances instance
       = [SubtaskInstance.mk 11 true; SubtaskInstance.mk 12 false].
Proof.
  intros task stored db oid.
  destruct (read_materializes_and_syncs db Scenario.alice "2024-06-01" oid
              2024 6 1) with (task := task)
    as [instance [Hreturned [Hstored [Hsynced _]]]].
  - simpl. concrete_NoDup.
  - simpl. concrete_NoDup.
  - simpl. concrete_NoDup.
  - intros j Hj. unfold oid in Hj. simpl in Hj. lia.
  - intros j k Hjk. unfold oid in Hjk. lia.
  - reflexivity.
  - vm_compute. left. reflexivity.
  - exists instance. split; [exact Hreturned|].
    split; [exact Hstored|]. split; [exact Hsynced|].
    vm_compute in Hstored. injection Hstored as <-. reflexivity.
Defined.

(* ===================================================================== *)
(** ** The date pair of a task *)
(* ===================================================================== *)

Ltac pair_case :=
  split; [|split; [|split]];
  intros; try reflexivity; try discriminate; try congruence.

Section DatePairFacts.
Context `{LocalTime}.

(** The create route stores a task only with both dates or neither, the end
    not before the start; a lone date, or an end before the start, stores
    nothing. *)
Lemma post_enforces_the_pair (db : Db) (user : User.t)
    (body : Tasks.CreateBody) (oid : ObjectId) (now : Date) :
  (status (fst (Tasks.post db user body oid now)) = 201%nat ->
   exists task,
     snd (Tasks.post db user body oid now)
     = withTasks db (tasks db ++ [task])
     /\ ((Task.startDate task = None /\ Task.endDate task = None)
         \/ exists s e, Task.startDate task = Some s
                        /\ Task.endDate task = Some e /\ s <= e))
  /\ (status (fst (Tasks.post db user body oid now)) <> 201%nat ->
      snd (Tasks.post db user body oid now) = db)
  /\ (Tasks.oneDateOnly (Tasks.c_startDate body) (Tasks.c_endDate body)
      = true ->
      status (fst (Tasks.post db user body oid now)) = 400%nat)
  /\ (forall s e, Tasks.c_startDate body = Some s ->
                  Tasks.c_endDate body = Some e -> e < s ->
                  status (fst (Tasks.post db user body oid now))
                  <> 201%nat).
Proof.
  unfold Tasks.post, Tasks.createTask, TaskModel.endDateValidator,
    Tasks.oneDateOnly, Tasks.endBeforeStart.
  destruct (isEmpty (Tasks.c_errors body)); simpl;
    [|pair_case].
  destruct (Tasks.c_startDate body) as [s|], (Tasks.c_endDate body) as [e|];
    simpl; [|pair_case|pair_case|].
  - destruct (startOfDay e <? startOfDay s); simpl; [pair_case|].
    destruct (s <=? e) eqn:Ese; simpl; [|pair_case].
    apply Z.leb_le in Ese. pair_case.
    + eexists. split; [reflexivity|]. right. exists s, e. simpl. auto.
    + match goal with
      | Hs : Some _ = Some _, He : Some _ = Some _ |- _ =>
          injection Hs as <-; injection He as <-
      end. lia.
  - pair_case. eexists. split; [reflexivity|]. left. simpl. auto.
Qed.

(** The admin's create route repeats the two guards. *)
Lemma postCreateTask_enforces_the_pair (db : Db) (user : User.t)
    (body : Admin.CreateTaskBody) (oid : ObjectId) (now : Date) :
  (status (fst (Admin.postCreateTask db user body oid now)) = 201%nat ->
   exists task,
     snd (Admin.postCreateTask db user body oid now)
     = withTasks db (tasks db ++ [task])
     /\ ((Task.startDate task = None /\ Task.endDate task = None)
         \/ exists s e, Task.startDate task = Some s
                        /\ Task.endDate task = Some e /\ s <= e))
  /\ (status (fst (Admin.postCreateTask db user body oid now)) <> 201%nat ->
      snd (Admin.postCreateTask db user body oid now) = db)
  /\ (Tasks.oneDateOnly (Admin.ct_startDate body) (Admin.ct_endDate body)
      = true ->
      status (fst (Admin.postCreateTask db user body oid now)) <> 201%nat)
  /\ (forall s e, Admin.ct_startDate body = Some s ->
                  Admin.ct_endDate body = Some e -> e < s ->
                  status (fst (Admin.postCreateTask db user body oid now))
                  <> 201%nat).
Proof.
  unfold Admin.postCreateTask, Tasks.createTask, TaskModel.endDateValidator,
    Tasks.oneDateOnly, Tasks.endBeforeStart.
  destruct (negb (Admin.adminAuth user)); simpl; [pair_case|].
  destruct (isEmpty (Admin.ct_errors body)); simpl; [|pair_case].
  destruct (Js.find _ (users db)) as [targetUser|]; [|pair_case].
  destruct (Admin.ct_startDate body) as [s|], (Admin.ct_endDate body) as [e|];
    simpl; [|pair_case|pair_case|].
  - destruct (startOfDay e <? startOfDay s); simpl; [pair_case|].
    destruct (s <=? e) eqn:Ese; simpl; [|pair_case].
    apply Z.leb_le in Ese. pair_case.
    + eexists. split; [reflexivity|]. right. exists s, e. simpl. auto.
    + match goal with
      | Hs : Some _ = Some _, He : Some _ = Some _ |- _ =>
          injection Hs as <-; injection He as <-
      end. lia.
  - pair_case. eexists. split; [reflexivity|]. left. simpl. auto.
Qed.

(** The update route has no such guard: a start date alone, sent for a
    static task, is stored. *)
Lemma put_stores_a_lone_start_date (db : Db) (user : User.t) (id : ObjectId)
    (task : Task.t) (start : Date) :
  Js.find (fun t => (Task._id t =? id)%nat
                    && (Task.userId t =? User._id user)%nat) (tasks db)
    = Some task ->
  Task.startDate task = None -> Task.endDate task = None ->
  Tasks.put db user id
    (Tasks.mkUpdateBody [] None None (Some start) None None None None
       None)
  = (mkResponse 200 "Task updated successfully",
     withTasks db
       (Tasks.saveTask (tasks db)
          (Task.mk (Task._id task) (Task.title task) (Task.completed task)
             (Task.order task) (Some start) None (Task.userId task)
             (Task.createdBy task) (Task.subtasks task)
             (Task.createdAt task)))).
Proof.
  intros Hfind Hstart Hend. unfold Tasks.put. simpl. rewrite Hfind.
  unfold Tasks.assign. simpl. rewrite Hend. reflexivity.
Qed.

End DatePairFacts.

(** C7 (the code breaks the claim).  [PUT /tasks/:id] with a body holding only
    [startDate], for a static task: the response is 200 and the stored task
    has a start date and no end date. *)
Theorem update_accepts_a_lone_start_date :
  status (fst (Tasks.put Scenario.staticDb Scenario.alice 1
                 Scenario.onlyStart)) = 200%nat
  /\ map (fun t => (Task._id t, Task.startDate t, Task.endDate t))
       (tasks (snd (Tasks.put Scenario.staticDb Scenario.alice 1
                      Scenario.onlyStart)))
     = [(1%nat, Some 1717200000000, None)].
Proof. split; reflexivity. Qed.

(* ===================================================================== *)
(** ** Registration *)
(* ===================================================================== *)

Section RegistrationFacts.
Variable hash : string -> string.

(** C9 (as amended).  A registration request whose email is not the bootstrap
    email and has no whitelist entry creates no user (the store is left as it
    was) and is answered with a failure: the authorization failure 403 when
    the request passes field validation and no user has the email yet, and a
    400 otherwise, "Validation failed" for a body that fails validation and
    "User already exists with this email" for a registered email.  If the
    first whitelist entry of the email is marked used, registration fails
    with a 400 and the store is left as it was; for a valid body and an
    email not yet registered the answer is "This email has already been used
    for registration". *)
Theorem unlisted_registration_creates_no_user (db : Db)
    (body : Auth.RegisterBody) (oid : ObjectId) :
  Auth.r_email body <> Auth.bootstrapEmail ->
  (Js.find (fun w => (Whitelist.email w =? Auth.r_email body)%string)
           (whitelist db) = None ->
   snd (Auth.register hash db body oid) = db
   /\ (Auth.r_errors body = [] ->
       Js.find (fun u => (User.email u =? Auth.r_email body)%string)
               (users db) = None ->
       fst (Auth.register hash db body oid)
       = mkResponse 403 "Email not authorized. Please contact admin to whitelist your email address.")
   /\ (Auth.r_errors body <> [] ->
       fst (Auth.register hash db body oid)
       = mkResponse 400 "Validation failed")
   /\ (Auth.r_errors body = [] ->
       Js.find (fun u => (User.email u =? Auth.r_email body)%string)
               (users db) <> None ->
       fst (Auth.register hash db body oid)
       = mkResponse 400 "User already exists with this email"))
  /\ (forall entry,
        Js.find (fun w => (Whitelist.email w =? Auth.r_email body)%string)
                (whitelist db) = Some entry ->
        Whitelist.isUsed entry = true ->
        snd (Auth.register hash db body oid) = db
        /\ status (fst (Auth.register hash db body oid)) = 400%nat
        /\ (Auth.r_errors body = [] ->
            Js.find (fun u => (User.email u =? Auth.r_email body)%string)
                    (users db) = None ->
            fst (Auth.register hash db body oid)
            = mkResponse 400
                "This email has already been used for registration")).
Proof.
  intros Hboot. apply String.eqb_neq in Hboot.
  unfold Auth.register. rewrite Hboot. simpl.
  split.
  - intros Hnone. rewrite Hnone.
    destruct (Auth.r_errors body) as [|e es]; simpl.
    + destruct (Js.find _ (users db)); simpl.
      * split; [reflexivity|]. split; [discriminate|].
        split; [congruence|reflexivity].
      * split; [reflexivity|]. split; [reflexivity|].
        split; congruence.
    + split; [reflexivity|]. split; [discriminate|].
      split; [reflexivity|discriminate].
  - intros entry Hentry Hused. rewrite Hentry, Hused.
    destruct (Auth.r_errors body) as [|e es]; simpl;
      [|split; [reflexivity|split; [reflexivity|discriminate]]].
    destruct (Js.find _ (users db)); simpl;
      (split; [reflexivity|split; [reflexivity|]]);
      [discriminate|reflexivity].
Qed.

End RegistrationFacts.

(** The theorem on an empty store, for an unlisted email, and on a store whose
    whitelist entry for the email is used. *)
Lemma unlisted_registration_creates_no_user_witness :
  let body := Auth.mkRegisterBody [] "X" "x@y.com" "secret1" in
  let used :=
    withWhitelist emptyDb [Whitelist.mk 3 "x@y.com" 1 true (Some 9%nat)] in
  (snd (Auth.register (fun p => p) emptyDb body 9) = emptyDb
   /\ status (fst (Auth.register (fun p => p) emptyDb body 9)) = 403%nat)
  /\ (snd (Auth.register (fun p => p) used body 9) = used
      /\ status (fst (Auth.register (fun p => p) used body 9)) = 400%nat).
Proof.
  intros body used.
  assert (Hboot : Auth.r_email body <> Auth.bootstrapEmail)
    by (simpl; discriminate).
  split.
  - destruct (unlisted_registration_creates_no_user (fun p => p) emptyDb body
                9 Hboot) as [Hnone _].
    destruct (Hnone eq_refl) as [Hdb [Hstatus _]].
    split; [exact Hdb|]. rewrite Hstatus; reflexivity.
  - destruct (unlisted_registration_creates_no_user (fun p => p) used body
                9 Hboot) as [_ Hused].
    destruct (Hused (Whitelist.mk 3 "x@y.com" 1 true (Some 9%nat)) eq_refl
                eq_refl) as [Hdb [Hstatus _]].
    split; [exact Hdb|exact Hstatus].
Defined.

(** C9 as the claim states it fails: after the seed script the store holds
    the demo user and no whitelist entry; a registration with the demo email
    is answered 400 "User already exists with this email", not with an
    authorization failure. *)
Lemma registered_email_is_refused_with_400 :
  ~ (forall (hash : string -> string) (db : Db) (body : Auth.RegisterBody)
            (oid : ObjectId),
       Auth.r_email body <> Auth.bootstrapEmail ->
       Js.find (fun w => (Whitelist.email w =? Auth.r_email body)%string)
               (whitelist db) = None ->
       status (fst (Auth.register hash db body oid)) = 403%nat
       /\ users (snd (Auth.register hash db body oid)) = users db).
Proof.
  intros Hclaim.
  destruct (Hclaim (fun p => p) Scenario.seededDb Scenario.demoRegistration
              9%nat) as [Hstatus _].
  - simpl. discriminate.
  - reflexivity.
  - vm_compute in Hstatus. discriminate.
Qed.

(* ===================================================================== *)
(** ** Reset codes *)
(* ===================================================================== *)

Lemma unusedFor_app (coll more : list ResetCode.t) (email : string) :
  Spec.unusedFor (coll ++ more) email
  = Spec.unusedFor coll email ++ Spec.unusedFor more email.
Proof. unfold Spec.unusedFor. apply filter_app. Qed.

Lemma expireUnused_none (coll : list ResetCode.t) (email : string)
    (now : Date) :
  Spec.unusedFor (Admin.expireUnused coll email now) email = [].
Proof.
  unfold Spec.unusedFor, Admin.expireUnused.
  induction coll as [|rc coll IH]; simpl; [reflexivity|].
  destruct (ResetCode.email rc =? email)%string eqn:Ee;
    destruct (ResetCode.isUsed rc) eqn:Eu; simpl;
    rewrite ?Ee, ?Eu; simpl; exact IH.
Qed.

Lemma expireUnused_other (coll : list ResetCode.t) (email other : string)
    (now : Date) :
  other <> email ->
  Spec.unusedFor (Admin.expireUnused coll email now) other
  = Spec.unusedFor coll other.
Proof.
  intros Hne. unfold Spec.unusedFor, Admin.expireUnused.
  induction coll as [|rc coll IH]; simpl; [reflexivity|].
  rewrite IH.
  destruct (ResetCode.email rc =? email)%string eqn:Ee;
    destruct (ResetCode.isUsed rc) eqn:Eu; simpl;
    rewrite ?Eu; try reflexivity.
  apply String.eqb_eq in Ee.
  destruct (ResetCode.email rc =? other)%string eqn:Eo; [|reflexivity].
  apply String.eqb_eq in Eo. congruence.
Qed.

Lemma expireUnused_marks (coll : list ResetCode.t) (email : string)
    (now : Date) (rc : ResetCode.t) :
  In rc coll -> ResetCode.email rc = email -> ResetCode.isUsed rc = false ->
  exists rc',
    In rc' (Admin.expireUnused coll email now)
    /\ ResetCode._id rc' = ResetCode._id rc
    /\ ResetCode.code rc' = ResetCode.code rc
    /\ ResetCode.isUsed rc' = true.
Proof.
  intros Hin Hemail Hunused. eexists. split.
  - unfold Admin.expireUnused. apply in_map, Hin.
  - simpl. rewrite Hemail, String.eqb_refl, Hunused. simpl. auto.
Qed.

(** A write that only marks codes used, or removes codes, leaves no more
    unused codes per email than there were. *)
Lemma unusedFor_marking (f : ResetCode.t -> ResetCode.t)
    (coll : list ResetCode.t) (email : string) :
  (forall rc, ResetCode.email (f rc) = ResetCode.email rc) ->
  (forall rc, ResetCode.isUsed rc = true -> ResetCode.isUsed (f rc) = true) ->
  (List.length (Spec.unusedFor (map f coll) email)
   <= List.length (Spec.unusedFor coll email))%nat.
Proof.
  intros Hemail Hused. unfold Spec.unusedFor.
  induction coll as [|rc coll IH]; simpl; [lia|].
  rewrite Hemail.
  destruct (ResetCode.email rc =? email)%string; simpl; [|exact IH].
  destruct (ResetCode.isUsed rc) eqn:Eu.
  - rewrite (Hused rc Eu). simpl. exact IH.
  - destruct (ResetCode.isUsed (f rc)); simpl; lia.
Qed.

Lemma unusedFor_removing (keep : ResetCode.t -> bool)
    (coll : list ResetCode.t) (email : string) :
  (List.length (Spec.unusedFor (filter keep coll) email)
   <= List.length (Spec.unusedFor coll email))%nat.
Proof.
  unfold Spec.unusedFor. induction coll as [|rc coll IH]; simpl; [lia|].
  destruct (keep rc); simpl;
    destruct ((ResetCode.email rc =? email)%string
              && negb (ResetCode.isUsed rc)); simpl; lia.
Qed.

Lemma expireUnused_as_marking (coll : list ResetCode.t) (email other : string)
    (now : Date) :
  (List.length (Spec.unusedFor (Admin.expireUnused coll email now) other)
   <= List.length (Spec.unusedFor coll other))%nat.
Proof.
  unfold Admin.expireUnused. apply unusedFor_marking.
  - intros rc. destruct (_ && _); reflexivity.
  - intros rc Hu. rewrite Hu, andb_false_r. exact Hu.
Qed.

Lemma liveFor_le (coll : list ResetCode.t) (email : string) (now : Date) :
  (List.length (Spec.liveFor coll email now)
   <= List.length (Spec.unusedFor coll email))%nat.
Proof. unfold Spec.liveFor. apply filter_length_le. Qed.

(** The code loop. *)
Lemma uniqueCode_free (fuel : nat) (random : nat -> Js.Double.t) (i : nat)
    (coll : list ResetCode.t) (code : string) :
  Admin.uniqueCode fuel random i coll = Some code ->
  Admin.unusedWithCode coll code = false
  /\ exists k, code = Admin.generateResetCode (random k).
Proof.
  revert i. induction fuel as [|fuel IH]; intros i; simpl; [discriminate|].
  destruct (Admin.unusedWithCode coll
              (Admin.generateResetCode (random i))) eqn:E.
  - apply IH.
  - intros [= <-]. split; [exact E|]. exists i. reflexivity.
Qed.

(** The loop ends as soon as a draw gives a free code. *)
Lemma uniqueCode_returns (fuel : nat) (random : nat -> Js.Double.t) (i k : nat)
    (coll : list ResetCode.t) :
  (k < fuel)%nat ->
  Admin.unusedWithCode coll (Admin.generateResetCode (random (i + k)%nat))
    = false ->
  exists code, Admin.uniqueCode fuel random i coll = Some code.
Proof.
  revert i k. induction fuel as [|fuel IH]; intros i k Hk Hfree; [lia|].
  simpl.
  destruct (Admin.unusedWithCode coll
              (Admin.generateResetCode (random i))) eqn:E.
  - destruct k as [|k].
    + rewrite Nat.add_0_r in Hfree. congruence.
    + apply (IH (S i) k); [lia|].
      replace (S i + k)%nat with (i + S k)%nat by lia. exact Hfree.
  - eexists. reflexivity.
Qed.

(** The loop passes over the draws that collide with an unused code and
    returns the first that does not. *)
Lemma uniqueCode_redraws (fuel : nat) (random : nat -> Js.Double.t)
    (i k : nat) (coll : list ResetCode.t) :
  (k < fuel)%nat ->
  (forall j, (j < k)%nat ->
     Admin.unusedWithCode coll (Admin.generateResetCode (random (i + j)%nat))
     = true) ->
  Admin.unusedWithCode coll (Admin.generateResetCode (random (i + k)%nat))
    = false ->
  Admin.uniqueCode fuel random i coll
  = Some (Admin.generateResetCode (random (i + k)%nat)).
Proof.
  revert i k. induction fuel as [|fuel IH]; intros i k Hk Hbusy Hfree; [lia|].
  simpl. destruct k as [|k].
  - rewrite Nat.add_0_r in Hfree |- *. rewrite Hfree. reflexivity.
  - pose proof (Hbusy O ltac:(lia)) as Hfirst.
    rewrite Nat.add_0_r in Hfirst. rewrite Hfirst.
    replace (i + S k)%nat with (S i + k)%nat in * by lia.
    apply IH; [lia| |exact Hfree].
    intros j Hj. replace (S i + j)%nat with (i + S j)%nat by lia.
    apply Hbusy. lia.
Qed.

Lemma unusedWithCode_false (coll : list ResetCode.t) (code : string)
    (rc : ResetCode.t) :
  Admin.unusedWithCode coll code = false -> In rc coll ->
  ResetCode.isUsed rc = false -> ResetCode.code rc <> code.
Proof.
  unfold Admin.unusedWithCode, Js.find. intros Hnone Hin Hunused Hcode.
  destruct (List.find _ coll) eqn:E; [discriminate|].
  apply (find_none _ _ E) in Hin.
  rewrite Hcode, String.eqb_refl, Hunused in Hin. discriminate.
Qed.

(** What a successful issue stores. *)
Lemma postResetCodes_created (db : Db) (user : User.t)
    (body : Admin.ResetCodeBody) (random : nat -> Js.Double.t) (fuel : nat)
    (oid : ObjectId) (now : Date) (response : Response) (db' : Db) :
  Admin.postResetCodes db user body random fuel oid now
    = Some (response, db') ->
  status response = 201%nat ->
  exists code,
    resetCodes db'
    = Admin.expireUnused (resetCodes db) (Admin.rc_email body) now
      ++ [ResetCode.mk oid code (Admin.rc_email body) (User._id user) false
            None (now + 24 * 60 * 60 * 1000)]
    /\ (forall rc,
          In rc (Admin.expireUnused (resetCodes db) (Admin.rc_email body) now)
          -> ResetCode.code rc <> code)
    /\ (exists k, code = Admin.generateResetCode (random k)).
Proof.
  unfold Admin.postResetCodes, Admin.createResetCode. intros Hrun Hok.
  destruct (negb (Admin.adminAuth user));
    [injection Hrun as <- <-; discriminate|].
  destruct (negb (isEmpty (Admin.rc_errors body)));
    [injection Hrun as <- <-; discriminate|].
  destruct (Js.find _ (users db));
    [|injection Hrun as <- <-; discriminate].
  destruct (Js.find _ (whitelist db));
    [|injection Hrun as <- <-; discriminate].
  destruct (Admin.uniqueCode fuel random 0 _) as [code|] eqn:Ecode;
    [|discriminate].
  cbn [ResetCode.code] in Hrun.
  destruct (existsb _ _) eqn:Edup;
    injection Hrun as <- <-; [discriminate|].
  exists code. split; [reflexivity|]. split.
  - intros rc Hin Hcode.
    assert (Hex : existsb (fun rc0 => (ResetCode.code rc0 =? code)%string)
                    (Admin.expireUnused (resetCodes db)
                       (Admin.rc_email body) now) = true).
    { apply existsb_exists. exists rc. split; [exact Hin|].
      apply String.eqb_eq, Hcode. }
    congruence.
  - apply (uniqueCode_free _ _ _ _ _ Ecode).
Qed.

(** Whatever the response, an issue leaves at most one unused code per email
    if there was at most one before. *)
Lemma postResetCodes_keeps_one (db : Db) (user : User.t)
    (body : Admin.ResetCodeBody) (random : nat -> Js.Double.t) (fuel : nat)
    (oid : ObjectId) (now : Date) (response : Response) (db' : Db) :
  Admin.postResetCodes db user body random fuel oid now
    = Some (response, db') ->
  (forall email,
     (List.length (Spec.unusedFor (resetCodes db) email) <= 1)%nat) ->
  forall email,
    (List.length (Spec.unusedFor (resetCodes db') email) <= 1)%nat.
Proof.
  unfold Admin.postResetCodes, Admin.createResetCode. intros Hrun Hinv email.
  destruct (negb (Admin.adminAuth user));
    [injection Hrun as _ <-; apply Hinv|].
  destruct (negb (isEmpty (Admin.rc_errors body)));
    [injection Hrun as _ <-; apply Hinv|].
  destruct (Js.find _ (users db));
    [|injection Hrun as _ <-; apply Hinv].
  destruct (Js.find _ (whitelist db));
    [|injection Hrun as _ <-; apply Hinv].
  destruct (Admin.uniqueCode fuel random 0 _) as [code|]; [|discriminate].
  destruct (existsb _ _); injection Hrun as _ <-;
    cbn [resetCodes withResetCodes].
  - pose proof (expireUnused_as_marking (resetCodes db)
                  (Admin.rc_email body) email now).
    specialize (Hinv email). lia.
  - rewrite unusedFor_app.
    destruct (String.eqb_spec email (Admin.rc_email body)) as [->|Hne].
    + rewrite expireUnused_none. unfold Spec.unusedFor. simpl.
      rewrite String.eqb_refl. simpl. lia.
    + rewrite expireUnused_other by exact Hne.
      unfold Spec.unusedFor at 2. simpl.
      replace (Admin.rc_email body =? email)%string with false
        by (symmetry; apply String.eqb_neq; congruence).
      simpl. rewrite app_nil_r. apply Hinv.
Qed.

Lemma filter_map_shrinks {A : Type} (p : A -> bool) (f : A -> A)
    (l : list A) :
  (forall x, p (f x) = true -> p x = true) ->
  (List.length (filter p (map f l)) <= List.length (filter p l))%nat.
Proof.
  intros Hp. induction l as [|x l IH]; simpl; [lia|].
  destruct (p (f x)) eqn:E.
  - rewrite (Hp x E). simpl. lia.
  - destruct (p x); simpl; lia.
Qed.

(** *** What each request does to the reset codes *)

Ltac case_innermost x :=
  lazymatch x with
  | context [match ?y with _ => _ end] => case_innermost y
  | _ => destruct x
  end.

Ltac frame_cases :=
  repeat (match goal with
          | |- context [match ?x with _ => _ end] => case_innermost x
          end);
  reflexivity.

Section ResetCodeFacts.
Context `{LocalTime}.
Variable hash : string -> string.

Lemma register_resetCodes (db : Db) (body : Auth.RegisterBody)
    (oid : ObjectId) :
  resetCodes (snd (Auth.register hash db body oid)) = resetCodes db.
Proof. unfold Auth.register. frame_cases. Qed.

Lemma postCreateTask_resetCodes (db : Db) (user : User.t)
    (body : Admin.CreateTaskBody) (oid : ObjectId) (now : Date) :
  resetCodes (snd (Admin.postCreateTask db user body oid now))
  = resetCodes db.
Proof. unfold Admin.postCreateTask, Tasks.createTask. frame_cases. Qed.

Lemma post_resetCodes (db : Db) (user : User.t) (body : Tasks.CreateBody)
    (oid : ObjectId) (now : Date) :
  resetCodes (snd (Tasks.post db user body oid now)) = resetCodes db.
Proof. unfold Tasks.post, Tasks.createTask. frame_cases. Qed.

Lemma put_resetCodes (db : Db) (user : User.t) (id : ObjectId)
    (updates : Tasks.UpdateBody) :
  resetCodes (snd (Tasks.put db user id updates)) = resetCodes db.
Proof. unfold Tasks.put. frame_cases. Qed.

Lemma delete_resetCodes (db : Db) (user : User.t) (id : ObjectId) :
  resetCodes (snd (Tasks.delete db user id)) = resetCodes db.
Proof. unfold Tasks.delete. frame_cases. Qed.

Lemma putOrder_resetCodes (db : Db) (user : User.t) (id : ObjectId)
    (direction : string) :
  resetCodes (snd (Tasks.putOrder db user id direction)) = resetCodes db.
Proof. unfold Tasks.putOrder. frame_cases. Qed.

Lemma putComplete_resetCodes (db : Db) (user : User.t) (id : ObjectId) :
  resetCodes (snd (TaskInstances.putComplete db user id)) = resetCodes db.
Proof. unfold TaskInstances.putComplete. frame_cases. Qed.

Lemma putSubtask_resetCodes (db : Db) (user : User.t)
    (id subtaskId : ObjectId) :
  resetCodes (snd (TaskInstances.putSubtask db user id subtaskId))
  = resetCodes db.
Proof. unfold TaskInstances.putSubtask. frame_cases. Qed.

Lemma getOrCreate_resetCodes (db : Db) (taskId userId : ObjectId)
    (date : Date) (oid : ObjectId) (instance : TaskInstance.t) (db' : Db) :
  TaskInstances.getOrCreateTaskInstance db taskId userId date oid
    = Some (instance, db') ->
  resetCodes db' = resetCodes db.
Proof.
  unfold TaskInstances.getOrCreateTaskInstance.
  destruct (Js.find _ (tasks db)); [|discriminate].
  destruct (TaskInstances.findInstance _ _ _ _).
  - destruct (_ || _); intros [= _ <-]; reflexivity.
  - intros [= _ <-]. reflexivity.
Qed.

Lemma collectInstances_resetCodes (userId : ObjectId) (targetDate : Date)
    (oid : nat -> ObjectId) (activeTasks : list Task.t) :
  forall (db : Db) (i : nat),
    resetCodes (snd (TaskInstances.collectInstances db userId targetDate oid
                       i activeTasks))
    = resetCodes db.
Proof.
  induction activeTasks as [|task rest IH]; intros db i; simpl.
  - reflexivity.
  - destruct (TaskInstances.getOrCreateTaskInstance db (Task._id task) userId
                targetDate (oid i)) as [[instance db1]|] eqn:E.
    + specialize (IH db1 (S i)).
      destruct (TaskInstances.collectInstances db1 userId targetDate oid
                  (S i) rest) as [more db2].
      simpl in *. rewrite IH. eapply getOrCreate_resetCodes, E.
    + apply IH.
Qed.

Lemma getDate_resetCodes (db : Db) (user : User.t) (date : string)
    (oid : nat -> ObjectId) :
  resetCodes (snd (TaskInstances.getDate db user date oid)) = resetCodes db.
Proof.
  unfold TaskInstances.getDate.
  destruct (TaskInstances.parseDateParam date) as [[[y m] d]|];
    [|reflexivity].
  pose proof (collectInstances_resetCodes (User._id user)
                (localDate y (m - 1) d) oid
                (TaskModel.findTasksForDate (tasks db) (User._id user)
                   (localDate y (m - 1) d)) db O) as Hloop.
  destruct (TaskInstances.collectInstances _ _ _ _ _ _) as [insts db'].
  exact Hloop.
Qed.

Lemma resetPassword_keeps_one (db : Db) (body : Auth.ResetPasswordBody)
    (now : Date) (email : string) :
  (List.length
     (Spec.unusedFor (resetCodes (snd (Auth.resetPassword hash db body now)))
        email)
   <= List.length (Spec.unusedFor (resetCodes db) email))%nat.
Proof.
  unfold Auth.resetPassword.
  destruct (negb (isEmpty (Auth.p_errors body))); [simpl; lia|].
  destruct (Js.find _ (users db)); [|simpl; lia].
  destruct (Js.find _ (whitelist db)); [|simpl; lia].
  destruct (Js.find _ (resetCodes db)) as [resetCode|]; [|simpl; lia].
  cbn [snd resetCodes withResetCodes withUsers].
  unfold Spec.unusedFor. apply filter_map_shrinks.
  intros rc.
  destruct (ResetCode._id rc =? ResetCode._id resetCode)%nat; [|tauto].
  simpl. rewrite andb_false_r. discriminate.
Qed.

Lemma deleteResetCode_keeps_one (db : Db) (user : User.t) (id : ObjectId)
    (email : string) :
  (List.length
     (Spec.unusedFor (resetCodes (snd (Admin.deleteResetCode db user id)))
        email)
   <= List.length (Spec.unusedFor (resetCodes db) email))%nat.
Proof.
  unfold Admin.deleteResetCode.
  destruct (negb (Admin.adminAuth user)); [simpl; lia|].
  destruct (Js.find _ (resetCodes db)); [|simpl; lia].
  cbn [snd resetCodes withResetCodes]. apply unusedFor_removing.
Qed.

Lemma step_keeps_one (db db' : Db) :
  Api.Step hash db db' ->
  (forall email,
     (List.length (Spec.unusedFor (resetCodes db) email) <= 1)%nat) ->
  forall email,
    (List.length (Spec.unusedFor (resetCodes db') email) <= 1)%nat.
Proof.
  intros Hstep Hinv email.
  destruct Hstep;
    try (rewrite ?register_resetCodes, ?postCreateTask_resetCodes,
           ?post_resetCodes, ?put_resetCodes, ?delete_resetCodes,
           ?putOrder_resetCodes, ?getDate_resetCodes,
           ?putComplete_resetCodes, ?putSubtask_resetCodes;
         apply Hinv).
  - pose proof (resetPassword_keeps_one db body now email).
    specialize (Hinv email). lia.
  - eapply postResetCodes_keeps_one; eassumption.
  - pose proof (deleteResetCode_keeps_one db user id email).
    specialize (Hinv email). lia.
  - match goal with
    | Hsame : resetCodes _ = resetCodes _ |- _ => rewrite Hsame
    end. apply Hinv.
Qed.

Lemma reachable_keeps_one (db : Db) :
  Api.Reachable hash db ->
  forall email,
    (List.length (Spec.unusedFor (resetCodes db) email) <= 1)%nat.
Proof.
  induction 1 as [db Hinit|db db' Hreach IH Hstep].
  - intros email. rewrite Hinit. simpl. lia.
  - eapply step_keeps_one; eassumption.
Qed.

(** C8.  A successful issue of a reset code for an email marks every code of
    that email that was unused as used and stores one new unused code, whose
    code differs from that of every other stored document, used or not (the
    loop redraws on a collision with an unused code, and the unique index
    refuses the others); the new code is then the only unused code of the
    email.  In every store the API reaches from one without reset codes, each
    email has at most one unused code, hence at most one unused and unexpired
    code at any time.  The code loop ends as soon as a draw is free; and the
    code is regenerated on collision: when the first [k] draws give codes
    that unused documents hold and the next draw gives a code that no stored
    document has, the request is answered 201 and stores the code of that
    draw. *)
Theorem issuing_retires_older_codes :
  (forall (db : Db) (user : User.t) (body : Admin.ResetCodeBody)
          (random : nat -> Js.Double.t) (fuel : nat) (oid : ObjectId) (now : Date)
          (response : Response) (db' : Db),
     Admin.postResetCodes db user body random fuel oid now
       = Some (response, db') ->
     status response = 201%nat ->
     exists fresh : ResetCode.t,
       resetCodes db'
       = Admin.expireUnused (resetCodes db) (Admin.rc_email body) now
         ++ [fresh]
       /\ ResetCode.email fresh = Admin.rc_email body
       /\ ResetCode.isUsed fresh = false
       /\ ResetCode.expiresAt fresh = now + 86400000
       /\ (forall rc,
             In rc (resetCodes db) ->
             ResetCode.email rc = Admin.rc_email body ->
             ResetCode.isUsed rc = false ->
             exists rc',
               In rc' (resetCodes db')
               /\ ResetCode._id rc' = ResetCode._id rc
               /\ ResetCode.code rc' = ResetCode.code rc
               /\ ResetCode.isUsed rc' = true)
       /\ (forall rc,
             In rc (Admin.expireUnused (resetCodes db)
                      (Admin.rc_email body) now) ->
             ResetCode.code rc <> ResetCode.code fresh)
       /\ Spec.unusedFor (resetCodes db') (Admin.rc_email body) = [fresh])
  /\ (forall db : Db,
        Api.Reachable hash db ->
        forall (email : string) (now : Date),
          (List.length (Spec.unusedFor (resetCodes db) email) <= 1)%nat
          /\ (List.length (Spec.liveFor (resetCodes db) email now) <= 1)%nat)
  /\ (forall (db : Db) (user : User.t) (body : Admin.ResetCodeBody)
             (random : nat -> Js.Double.t) (fuel k : nat) (oid : ObjectId) (now : Date),
        (k < fuel)%nat ->
        Admin.unusedWithCode
          (Admin.expireUnused (resetCodes db) (Admin.rc_email body) now)
          (Admin.generateResetCode (random k)) = false ->
        exists response db',
          Admin.postResetCodes db user body random fuel oid now
          = Some (response, db'))
  /\ (forall (db : Db) (user : User.t) (body : Admin.ResetCodeBody)
             (random : nat -> Js.Double.t) (fuel k : nat) (oid : ObjectId)
             (now : Date),
        Admin.adminAuth user = true ->
        Admin.rc_errors body = [] ->
        Js.find (fun u => (User.email u =? Admin.rc_email body)%string)
                (users db) <> None ->
        Js.find (fun w => (Whitelist.email w =? Admin.rc_email body)%string)
                (whitelist db) <> None ->
        (k < fuel)%nat ->
        (forall j, (j < k)%nat ->
           exists rc,
             In rc (Admin.expireUnused (resetCodes db) (Admin.rc_email body)
                      now)
             /\ ResetCode.isUsed rc = false
             /\ ResetCode.code rc = Admin.generateResetCode (random j)) ->
        (forall rc,
           In rc (Admin.expireUnused (resetCodes db) (Admin.rc_email body)
                    now) ->
           ResetCode.code rc <> Admin.generateResetCode (random k)) ->
        Admin.postResetCodes db user body random fuel oid now
        = Some (mkResponse 201 "Reset code generated successfully",
                withResetCodes db
                  (Admin.expireUnused (resetCodes db) (Admin.rc_email body)
                     now
                   ++ [ResetCode.mk oid (Admin.generateResetCode (random k))
                         (Admin.rc_email body) (User._id user) false None
                         (now + 86400000)]))).
Proof.
  split; [|split; [|split]].
  - intros db user body random fuel oid now response db' Hrun Hok.
    destruct (postResetCodes_created db user body random fuel oid now
                response db' Hrun Hok) as [code [Hstored [Hcodes _]]].
    eexists. split; [exact Hstored|]. simpl.
    split; [reflexivity|]. split; [reflexivity|]. split; [reflexivity|].
    split; [|split].
    + intros rc Hin Hemail Hunused.
      destruct (expireUnused_marks (resetCodes db) (Admin.rc_email body) now
                  rc Hin Hemail Hunused) as [rc' [Hin' Hrest]].
      exists rc'. split; [|exact Hrest].
      rewrite Hstored. apply in_or_app. left. exact Hin'.
    + exact Hcodes.
    + rewrite Hstored, unusedFor_app, expireUnused_none.
      unfold Spec.unusedFor. simpl. rewrite String.eqb_refl. reflexivity.
  - intros db Hreach email now.
    pose proof (reachable_keeps_one db Hreach email) as Hone.
    pose proof (liveFor_le (resetCodes db) email now). lia.
  - intros db user body random fuel k oid now Hk Hfree.
    unfold Admin.postResetCodes.
    destruct (negb (Admin.adminAuth user)); [eexists _, _; reflexivity|].
    destruct (negb (isEmpty (Admin.rc_errors body)));
      [eexists _, _; reflexivity|].
    destruct (Js.find _ (users db)); [|eexists _, _; reflexivity].
    destruct (Js.find _ (whitelist db)); [|eexists _, _; reflexivity].
    destruct (uniqueCode_returns fuel random 0 k _ Hk Hfree) as [code ->].
    destruct (Admin.createResetCode _ _); eexists _, _; reflexivity.
  - intros db user body random fuel k oid now Hadmin Hvalid Huser Hlisted Hk
      Hbusy Hfree.
    unfold Admin.postResetCodes. rewrite Hadmin, Hvalid. cbn [negb isEmpty].
    destruct (Js.find _ (users db)); [|contradiction].
    destruct (Js.find _ (whitelist db)); [|contradiction].
    set (expired := Admin.expireUnused (resetCodes db) (Admin.rc_email body)
                      now) in *.
    rewrite (uniqueCode_redraws fuel random 0 k expired Hk).
    + unfold Admin.createResetCode. cbn [ResetCode.code plus].
      replace (existsb _ expired) with false; [reflexivity|].
      symmetry. apply not_true_is_false. intros Hex.
      apply existsb_exists in Hex. destruct Hex as [rc [Hin Hcode]].
      apply String.eqb_eq in Hcode. exact (Hfree rc Hin Hcode).
    + intros j Hj. cbn [plus].
      destruct (Hbusy j Hj) as [rc [Hin [Hunused Hcode]]].
      unfold Admin.unusedWithCode, Js.find.
      destruct (List.find _ expired) eqn:E; [reflexivity|].
      apply (find_none _ _ E) in Hin.
      rewrite Hcode, String.eqb_refl, Hunused in Hin. discriminate.
    + cbn [plus]. unfold Admin.unusedWithCode, Js.find.
      destruct (List.find _ expired) as [rc|] eqn:E; [|reflexivity].
      apply find_some in E. destruct E as [Hin Hcode].
      apply andb_true_iff in Hcode. destruct Hcode as [Hcode _].
      apply String.eqb_eq in Hcode. contradiction (Hfree rc Hin Hcode).
Qed.

End ResetCodeFacts.

(** The theorem on two issues in a row for alice, from a store without
    codes: the first stores the code drawn from 1/4, the second retires it
    and stores the code drawn from 1/2.  And on a collision: another email
    holds the unused code of the draw 1/4, so the loop draws again and the
    code of the draw 1/2 is stored. *)
Lemma issuing_retires_older_codes_witness :
  let entry := Whitelist.mk 3 "alice@example.com" 1 true (Some 7%nat) in
  let db := mkDb [Scenario.root; Scenario.alice] [entry] [] [] [] [] in
  let body := Admin.mkResetCodeBody [] "alice@example.com" in
  let held := ResetCode.mk 59 "325000" "bob@example.com" 1 false None 90000 in
  let busy := withResetCodes db [held] in
  let draws :=
    fun i : nat => match i with
                   | O => Js.Double.quarter
                   | _ => Js.Double.half
                   end in
  (exists (r1 r2 : Response) (db1 db2 : Db) (fresh : ResetCode.t),
     Admin.postResetCodes db Scenario.root body (fun _ => Js.Double.quarter)
       1 60 1000
       = Some (r1, db1)
     /\ Admin.postResetCodes db1 Scenario.root body (fun _ => Js.Double.half)
          1 61 5000
        = Some (r2, db2)
     /\ Spec.unusedFor (resetCodes db2) "alice@example.com" = [fresh]
     /\ (List.length
           (Spec.liveFor (resetCodes db1) "alice@example.com" 2000%Z)
         <= 1)%nat)
  /\ Admin.postResetCodes busy Scenario.root body draws 2 60 1000
     = Some (mkResponse 201 "Reset code generated successfully",
             withResetCodes db
               [held;
                ResetCode.mk 60 "550000" "alice@example.com" 1 false None
                  86401000]).
Proof.
  intros entry db body held busy draws.
  destruct (issuing_retires_older_codes (fun p => p))
    as [Hissue [Hreach [Hreturns Hredraws]]].
  split.
  - destruct (Hreturns db Scenario.root body (fun _ => Js.Double.quarter)
                1%nat O 60%nat 1000) as [r1 [db1 Hrun1]];
      [lia|reflexivity|].
    pose proof Hrun1 as Hvalue. vm_compute in Hvalue.
    injection Hvalue as Hr1 Hdb1.
    destruct (Hreturns db1 Scenario.root body (fun _ => Js.Double.half)
                1%nat O 61%nat 5000) as [r2 [db2 Hrun2]];
      [lia|rewrite <- Hdb1; reflexivity|].
    assert (Hok : status r2 = 201%nat).
    { pose proof Hrun2 as Hvalue. rewrite <- Hdb1 in Hvalue.
      vm_compute in Hvalue. injection Hvalue as <- _. reflexivity. }
    destruct (Hissue db1 Scenario.root body (fun _ => Js.Double.half) 1%nat
                61%nat 5000 r2 db2 Hrun2 Hok)
      as [fresh [_ [_ [_ [_ [_ [_ Hone]]]]]]].
    exists r1, r2, db1, db2, fresh.
    split; [exact Hrun1|]. split; [exact Hrun2|]. split; [exact Hone|].
    apply (Hreach db1).
    apply (Api.reach_step _ db db1); [apply Api.reach_init; reflexivity|].
    exact (Api.step_postResetCodes _ db Scenario.root body
             (fun _ => Js.Double.quarter) 1%nat 60%nat 1000 r1 db1 Hrun1).
  - rewrite (Hredraws busy Scenario.root body draws 2%nat 1%nat 60%nat 1000).
    + reflexivity.
    + reflexivity.
    + reflexivity.
    + discriminate.
    + discriminate.
    + lia.
    + intros j Hj. assert (j = O) by lia. subst j.
      exists held. split; [left; reflexivity|]. split; reflexivity.
    + intros rc [<-|[]]. vm_compute. discriminate.
Defined.

(** The sum and the product of [generateResetCode] are those of doubles: at
    this draw the exact value lies below 100015 and the computed one is
    100015. *)
Example reset_code_of_a_rounded_sum :
  Admin.generateResetCode Js.Double.edge = "100015".
Proof. vm_compute. reflexivity. Qed.

(* ===================================================================== *)
(** ** Beyond the claims: the task routes *)
(* ===================================================================== *)






Section TaskRouteFacts.
Context `{LocalTime}.



(** X2.  [PUT /tasks/:id] with a [completed] value in the body sets the flag
    of every subtask of the task to that value and leaves the other subtasks
    as they are; on success every stored document of the task has the value
    too.  The cascade is written before the task is saved: when the save is
    refused (500) the subtasks are changed all the same and the tasks are
    not. *)
Theorem task_completion_cascades (db : Db) (user : User.t) (id : ObjectId)
    (updates : Tasks.UpdateBody) (c : bool) :
  Tasks.u_completed updates = Some c ->
  status (fst (Tasks.put db user id updates)) = 200%nat
  \/ status (fst (Tasks.put db user id updates)) = 500%nat ->
  map Subtask._id (subtasks (snd (Tasks.put db user id updates)))
  = map Subtask._id (subtasks db)
  /\ (forall s, In s (subtasks (snd (Tasks.put db user id updates))) ->
                Subtask.taskId s = id -> Subtask.completed s = c)
  /\ (forall s, Subtask.taskId s <> id ->
                (In s (subtasks (snd (Tasks.put db user id updates)))
                 <-> In s (subtasks db)))
  /\ (status (fst (Tasks.put db user id updates)) = 200%nat ->
      forall t, In t (tasks (snd (Tasks.put db user id updates))) ->
                Task._id t = id -> Task.completed t = c)
  /\ (status (fst (Tasks.put db user id updates)) = 500%nat ->
      tasks (snd (Tasks.put db user id updates)) = tasks db).
Proof.
  intros Hc. unfold Tasks.put. rewrite Hc.
  destruct (negb (isEmpty (Tasks.u_errors updates)));
    [intros [?|?]; discriminate|].
  destruct (Js.find _ (tasks db)) as [task|] eqn:Efind;
    [|intros [?|?]; discriminate].
  destruct (_ && Tasks.endBeforeStart _ _); [intros [?|?]; discriminate|].
  assert (Hcascade :
            map Subtask._id (Tasks.cascadeCompleted (subtasks db) id c)
            = map Subtask._id (subtasks db)
            /\ (forall s, In s (Tasks.cascadeCompleted (subtasks db) id c) ->
                          Subtask.taskId s = id -> Subtask.completed s = c)
            /\ (forall s, Subtask.taskId s <> id ->
                          (In s (Tasks.cascadeCompleted (subtasks db) id c)
                           <-> In s (subtasks db)))).
  { unfold Tasks.cascadeCompleted. split; [|split].
    - rewrite map_map. apply map_ext. intros s.
      destruct (Subtask.taskId s =? id)%nat; reflexivity.
    - intros s Hs Hid. apply in_map_iff in Hs. destruct Hs as [s0 [<- _]].
      destruct (Subtask.taskId s0 =? id)%nat eqn:E; [reflexivity|].
      apply Nat.eqb_neq in E. contradiction.
    - intros s Hne. rewrite in_map_iff. split.
      + intros [s0 [Heq Hin]].
        destruct (Subtask.taskId s0 =? id)%nat eqn:E.
        * apply Nat.eqb_eq in E. subst s. simpl in Hne. contradiction.
        * subst s. exact Hin.
      + intros Hin. exists s. split; [|exact Hin].
        apply Nat.eqb_neq in Hne. rewrite Hne. reflexivity. }
  destruct Hcascade as [Hids [Hset Hkeep]].
  match goal with
  | |- context [if ?valid then (_, _) else (_, _)] => destruct valid
  end; intros _; cbn [fst snd status subtasks tasks withTasks withSubtasks].
  - split; [exact Hids|]. split; [exact Hset|]. split; [exact Hkeep|].
    split; [|discriminate].
    intros _ t Ht Hid. unfold Tasks.saveTask in Ht.
    apply in_map_iff in Ht. destruct Ht as [t0 [Heq _]].
    destruct (Task._id t0 =? Task._id (Tasks.assign task updates))%nat eqn:E.
    + subst t. unfold Tasks.assign. rewrite Hc. reflexivity.
    + apply Nat.eqb_neq in E. subst t0. exfalso. apply E.
      apply find_In in Efind. destruct Efind as [_ Hp].
      apply andb_true_iff in Hp. destruct Hp as [Hp _].
      apply Nat.eqb_eq in Hp. simpl. congruence.
  - split; [exact Hids|]. split; [exact Hset|]. split; [exact Hkeep|].
    split; [discriminate|reflexivity].
Qed.

End TaskRouteFacts.


(** Past the safe integers the sum is rounded: next to a task of order 2^53
    the new task gets the order 2^53 again. *)
Example order_past_the_safe_integers :
  Tasks.nextOrder [Scenario.static 1 (2 ^ 53) 10] 7 None None = 2 ^ 53.
Proof. vm_compute. reflexivity. Qed.

(** X2 on a task with one subtask: a plain completion (200), and a completion
    sent with an end before the start on the same day, which the guard lets
    through and the schema refuses (500) after the cascade. *)
Lemma task_completion_cascades_witness :
  let task :=
    Task.mk 1 "task" false 1 (Some (Scenario.day 5)) (Some (Scenario.day 6))
      7 None [11%nat] 100 in
  let db := mkDb [] [] [] [task] [Subtask.mk 11 "s" false "" 1] [] in
  let plain :=
    Tasks.mkUpdateBody [] None (Some true) None None None None None None in
  let refused :=
    Tasks.mkUpdateBody [] None (Some true) (Some (Scenario.day 5 + 36000000))
      (Some (Scenario.day 5 + 18000000)) None None None None in
  (status (fst (Tasks.put db Scenario.alice 1 plain)) = 200%nat
   /\ forall s, In s (subtasks (snd (Tasks.put db Scenario.alice 1 plain))) ->
                Subtask.taskId s = 1%nat -> Subtask.completed s = true)
  /\ (status (fst (Tasks.put db Scenario.alice 1 refused)) = 500%nat
      /\ (forall s,
            In s (subtasks (snd (Tasks.put db Scenario.alice 1 refused))) ->
            Subtask.taskId s = 1%nat -> Subtask.completed s = true)
      /\ tasks (snd (Tasks.put db Scenario.alice 1 refused)) = tasks db).
Proof.
  intros task db plain refused. split.
  - split; [reflexivity|].
    apply (task_completion_cascades db Scenario.alice 1 plain true eq_refl).
    left. reflexivity.
  - split; [reflexivity|].
    assert (Hrefused : status (fst (Tasks.put db Scenario.alice 1 refused))
                       = 500%nat) by reflexivity.
    destruct (task_completion_cascades db Scenario.alice 1 refused true
                eq_refl (or_intror Hrefused)) as [_ [Hset [_ [_ Htasks]]]].
    split; [exact Hset|]. apply Htasks. exact Hrefused.
Defined.

(** *** What a reorder can write *)

Lemma setOrder_setOrder (t : Task.t) (a b : Z) :
  Task.setOrder (Task.setOrder t a) b = Task.setOrder t b.
Proof. reflexivity. Qed.


(** Every document the handler saves is a member of the group with another
    order value. *)
Lemma reorderGroup_saved_from (group : list Task.t) (id : ObjectId)
    (direction : string) (d : Task.t) :
  In d (snd (Tasks.reorderGroup group id direction)) ->
  exists g o, In g group /\ d = Task.setOrder g o.
Proof.
  unfold Tasks.reorderGroup.
  destruct (List.length group <=? 1)%nat; [intros []|].
  assert (Hrepaired :
            forall x, In x (fst (Tasks.repairOrders group)) ->
                      exists g o, In g group /\ x = Task.setOrder g o).
  { unfold Tasks.repairOrders.
    destruct (Tasks.hasProperOrders group); simpl.
    - intros x Hx. exists x, (Task.order x). split; [exact Hx|].
      destruct x; reflexivity.
    - intros x Hx. destruct (renumbered_from _ _ _ Hx) as [g [o [Hg Heq]]].
      exists g, o. split; [apply (sort_In Tasks.cmpRepair), Hg|exact Heq]. }
  assert (Hsaved :
            forall x, In x (snd (Tasks.repairOrders group)) ->
                      In x (fst (Tasks.repairOrders group))).
  { unfold Tasks.repairOrders.
    destruct (Tasks.hasProperOrders group); simpl; [intros x []|auto]. }
  destruct (Tasks.repairOrders group) as [repaired renumbered].
  simpl in Hrepaired, Hsaved.
  destruct (Tasks.saveEach renumbered) as [saved ok] eqn:Esave.
  assert (Hfirst : forall x, In x saved ->
                     exists g o, In g group /\ x = Task.setOrder g o).
  { intros x Hx. apply Hrepaired, Hsaved, saveEach_saved.
    rewrite Esave. exact Hx. }
  destruct ok; cbn [negb]; [|apply Hfirst].
  destruct (Js.findIndex _ _) as [currentIndex|]; [|apply Hfirst].
  destruct (Tasks.targetIndex _ _ _) as [targetIndex|]; [|apply Hfirst].
  destruct (nth_error _ currentIndex) as [currentTask|] eqn:Ecur;
    [|apply Hfirst].
  destruct (nth_error _ targetIndex) as [targetTask|] eqn:Etgt;
    [|apply Hfirst].
  assert (Hswapped :
            In d (saved ++ [Task.setOrder currentTask (Task.order targetTask);
                            Task.setOrder targetTask
                              (Task.order currentTask)]) ->
            exists g o, In g group /\ d = Task.setOrder g o);
    [|destruct (forallb _ _); cbn [snd]; [exact Hswapped|];
      intros Hd; apply Hswapped; apply in_app_or in Hd; apply in_or_app;
      destruct Hd as [Hd|Hd]; [left; exact Hd|right];
      apply filter_In in Hd; apply Hd].
  intros Hd. apply in_app_or in Hd.
  destruct Hd as [Hd|[<-|[<-|[]]]]; [apply Hfirst, Hd| |].
  - apply nth_error_In, (sort_In Tasks.cmpOrder), Hrepaired in Ecur.
    destruct Ecur as [g [o [Hg ->]]]. exists g. eexists.
    split; [exact Hg|apply setOrder_setOrder].
  - apply nth_error_In, (sort_In Tasks.cmpOrder), Hrepaired in Etgt.
    destruct Etgt as [g [o [Hg ->]]]. exists g. eexists.
    split; [exact Hg|apply setOrder_setOrder].
Qed.

Lemma save_order_only (coll : list Task.t) (owner : ObjectId) (d : Task.t) :
  NoDup (map Task._id coll) ->
  (exists g o, In g coll /\ Task.userId g = owner /\ d = Task.setOrder g o) ->
  forall l l',
    incl l coll ->
    Forall2 (fun x y => Spec.sameButOrder x y
                        /\ (Task.userId x <> owner -> y = x)) l l' ->
    Forall2 (fun x y => Spec.sameButOrder x y
                        /\ (Task.userId x <> owner -> y = x))
      l (Tasks.saveTask l' d).
Proof.
  intros Hnd [g [o [Hg [Howner ->]]]] l l' Hincl Hrel.
  induction Hrel as [|x y l l' [[oy ->] Hother] Hrel IH]; simpl;
    constructor.
  - destruct (Task._id x =? Task._id g)%nat eqn:E.
    + apply Nat.eqb_eq in E.
      assert (Hx : x = g).
      { apply (NoDup_map_inj Task._id coll); auto. apply Hincl. simpl. auto. }
      subst x. split; [exists o; reflexivity|]. intros Hne. contradiction.
    + split; [exists oy; reflexivity|exact Hother].
  - apply IH. intros z Hz. apply Hincl. simpl. auto.
Qed.

Lemma saves_order_only (coll : list Task.t) (owner : ObjectId)
    (saved : list Task.t) :
  NoDup (map Task._id coll) ->
  (forall d, In d saved ->
     exists g o, In g coll /\ Task.userId g = owner
                 /\ d = Task.setOrder g o) ->
  forall current,
    Forall2 (fun x y => Spec.sameButOrder x y
                        /\ (Task.userId x <> owner -> y = x)) coll current ->
    Forall2 (fun x y => Spec.sameButOrder x y
                        /\ (Task.userId x <> owner -> y = x))
      coll (fold_left Tasks.saveTask saved current).
Proof.
  intros Hnd. induction saved as [|d saved IH]; intros Hfrom current Hrel.
  - exact Hrel.
  - simpl. apply IH; [intros d' Hd'; apply Hfrom; simpl; auto|].
    apply (save_order_only coll owner d Hnd); [|apply incl_refl|exact Hrel].
    apply Hfrom. simpl. auto.
Qed.

Section ReorderWrites.
Context `{LocalTime}.

Lemma siblingGroup_owner (coll : list Task.t) (userId : ObjectId)
    (task t : Task.t) :
  In t (Tasks.siblingGroup coll userId task) -> Task.userId t = userId.
Proof.
  unfold Tasks.siblingGroup, TaskModel.findTasksForDate.
  destruct (Task.startDate task) as [s|]; [destruct (Task.endDate task)|];
    rewrite sort_In, filter_In; intros [_ Hp];
    unfold TaskModel.activeOn, TaskModel.isStaticOf in Hp;
    repeat (apply andb_true_iff in Hp; destruct Hp as [Hp _]);
    apply Nat.eqb_eq, Hp.
Qed.

(** X3.  Whatever its response, [PUT /tasks/:id/order] writes nothing but
    order values of the caller's own tasks: every stored task is afterwards
    the task it was but for its order, a task of another user is exactly as
    it was, no task is added or removed, and no other collection changes. *)
Theorem reorder_writes_only_own_orders (db : Db) (user : User.t)
    (id : ObjectId) (direction : string) :
  NoDup (map Task._id (tasks db)) ->
  Forall2 (fun x y => Spec.sameButOrder x y
                      /\ (Task.userId x <> User._id user -> y = x))
    (tasks db) (tasks (snd (Tasks.putOrder db user id direction)))
  /\ snd (Tasks.putOrder db user id direction)
     = withTasks db (tasks (snd (Tasks.putOrder db user id direction))).
Proof.
  intros Hnd.
  assert (Hsame : Forall2 (fun x y => Spec.sameButOrder x y
                                      /\ (Task.userId x <> User._id user
                                          -> y = x))
                    (tasks db) (tasks db)).
  { clear Hnd. induction (tasks db) as [|t l IH]; constructor; [|exact IH].
    split; [|reflexivity]. exists (Task.order t). destruct t; reflexivity. }
  unfold Tasks.putOrder.
  destruct (negb (isEmpty (Tasks.directionErrors direction)));
    [split; [exact Hsame|symmetry; apply withTasks_same]|].
  destruct (Js.find _ (tasks db)) as [task|];
    [|split; [exact Hsame|symmetry; apply withTasks_same]].
  pose proof (reorderGroup_saved_from
                (Tasks.siblingGroup (tasks db) (User._id user) task) id
                direction) as Hfrom.
  destruct (Tasks.reorderGroup _ id direction) as [response saved].
  simpl in Hfrom. cbn [snd tasks withTasks]. split; [|reflexivity].
  apply saves_order_only; [exact Hnd| |exact Hsame].
  intros d Hd. destruct (Hfrom d Hd) as [g [o [Hg Heq]]].
  exists g, o. split; [eapply siblingGroup_In, Hg|].
  split; [eapply siblingGroup_owner, Hg|exact Heq].
Qed.

End ReorderWrites.

(** X3 on the three overlapping tasks of alice and a task of another user
    with the same dates: moving Y up renumbers alice's tasks and leaves the
    other user's task alone. *)
Lemma reorder_writes_only_own_orders_witness :
  let foreign :=
    Task.mk 4 "other" false 2 (Some (Scenario.day 5)) (Some (Scenario.day 5))
      8 None [] 400 in
  let db := withTasks emptyDb (tasks Scenario.overlapDb ++ [foreign]) in
  Forall2 (fun x y => Spec.sameButOrder x y
                      /\ (Task.userId x <> User._id Scenario.alice -> y = x))
    (tasks db) (tasks (snd (Tasks.putOrder db Scenario.alice 2 "up")))
  /\ In foreign (tasks (snd (Tasks.putOrder db Scenario.alice 2 "up"))).
Proof.
  intros foreign db.
  destruct (reorder_writes_only_own_orders db Scenario.alice 2 "up")
    as [Hrel _].
  - simpl. concrete_NoDup.
  - split; [exact Hrel|]. vm_compute. auto 6.
Defined.

(* ===================================================================== *)
(** ** Beyond the claims: subtasks and their instance entries *)
(* ===================================================================== *)

(** Saving loaded instances one by one: each stored instance becomes the
    saved document with its id, if there is one. *)
Lemma fold_saveInstance (docs coll : list TaskInstance.t) :
  NoDup (map TaskInstance._id docs) ->
  fold_left TaskInstances.saveInstance docs coll
  = map (fun x =>
           match Js.find (fun d => (TaskInstance._id d
                                    =? TaskInstance._id x)%nat) docs with
           | Some d => d
           | None => x
           end) coll.
Proof.
  revert coll. induction docs as [|d docs IH]; intros coll Hnd; simpl.
  - symmetry. apply map_id.
  - apply NoDup_cons_iff in Hnd. destruct Hnd as [Hd Hrest].
    rewrite IH by exact Hrest. unfold TaskInstances.saveInstance at 1.
    rewrite map_map. apply map_ext. intros x.
    rewrite (Nat.eqb_sym (TaskInstance._id d)).
    destruct (TaskInstance._id x =? TaskInstance._id d)%nat eqn:E;
      [|reflexivity].
    destruct (Js.find _ docs) as [d'|] eqn:Efind; [|reflexivity].
    exfalso. apply Hd. apply find_In in Efind.
    destruct Efind as [Hin Hid]. apply Nat.eqb_eq in Hid.
    rewrite <- Hid. apply in_map, Hin.
Qed.

Lemma saveInstance_each (g : TaskInstance.t -> TaskInstance.t)
    (q : TaskInstance.t -> bool) (coll : list TaskInstance.t) :
  NoDup (map TaskInstance._id coll) ->
  (forall x, TaskInstance._id (g x) = TaskInstance._id x) ->
  fold_left TaskInstances.saveInstance (map g (filter q coll)) coll
  = map (fun x => if q x then g x else x) coll.
Proof.
  intros Hnd Hg. rewrite fold_saveInstance.
  - apply map_ext_in. intros x Hx.
    destruct (Js.find _ (map g (filter q coll))) as [d|] eqn:Efind.
    + apply find_In in Efind. destruct Efind as [Hd Hid].
      apply Nat.eqb_eq in Hid. apply in_map_iff in Hd.
      destruct Hd as [y [<- Hy]]. apply filter_In in Hy.
      destruct Hy as [Hy Hq]. rewrite Hg in Hid.
      rewrite <- (NoDup_map_inj TaskInstance._id coll y x Hnd Hy Hx Hid).
      rewrite Hq. reflexivity.
    + destruct (q x) eqn:Hq; [|reflexivity]. exfalso.
      assert (Hin : In (g x) (map g (filter q coll)))
        by (apply in_map, filter_In; auto).
      unfold Js.find in Efind. apply (find_none _ _ Efind) in Hin.
      rewrite Hg, Nat.eqb_refl in Hin. discriminate.
  - rewrite map_map.
    rewrite (map_ext _ TaskInstance._id) by exact Hg.
    apply NoDup_map_filter, Hnd.
Qed.


(** X4.  [POST /tasks/:taskId/subtasks] stores the new subtask, incomplete,
    appends its id to the task's list, and gives every stored instance of
    the task and the caller one more entry, incomplete, after the entries it
    had; the other instances are not touched. *)
Theorem new_subtask_reaches_every_instance (db : Db) (user : User.t)
    (taskId : ObjectId) (body : TaskSubtasks.Body) (oid : ObjectId) :
  NoDup (map TaskInstance._id (taskInstances db)) ->
  status (fst (TaskSubtasks.post db user taskId body oid)) = 201%nat ->
  exists (task : Task.t) (subtask : Subtask.t),
    Js.find (fun t => (Task._id t =? taskId)%nat
                      && (Task.userId t =? User._id user)%nat) (tasks db)
      = Some task
    /\ Subtask._id subtask = oid /\ Subtask.taskId subtask = taskId
    /\ Subtask.completed subtask = false
    /\ Subtask.title subtask = TaskSubtasks.title body
    /\ subtasks (snd (TaskSubtasks.post db user taskId body oid))
       = subtasks db ++ [subtask]
    /\ tasks (snd (TaskSubtasks.post db user taskId body oid))
       = Tasks.saveTask (tasks db)
           (TaskSubtasks.setSubtasks task (Task.subtasks task ++ [oid]))
    /\ Forall2
         (fun x y =>
            if (TaskInstance.taskId x =? taskId)%nat
               && (TaskInstance.userId x =? User._id user)%nat
            then y = TaskInstances.setSubtaskInstances x
                       (TaskInstance.subtaskInstances x
                        ++ [SubtaskInstance.mk oid false])
            else y = x)
         (taskInstances db)
         (taskInstances (snd (TaskSubtasks.post db user taskId body oid))).
Proof.
  intros Hnd. unfold TaskSubtasks.post.
  destruct (negb (isEmpty (TaskSubtasks.errors body))); [discriminate|].
  destruct (Js.find _ (tasks db)) as [task|]; [|discriminate].
  unfold Tasks.save. destruct (TaskModel.validates _); [|discriminate].
  intros _.
  exists task,
    (Subtask.mk oid (TaskSubtasks.title body) false
       (match TaskSubtasks.notes body with
        | Some n => if (n =? "")%string then "" else n
        | None => ""
        end) taskId).
  split; [reflexivity|].
  cbn [snd subtasks tasks taskInstances withSubtasks withTasks
       withTaskInstances Subtask._id Subtask.taskId Subtask.completed
       Subtask.title].
  repeat (split; [reflexivity|]).
  unfold TaskSubtasks.instancesOf.
  rewrite saveInstance_each; [|exact Hnd|reflexivity].
  clear Hnd. induction (taskInstances db) as [|x l IH]; simpl; constructor.
  - match goal with
    | |- context [if ?b then _ else _] => destruct b
    end; reflexivity.
  - exact IH.
Qed.


(** *** Creating a subtask and deleting it again *)

Lemma find_snoc_fresh {A : Type} (p : A -> bool) (l : list A) (x : A) :
  (forall y, In y l -> p y = false) -> p x = true ->
  Js.find p (l ++ [x]) = Some x.
Proof.
  unfold Js.find. intros Hl Hx. induction l as [|y l IH]; simpl.
  - rewrite Hx. reflexivity.
  - rewrite (Hl y) by (simpl; auto). apply IH.
    intros z Hz. apply Hl. simpl. auto.
Qed.









(** X4, X5 and X6 on a task of alice with the subtask 11 and one stored
    instance holding a completed entry for it. *)
Lemma new_subtask_reaches_every_instance_witness :
  let task := Task.mk 1 "task" false 1 (Some (Scenario.day 5))
                (Some (Scenario.day 6)) 7 None [11%nat] 100 in
  let stored := TaskInstance.mk 50 1 7 (Scenario.day 5) true
                  [SubtaskInstance.mk 11 true] in
  let db := mkDb [] [] [] [task] [Subtask.mk 11 "A" true "" 1] [stored] in
  let body := TaskSubtasks.mkBody [] "B" None in
  map TaskInstance.subtaskInstances
    (taskInstances (snd (TaskSubtasks.post db Scenario.alice 1 body 12)))
  = [[SubtaskInstance.mk 11 true; SubtaskInstance.mk 12 false]].
Proof.
  intros task stored db body.
  destruct (new_subtask_reaches_every_instance db Scenario.alice 1 body 12)
    as [t [s [_ [_ [_ [_ [_ [_ [_ Hall]]]]]]]]].
  - simpl. concrete_NoDup.
  - reflexivity.
  - clear Hall. reflexivity.
Defined.



(** *** A subtask's flag and its parent task *)






(** The string "false" passes the validator: the subtask is stored open, and
    the task is completed all the same. *)
Example string_false_completes_the_task :
  let task := Task.mk 1 "task" false 1 None None 7 None [11; 12]%nat 100 in
  let db := mkDb [] [] [] [task]
              [Subtask.mk 11 "A" true "" 1; Subtask.mk 12 "B" false "" 1]
              [] in
  let updates :=
    Subtasks.mkUpdateBody [] None (Some Js.StringFalse) None None in
  Subtasks.put db Scenario.alice 12 updates
  = (mkResponse 200 "Subtask updated successfully",
     mkDb [] [] []
       [Task.mk 1 "task" true 1 None None 7 None [11; 12]%nat 100]
       [Subtask.mk 11 "A" true "" 1; Subtask.mk 12 "B" false "" 1] []).
Proof. reflexivity. Qed.

(* ===================================================================== *)
(** ** Beyond the claims: reading and toggling instances *)
(* ===================================================================== *)

Lemma filter_none {A : Type} (p : A -> bool) (l : list A) :
  (forall x, In x l -> p x = false) -> filter p l = [].
Proof.
  induction l as [|x l IH]; simpl; intros Hp; [reflexivity|].
  rewrite (Hp x) by auto. apply IH. auto.
Qed.

(** An instance in sync has nothing to gain and nothing to lose. *)
Lemma synced_settled (subs : list Subtask.t) (before : option TaskInstance.t)
    (instance : TaskInstance.t) :
  Spec.synced subs before instance ->
  TaskInstances.missingSubtaskInstances subs
    (TaskInstance.subtaskInstances instance) = []
  /\ TaskInstances.keepCurrent subs (TaskInstance.subtaskInstances instance)
     = TaskInstance.subtaskInstances instance.
Proof.
  intros Hsync.
  assert (Hhas : forall s, In s subs ->
            In (Subtask._id s)
               (map SubtaskInstance.subtaskId
                    (TaskInstance.subtaskInstances instance))).
  { intros s Hs. destruct before as [old|]; simpl in Hsync.
    - destruct Hsync as [_ [_ [Hadd [_ [Hkeep _]]]]].
      destruct (in_dec Nat.eq_dec (Subtask._id s)
                  (map SubtaskInstance.subtaskId
                       (TaskInstance.subtaskInstances old))) as [Hold|Hnew].
      + apply in_map_iff in Hold. destruct Hold as [si [Hid Hsi]].
        rewrite <- Hid. apply in_map, Hkeep; [exact Hsi|].
        rewrite Hid. apply in_map, Hs.
      + exact (in_map SubtaskInstance.subtaskId _ _ (Hadd s Hs Hnew)).
    - destruct Hsync as [_ ->]. rewrite map_map. simpl.
      apply (in_map Subtask._id), Hs. }
  assert (Hcur : forall si,
            In si (TaskInstance.subtaskInstances instance) ->
            In (SubtaskInstance.subtaskId si) (map Subtask._id subs)).
  { destruct before as [old|]; simpl in Hsync.
    - apply Hsync.
    - destruct Hsync as [_ ->]. intros si Hsi. apply in_map_iff in Hsi.
      destruct Hsi as [s [<- Hs]]. simpl. apply in_map, Hs. }
  split.
  - unfold TaskInstances.missingSubtaskInstances.
    rewrite filter_none; [reflexivity|].
    intros s Hs. apply negb_false_iff, hasId_In, Hhas, Hs.
  - unfold TaskInstances.keepCurrent. apply forallb_filter_id.
    apply forallb_forall. intros si Hsi. apply hasId_In, Hcur, Hsi.
Qed.

Section ReadFacts.
Context `{LocalTime}.

Lemma getOrCreate_settled (db : Db) (task : Task.t) (userId : ObjectId)
    (date : Date) (oid : ObjectId) (instance : TaskInstance.t) :
  Js.find (fun t => (Task._id t =? Task._id task)%nat) (tasks db)
    = Some task ->
  TaskInstances.findInstance (taskInstances db) (Task._id task) userId
    (startOfDay date) = Some instance ->
  TaskInstances.missingSubtaskInstances
    (TaskInstances.populateSubtasks (subtasks db) task)
    (TaskInstance.subtaskInstances instance) = [] ->
  TaskInstances.keepCurrent
    (TaskInstances.populateSubtasks (subtasks db) task)
    (TaskInstance.subtaskInstances instance)
  = TaskInstance.subtaskInstances instance ->
  TaskInstances.getOrCreateTaskInstance db (Task._id task) userId date oid
  = Some (instance, db).
Proof.
  intros Hfind Hfound Hmissing Hkeep.
  unfold TaskInstances.getOrCreateTaskInstance.
  rewrite Hfind, Hfound, Hmissing, app_nil_r, Hkeep, Nat.eqb_refl.
  simpl. rewrite setSubtaskInstances_same. reflexivity.
Qed.

Lemma collectInstances_settled (userId : ObjectId) (targetDate : Date)
    (oid : nat -> ObjectId) (db : Db) (activeTasks : list Task.t) :
  (forall task, In task activeTasks ->
     Js.find (fun t => (Task._id t =? Task._id task)%nat) (tasks db)
       = Some task
     /\ exists instance,
          TaskInstances.findInstance (taskInstances db) (Task._id task)
            userId (startOfDay targetDate) = Some instance
          /\ TaskInstances.missingSubtaskInstances
               (TaskInstances.populateSubtasks (subtasks db) task)
               (TaskInstance.subtaskInstances instance) = []
          /\ TaskInstances.keepCurrent
               (TaskInstances.populateSubtasks (subtasks db) task)
               (TaskInstance.subtaskInstances instance)
             = TaskInstance.subtaskInstances instance) ->
  forall i,
    snd (TaskInstances.collectInstances db userId targetDate oid i
           activeTasks) = db.
Proof.
  induction activeTasks as [|task rest IH]; intros Hall i; simpl.
  - reflexivity.
  - destruct (Hall task (or_introl eq_refl))
      as [Hfind [instance [Hfound [Hmissing Hkeep]]]].
    rewrite (getOrCreate_settled db task userId targetDate (oid i) instance
               Hfind Hfound Hmissing Hkeep).
    specialize (IH (fun t Ht => Hall t (or_intror Ht)) (S i)).
    destruct (TaskInstances.collectInstances db userId targetDate oid (S i)
                rest) as [more db'].
    exact IH.
Qed.

(** X8.  Reading a day twice: the second [GET /task-instances/date/:date]
    for the same user and day finds every instance in sync and leaves the
    store exactly as the first read left it, whatever ids it is offered for
    new documents. *)
Theorem second_read_changes_nothing (db : Db) (user : User.t) (date : string)
    (oid oid' : nat -> ObjectId) :
  NoDup (map Task._id (tasks db)) ->
  NoDup (map TaskInstance._id (taskInstances db)) ->
  (forall j, ~ In (oid j) (map TaskInstance._id (taskInstances db))) ->
  (forall j k, oid j = oid k -> j = k) ->
  snd (TaskInstances.getDate
         (snd (TaskInstances.getDate db user date oid)) user date oid')
  = snd (TaskInstances.getDate db user date oid).
Proof.
  intros Htasks Hinsts Hfresh Hinj. unfold TaskInstances.getDate.
  destruct (TaskInstances.parseDateParam date) as [[[year month] day]|];
    [|reflexivity].
  set (targetDate := localDate year (month - 1) day).
  set (activeTasks := TaskModel.findTasksForDate (tasks db) (User._id user)
                        targetDate).
  assert (Hsub : forall t, In t activeTasks -> In t (tasks db)).
  { intros t Ht. unfold activeTasks, TaskModel.findTasksForDate in Ht.
    apply sort_In, filter_In in Ht. apply Ht. }
  destruct (collectInstances_spec (User._id user) targetDate oid activeTasks
              Hinj) with (db := db) (i := O)
    as [instances [db1 [Hloop [Ht1 [Hs1 [_ Heach]]]]]].
  { apply sort_NoDup_map, NoDup_map_filter, Htasks. }
  { exact Htasks. }
  { exact Hinsts. }
  { intros j _. apply Hfresh. }
  { exact Hsub. }
  rewrite Hloop. cbn [snd]. rewrite Ht1. fold activeTasks.
  pose proof (collectInstances_settled (User._id user) targetDate oid' db1
                activeTasks) as Hsettled.
  destruct (TaskInstances.collectInstances db1 (User._id user) targetDate
              oid' 0 activeTasks) as [again db2] eqn:Eagain.
  cbn [snd]. rewrite <- (Hsettled) with (i := O); [rewrite Eagain; auto|].
  intros task Htask. split.
  - rewrite Ht1. apply find_by_id; [exact Htasks|apply Hsub, Htask].
  - destruct (Heach task Htask) as [instance [_ [Hfound Hsynced]]].
    exists instance. split; [exact Hfound|].
    rewrite Hs1. eapply synced_settled, Hsynced.
Qed.

End ReadFacts.

(** X8 on the store of the sync scenario: the instance of the first read is
    not rewritten by the second. *)
Lemma second_read_changes_nothing_witness :
  let task :=
    Task.mk 1 "task" false 1 (Some (Scenario.day 19875))
      (Some (Scenario.day 19875)) 7 None [11; 12]%nat 100 in
  let stored :=
    TaskInstance.mk 50 1 7 (Scenario.day 19875) false
      [SubtaskInstance.mk 11 true; SubtaskInstance.mk 13 false] in
  let db :=
    mkDb [] [] [] [task]
      [Subtask.mk 11 "A" false "" 1; Subtask.mk 12 "B" false "" 1]
      [stored] in
  let oid := fun n : nat => (n + 100)%nat in
  let once := snd (TaskInstances.getDate db Scenario.alice "2024-06-01" oid) in
  snd (TaskInstances.getDate once Scenario.alice "2024-06-01" oid) = once
  /\ once <> db.
Proof.
  intros task stored db oid once. split.
  - apply (second_read_changes_nothing db Scenario.alice "2024-06-01" oid
             oid).
    + simpl. concrete_NoDup.
    + simpl. concrete_NoDup.
    + intros j Hj. unfold oid in Hj. simpl in Hj. lia.
    + intros j k Hjk. unfold oid in Hjk. lia.
  - intros Heq. apply (f_equal taskInstances) in Heq.
    vm_compute in Heq. discriminate.
Defined.

(** Saving a document the query found leaves it the answer of the query. *)
Lemma find_saved (query : TaskInstance.t -> bool)
    (coll : list TaskInstance.t) (stored doc : TaskInstance.t) :
  Js.find query coll = Some stored ->
  TaskInstance._id doc = TaskInstance._id stored ->
  query doc = true ->
  Js.find query (TaskInstances.saveInstance coll doc) = Some doc.
Proof.
  unfold Js.find. intros Hfind Hid Hdoc.
  induction coll as [|x coll IH]; simpl in *; [discriminate|].
  destruct (TaskInstance._id x =? TaskInstance._id doc)%nat eqn:Ex.
  - rewrite Hdoc. reflexivity.
  - destruct (query x) eqn:Eq.
    + injection Hfind as ->. rewrite Hid, Nat.eqb_refl in Ex. discriminate.
    + apply IH, Hfind.
Qed.

Lemma saveInstance_twice (coll : list TaskInstance.t)
    (first second : TaskInstance.t) :
  TaskInstance._id first = TaskInstance._id second ->
  TaskInstances.saveInstance (TaskInstances.saveInstance coll first) second
  = TaskInstances.saveInstance coll second.
Proof.
  intros Hid. unfold TaskInstances.saveInstance. rewrite map_map.
  apply map_ext. intros x. rewrite Hid.
  destruct (TaskInstance._id x =? TaskInstance._id second)%nat eqn:Ex.
  - rewrite Hid, Nat.eqb_refl. reflexivity.
  - rewrite Ex. reflexivity.
Qed.

Lemma withTaskInstances_twice (db : Db) (a b : list TaskInstance.t) :
  withTaskInstances (withTaskInstances db a) b = withTaskInstances db b.
Proof. destruct db; reflexivity. Qed.

Lemma find_owned_instance (coll : list TaskInstance.t) (id uid : ObjectId)
    (instance : TaskInstance.t) :
  Js.find (fun x => (TaskInstance._id x =? id)%nat
                    && (TaskInstance.userId x =? uid)%nat) coll
    = Some instance ->
  TaskInstance._id instance = id /\ TaskInstance.userId instance = uid.
Proof.
  intros Hfind. apply find_some in Hfind. destruct Hfind as [_ Hq].
  apply andb_true_iff in Hq. destruct Hq as [Hi Hu].
  apply Nat.eqb_eq in Hi, Hu. auto.
Qed.

(** X9.  Toggling an instance twice with [PUT /task-instances/:id/complete]
    gives the instance its flag back, but not its entries: both calls
    succeed, and the store ends as the first store with the instance saved
    with its own flag and every entry set to that flag. *)
Theorem double_toggle_levels_the_entries (db : Db) (user : User.t)
    (id : ObjectId) (instance : TaskInstance.t) :
  Js.find (fun x => (TaskInstance._id x =? id)%nat
                    && (TaskInstance.userId x =? User._id user)%nat)
          (taskInstances db) = Some instance ->
  status (fst (TaskInstances.putComplete db user id)) = 200%nat
  /\ TaskInstances.putComplete
       (snd (TaskInstances.putComplete db user id)) user id
     = (mkResponse 200 "Task instance updated successfully",
        withTaskInstances db
          (TaskInstances.saveInstance (taskInstances db)
             (TaskInstance.mk (TaskInstance._id instance)
                (TaskInstance.taskId instance) (TaskInstance.userId instance)
                (TaskInstance.date instance) (TaskInstance.completed instance)
                (map (fun si =>
                        SubtaskInstance.mk (SubtaskInstance.subtaskId si)
                          (TaskInstance.completed instance))
                     (TaskInstance.subtaskInstances instance))))).
Proof.
  intros Hfind. destruct (find_owned_instance _ _ _ _ Hfind) as [Hid Huid].
  pose (once :=
    TaskInstance.mk (TaskInstance._id instance) (TaskInstance.taskId instance)
      (TaskInstance.userId instance) (TaskInstance.date instance)
      (negb (TaskInstance.completed instance))
      (map (fun si =>
              SubtaskInstance.mk (SubtaskInstance.subtaskId si)
                (negb (TaskInstance.completed instance)))
           (TaskInstance.subtaskInstances instance))).
  assert (Hfirst : TaskInstances.putComplete db user id
                   = (mkResponse 200 "Task instance updated successfully",
                      withTaskInstances db
                        (TaskInstances.saveInstance (taskInstances db) once))).
  { unfold TaskInstances.putComplete. rewrite Hfind. reflexivity. }
  rewrite Hfirst. cbn [fst snd status]. split; [reflexivity|].
  unfold TaskInstances.putComplete.
  replace (taskInstances (withTaskInstances db
             (TaskInstances.saveInstance (taskInstances db) once)))
    with (TaskInstances.saveInstance (taskInstances db) once)
    by (destruct db; reflexivity).
  rewrite (find_saved _ _ instance once Hfind eq_refl).
  - rewrite withTaskInstances_twice, saveInstance_twice by reflexivity.
    unfold once. cbn [TaskInstance._id TaskInstance.taskId TaskInstance.userId
                      TaskInstance.date TaskInstance.completed
                      TaskInstance.subtaskInstances].
    rewrite negb_involutive, map_map. reflexivity.
  - unfold once. cbn [TaskInstance._id TaskInstance.userId].
    rewrite Hid, Huid, !Nat.eqb_refl. reflexivity.
Qed.

(** X9 on an instance that is open with one entry done: after the two
    toggles the entry is open as well. *)
Lemma double_toggle_levels_the_entries_witness :
  let instance :=
    TaskInstance.mk 50 1 7 (Scenario.day 19875) false
      [SubtaskInstance.mk 11 true; SubtaskInstance.mk 12 false] in
  let db := mkDb [] [] [] [] [] [instance] in
  taskInstances
    (snd (TaskInstances.putComplete
            (snd (TaskInstances.putComplete db Scenario.alice 50))
            Scenario.alice 50))
  = [TaskInstance.mk 50 1 7 (Scenario.day 19875) false
       [SubtaskInstance.mk 11 false; SubtaskInstance.mk 12 false]].
Proof.
  intros instance db.
  destruct (double_toggle_levels_the_entries db Scenario.alice 50 instance
              eq_refl) as [_ Htwice].
  rewrite Htwice. reflexivity.
Defined.

Lemma toggleFirst_twice (subtaskId : ObjectId)
    (entries : list SubtaskInstance.t) :
  TaskInstances.toggleFirst subtaskId
    (TaskInstances.toggleFirst subtaskId entries) = entries.
Proof.
  induction entries as [|si rest IH]; simpl; [reflexivity|].
  destruct (SubtaskInstance.subtaskId si =? subtaskId)%nat eqn:E; simpl;
    rewrite E.
  - rewrite negb_involutive. destruct si; reflexivity.
  - rewrite IH. reflexivity.
Qed.

Lemma toggleFirst_found (subtaskId : ObjectId)
    (entries : list SubtaskInstance.t) (si : SubtaskInstance.t) :
  Js.find (fun e => (SubtaskInstance.subtaskId e =? subtaskId)%nat) entries
    = Some si ->
  Js.find (fun e => (SubtaskInstance.subtaskId e =? subtaskId)%nat)
          (TaskInstances.toggleFirst subtaskId entries)
  = Some (SubtaskInstance.mk (SubtaskInstance.subtaskId si)
            (negb (SubtaskInstance.completed si))).
Proof.
  unfold Js.find. induction entries as [|e rest IH]; simpl; [discriminate|].
  destruct (SubtaskInstance.subtaskId e =? subtaskId)%nat eqn:E; simpl;
    rewrite E.
  - intros [= ->]. reflexivity.
  - exact IH.
Qed.

(** X10.  Toggling the same entry twice with
    [PUT /task-instances/:id/subtask/:subtaskId] gives the entries back, and
    leaves the instance flagged complete exactly when all its entries are:
    the second call succeeds and saves the first entries with that flag. *)
Theorem double_entry_toggle_settles_the_flag (db : Db) (user : User.t)
    (id subtaskId : ObjectId) (instance : TaskInstance.t)
    (entry : SubtaskInstance.t) :
  Js.find (fun x => (TaskInstance._id x =? id)%nat
                    && (TaskInstance.userId x =? User._id user)%nat)
          (taskInstances db) = Some instance ->
  Js.find (fun si => (SubtaskInstance.subtaskId si =? subtaskId)%nat)
          (TaskInstance.subtaskInstances instance) = Some entry ->
  TaskInstances.putSubtask
    (snd (TaskInstances.putSubtask db user id subtaskId)) user id subtaskId
  = (mkResponse 200 "Subtask instance updated successfully",
     withTaskInstances db
       (TaskInstances.saveInstance (taskInstances db)
          (TaskInstance.mk (TaskInstance._id instance)
             (TaskInstance.taskId instance) (TaskInstance.userId instance)
             (TaskInstance.date instance)
             (forallb SubtaskInstance.completed
                (TaskInstance.subtaskInstances instance))
             (TaskInstance.subtaskInstances instance)))).
Proof.
  intros Hfind Hentry.
  destruct (find_owned_instance _ _ _ _ Hfind) as [Hid Huid].
  pose (entries1 := TaskInstances.toggleFirst subtaskId
                      (TaskInstance.subtaskInstances instance)).
  pose (flag1 := if Js.every SubtaskInstance.completed entries1
                    && (0 <? List.length entries1)%nat then true
                 else if Js.some (fun si => negb (SubtaskInstance.completed si))
                           entries1 && TaskInstance.completed instance
                 then false else TaskInstance.completed instance).
  pose (once :=
    TaskInstance.mk (TaskInstance._id instance) (TaskInstance.taskId instance)
      (TaskInstance.userId instance) (TaskInstance.date instance) flag1
      entries1).
  assert (Hfirst : TaskInstances.putSubtask db user id subtaskId
                   = (mkResponse 200 "Subtask instance updated successfully",
                      withTaskInstances db
                        (TaskInstances.saveInstance (taskInstances db) once))).
  { unfold TaskInstances.putSubtask. rewrite Hfind, Hentry. reflexivity. }
  rewrite Hfirst. cbn [snd].
  unfold TaskInstances.putSubtask.
  replace (taskInstances (withTaskInstances db
             (TaskInstances.saveInstance (taskInstances db) once)))
    with (TaskInstances.saveInstance (taskInstances db) once)
    by (destruct db; reflexivity).
  rewrite (find_saved _ _ instance once Hfind eq_refl).
  2:{ unfold once. cbn [TaskInstance._id TaskInstance.userId].
      rewrite Hid, Huid, !Nat.eqb_refl. reflexivity. }
  unfold once at 1. cbn [TaskInstance.subtaskInstances]. unfold entries1 at 1.
  rewrite (toggleFirst_found _ _ _ Hentry).
  rewrite withTaskInstances_twice, saveInstance_twice by reflexivity.
  unfold once. cbn [TaskInstance._id TaskInstance.taskId TaskInstance.userId
                    TaskInstance.date TaskInstance.completed
                    TaskInstance.subtaskInstances].
  unfold entries1. rewrite toggleFirst_twice.
  assert (Hlen : (0 <? List.length (TaskInstance.subtaskInstances instance))%nat
                 = true).
  { apply find_some in Hentry. destruct Hentry as [Hin _].
    destruct (TaskInstance.subtaskInstances instance); [contradiction|].
    reflexivity. }
  rewrite Hlen, andb_true_r. unfold Js.every, Js.some.
  destruct (forallb SubtaskInstance.completed
              (TaskInstance.subtaskInstances instance)) eqn:Eall;
    [reflexivity|].
  assert (Hsome : existsb (fun si => negb (SubtaskInstance.completed si))
                    (TaskInstance.subtaskInstances instance) = true).
  { clear -Eall. induction (TaskInstance.subtaskInstances instance)
      as [|si rest IH]; simpl in *; [discriminate|].
    destruct (SubtaskInstance.completed si); simpl in *; auto. }
  rewrite Hsome. simpl. destruct flag1; reflexivity.
Qed.

(** X10 on an instance that is flagged complete although one entry is open:
    two toggles of the other entry clear the flag. *)
Lemma double_entry_toggle_settles_the_flag_witness :
  let instance :=
    TaskInstance.mk 50 1 7 (Scenario.day 19875) true
      [SubtaskInstance.mk 11 true; SubtaskInstance.mk 12 false] in
  let db := mkDb [] [] [] [] [] [instance] in
  taskInstances
    (snd (TaskInstances.putSubtask
            (snd (TaskInstances.putSubtask db Scenario.alice 50 11))
            Scenario.alice 50 11))
  = [TaskInstance.mk 50 1 7 (Scenario.day 19875) false
       [SubtaskInstance.mk 11 true; SubtaskInstance.mk 12 false]].
Proof.
  intros instance db.
  rewrite (double_entry_toggle_settles_the_flag db Scenario.alice 50 11
             instance (SubtaskInstance.mk 11 true) eq_refl eq_refl).
  reflexivity.
Defined.

(* ===================================================================== *)
(** ** Beyond the claims: the admin's view of a user's day *)
(* ===================================================================== *)

Lemma withTaskInstances_app (db : Db) (a b : list TaskInstance.t) :
  withTaskInstances (withTaskInstances db (taskInstances db ++ a))
    (taskInstances (withTaskInstances db (taskInstances db ++ a)) ++ b)
  = withTaskInstances db (taskInstances db ++ a ++ b).
Proof. destruct db; simpl. rewrite app_assoc. reflexivity. Qed.

Lemma withTaskInstances_nil (db : Db) :
  db = withTaskInstances db (taskInstances db ++ []).
Proof. destruct db; simpl. rewrite app_nil_r. reflexivity. Qed.

Section AdminViewFacts.
Context `{LocalTime}.

Lemma collectStored_appends (userId : ObjectId) (targetDate : Date)
    (oid : nat -> ObjectId) (activeTasks : list Task.t) :
  forall (db : Db) (i : nat),
  exists created,
    snd (AdminUsers.collectStored db userId targetDate oid i activeTasks)
      = withTaskInstances db (taskInstances db ++ created)
    /\ Forall (Inv.freshInstanceOf userId) created
    /\ (forall x,
          In x (fst (AdminUsers.collectStored db userId targetDate oid i
                       activeTasks)) ->
          In x (taskInstances db) \/ In x created).
Proof.
  induction activeTasks as [|task rest IH]; intros db i; simpl.
  - exists []. split; [apply withTaskInstances_nil|]. split; [constructor|].
    intros x [].
  - destruct (TaskInstances.findInstance (taskInstances db) (Task._id task)
                userId targetDate) as [stored|] eqn:Efound.
    + destruct (IH db (S i)) as [created [Hdb [Hfresh Hshown]]].
      destruct (AdminUsers.collectStored db userId targetDate oid (S i) rest)
        as [more db'].
      exists created. cbn [fst snd] in *. split; [exact Hdb|].
      split; [exact Hfresh|].
      intros x [<-|Hx]; [|apply Hshown, Hx].
      left. apply find_some in Efound. apply Efound.
    + set (instance := TaskInstance.mk (oid i) (Task._id task) userId
                         targetDate false
                         (TaskInstances.seedSubtaskInstances
                            (TaskInstances.populateSubtasks (subtasks db)
                               task))).
      destruct (IH (withTaskInstances db (taskInstances db ++ [instance]))
                  (S i)) as [created [Hdb [Hfresh Hshown]]].
      destruct (AdminUsers.collectStored
                  (withTaskInstances db (taskInstances db ++ [instance]))
                  userId targetDate oid (S i) rest) as [more db'].
      exists (instance :: created). cbn [fst snd] in *.
      split; [rewrite Hdb; apply (withTaskInstances_app db [instance])|].
      split.
      * constructor; [|exact Hfresh].
        split; [reflexivity|]. split; [reflexivity|].
        unfold instance. cbn [TaskInstance.subtaskInstances].
        unfold TaskInstances.seedSubtaskInstances.
        apply Forall_forall. intros si Hsi. apply in_map_iff in Hsi.
        destruct Hsi as [s [<- _]]. reflexivity.
      * intros x [<-|Hx]; [right; left; reflexivity|].
        destruct (Hshown x Hx) as [Hold|Hnew]; [|right; right; exact Hnew].
        replace (taskInstances
                   (withTaskInstances db (taskInstances db ++ [instance])))
          with (taskInstances db ++ [instance]) in Hold
          by (destruct db; reflexivity).
        apply in_app_or in Hold. destruct Hold as [Hold|[<-|[]]].
        -- left. exact Hold.
        -- right. left. reflexivity.
Qed.

(** X11.  The admin's view of a user's day never rewrites a stored instance:
    whatever [GET /admin/user-tasks/:userId/date/:date] answers, the store
    afterwards is the old store with new instances appended, each of them
    for that user, open, with open entries; and every instance in the
    response is a stored one as it was stored, or one of the new ones.  (The
    user's own read of the day would first bring a stored instance in line
    with the task's subtasks.) *)
Theorem admin_view_only_appends (db : Db) (user : User.t) (userId : ObjectId)
    (date : string) (oid : nat -> ObjectId) :
  exists created,
    snd (AdminUsers.getUserTasks db user userId date oid)
      = withTaskInstances db (taskInstances db ++ created)
    /\ Forall (Inv.freshInstanceOf userId) created
    /\ (forall x,
          In x (snd (fst (AdminUsers.getUserTasks db user userId date oid))) ->
          In x (taskInstances db) \/ In x created)
    /\ (status (fst (fst (AdminUsers.getUserTasks db user userId date oid)))
          <> 200%nat -> created = []).
Proof.
  unfold AdminUsers.getUserTasks.
  assert (Hnone : forall response,
            exists created : list TaskInstance.t,
              snd (response, @nil TaskInstance.t, db)
                = withTaskInstances db (taskInstances db ++ created)
              /\ Forall (Inv.freshInstanceOf userId) created
              /\ (forall x,
                    In x (snd (fst (response, @nil TaskInstance.t, db))) ->
                    In x (taskInstances db) \/ In x created)
              /\ (status (fst (fst (response, @nil TaskInstance.t, db)))
                    <> 200%nat -> created = [])).
  { intros response. exists []. cbn [fst snd].
    split; [apply withTaskInstances_nil|]. split; [constructor|].
    split; [intros x []|reflexivity]. }
  destruct (negb (Admin.adminAuth user)); [apply Hnone|].
  destruct (TaskInstances.parseDateParam date) as [[[year month] day]|];
    [|apply Hnone].
  destruct (Js.find _ (users db)); [|apply Hnone].
  set (targetDate := AdminUsers.rebuild (localDate year (month - 1) day)).
  set (activeTasks := Js.sort _ _).
  destruct (collectStored_appends userId targetDate oid activeTasks db O)
    as [created [Hdb [Hfresh Hshown]]].
  destruct (AdminUsers.collectStored db userId targetDate oid 0 activeTasks)
    as [shown db'].
  exists created. cbn [fst snd status] in *.
  split; [exact Hdb|]. split; [exact Hfresh|]. split; [exact Hshown|].
  intros Hno. contradiction Hno. reflexivity.
Qed.

End AdminViewFacts.

(* ===================================================================== *)
(** ** Beyond the claims: the days of a dated task *)
(* ===================================================================== *)

Lemma utc_startOfDay (t : Date) :
  @startOfDay UTC t = msPerDay * (t / msPerDay).
Proof.
  assert (Hnz : msPerDay <> 0) by (unfold msPerDay; lia).
  change (t - t mod msPerDay = msPerDay * (t / msPerDay)).
  pose proof (Z.div_mod t msPerDay Hnz) as Hdm. lia.
Qed.

Lemma utc_endOfDay (t : Date) :
  @endOfDay UTC t = @startOfDay UTC t + (msPerDay - 1).
Proof. reflexivity. Qed.

Lemma utc_day_of_end (t : Date) :
  (@endOfDay UTC t) / msPerDay = t / msPerDay.
Proof.
  rewrite utc_endOfDay, utc_startOfDay.
  symmetry. apply (Z.div_unique _ _ _ (msPerDay - 1)).
  - left. unfold msPerDay. lia.
  - reflexivity.
Qed.

Lemma utc_day_of_start (t : Date) :
  (@startOfDay UTC t) / msPerDay = t / msPerDay.
Proof.
  rewrite utc_startOfDay.
  symmetry. apply (Z.div_unique _ _ _ 0).
  - left. unfold msPerDay. lia.
  - lia.
Qed.

(** The UTC server keeps the laws. *)
Lemma UTC_lawful : @LawfulZone UTC.
Proof.
  assert (Hpos : 0 < msPerDay) by (unfold msPerDay; lia).
  constructor.
  - intros t. change (t - t mod msPerDay <= t).
    pose proof (Z.mod_pos_bound t msPerDay Hpos). lia.
  - intros t. change (t <= t - t mod msPerDay + (msPerDay - 1)).
    pose proof (Z.mod_pos_bound t msPerDay Hpos). lia.
  - intros a b Hab. rewrite !utc_startOfDay.
    apply Z.mul_le_mono_nonneg_l; [lia|]. apply Z.div_le_mono; lia.
  - intros a b Hab. rewrite !utc_endOfDay, !utc_startOfDay.
    apply Z.add_le_mono_r, Z.mul_le_mono_nonneg_l; [lia|].
    apply Z.div_le_mono; lia.
  - intros t. rewrite (utc_startOfDay (endOfDay t)), utc_day_of_end.
    symmetry. apply utc_startOfDay.
  - intros t. rewrite (utc_endOfDay (startOfDay t)).
    rewrite (utc_startOfDay (startOfDay t)), utc_day_of_start.
    rewrite utc_endOfDay, utc_startOfDay. reflexivity.
Qed.

Section DayFacts.
Context `{LocalTime}.
Hypothesis lawful : LawfulZone.

Lemma startOfDay_twice (t : Date) : startOfDay (startOfDay t) = startOfDay t.
Proof.
  rewrite <- (startOfDay_endOfDay lawful (startOfDay t)).
  rewrite (endOfDay_startOfDay lawful t). apply (startOfDay_endOfDay lawful).
Qed.

Lemma starts_before_day_ends (s d : Date) :
  s <= endOfDay d <-> startOfDay s <= d.
Proof.
  split; intros Hle.
  - apply (startOfDay_mono lawful) in Hle.
    rewrite (startOfDay_endOfDay lawful) in Hle.
    pose proof (startOfDay_le lawful d). lia.
  - apply (endOfDay_mono lawful) in Hle.
    rewrite (endOfDay_startOfDay lawful) in Hle.
    pose proof (endOfDay_ge lawful s). lia.
Qed.

Lemma ends_after_day_starts (e d : Date) :
  startOfDay d <= e <-> d <= endOfDay e.
Proof.
  split; intros Hle.
  - apply (endOfDay_mono lawful) in Hle.
    rewrite (endOfDay_startOfDay lawful) in Hle.
    pose proof (endOfDay_ge lawful d). lia.
  - apply (startOfDay_mono lawful) in Hle.
    rewrite (startOfDay_endOfDay lawful) in Hle.
    pose proof (startOfDay_le lawful e). lia.
Qed.

Lemma activeOn_interval (userId : ObjectId) (d s e : Date) (t : Task.t) :
  Task.startDate t = Some s -> Task.endDate t = Some e ->
  TaskModel.activeOn userId d t
  = (Task.userId t =? userId)%nat
    && (startOfDay s <=? d) && (d <=? endOfDay e).
Proof.
  intros Hs He. unfold TaskModel.activeOn. rewrite Hs, He.
  f_equal; [f_equal|].
  - apply eq_true_iff_eq. rewrite !Z.leb_le. apply starts_before_day_ends.
  - apply eq_true_iff_eq. rewrite !Z.leb_le. apply ends_after_day_starts.
Qed.

End DayFacts.

Lemma tasks_withTasks (db : Db) (coll : list Task.t) :
  tasks (withTasks db coll) = coll.
Proof. destruct db; reflexivity. Qed.

(** X12.  The model's method and the model's query agree: in a zone whose
    days are intervals, [task.isActiveOnDate(date)] is true exactly when the
    query of [findTasksForDate] for the task's owner and that date matches
    the task, although the two compare different ends of the days. *)
Theorem method_agrees_with_query `{LocalTime} (lawful : LawfulZone)
    (t : Task.t) (date : Date) :
  TaskMethods.isActiveOnDate t date
  = TaskModel.activeOn (Task.userId t) date t.
Proof.
  unfold TaskMethods.isActiveOnDate, TaskModel.activeOn.
  rewrite Nat.eqb_refl. cbn [andb].
  destruct (Task.startDate t) as [s|]; [|reflexivity].
  destruct (Task.endDate t) as [e|]; [|symmetry; apply andb_false_r].
  cbv zeta. f_equal; apply eq_true_iff_eq; rewrite !Z.leb_le.
  - rewrite (starts_before_day_ends lawful). split; intros Hle.
    + pose proof (startOfDay_le lawful date). lia.
    + apply (startOfDay_mono lawful) in Hle.
      rewrite (startOfDay_twice lawful) in Hle. exact Hle.
  - split; intros Hle.
    + apply (startOfDay_mono lawful) in Hle.
      rewrite (startOfDay_twice lawful) in Hle.
      rewrite (startOfDay_endOfDay lawful) in Hle.
      pose proof (startOfDay_le lawful e). lia.
    + pose proof (endOfDay_ge lawful e). lia.
Qed.

(** X12 on the UTC server, for a task of days 5 to 7 asked at noon of day 7
    and at noon of day 8. *)
Lemma method_agrees_with_query_witness :
  let t := Scenario.ranged 1 1 5 7 100 in
  TaskMethods.isActiveOnDate t (Scenario.day 7 + 43200000)
  = TaskModel.activeOn 7 (Scenario.day 7 + 43200000) t
  /\ TaskMethods.isActiveOnDate t (Scenario.day 7 + 43200000) = true
  /\ TaskMethods.isActiveOnDate t (Scenario.day 8 + 43200000)
     = TaskModel.activeOn 7 (Scenario.day 8 + 43200000) t
  /\ TaskMethods.isActiveOnDate t (Scenario.day 8 + 43200000) = false.
Proof.
  intros t. split; [|split; [|split]].
  - apply (method_agrees_with_query UTC_lawful t).
  - reflexivity.
  - apply (method_agrees_with_query UTC_lawful t).
  - reflexivity.
Defined.

(** X13.  A dated task created with [POST /tasks] shows on the day lists of
    exactly the days from its start day to its end day: when the route
    answers 201 for a body with both dates, the stored task has the body's
    dates, the start is not after the end, and [findTasksForDate] for the
    user lists the new task for a date exactly when the date lies between
    the start of the start day and the end of the end day. *)
Theorem created_task_shows_on_its_days `{LocalTime} (lawful : LawfulZone)
    (db : Db) (user : User.t) (body : Tasks.CreateBody) (oid : ObjectId)
    (now s e : Date) :
  Tasks.c_startDate body = Some s ->
  Tasks.c_endDate body = Some e ->
  status (fst (Tasks.post db user body oid now)) = 201%nat ->
  (forall t, In t (tasks db) -> Task._id t <> oid) ->
  s <= e
  /\ exists task,
       tasks (snd (Tasks.post db user body oid now)) = tasks db ++ [task]
       /\ Task._id task = oid
       /\ Task.startDate task = Some s /\ Task.endDate task = Some e
       /\ forall d,
            (exists t,
               In t (TaskModel.findTasksForDate
                       (tasks (snd (Tasks.post db user body oid now)))
                       (User._id user) d)
               /\ Task._id t = oid)
            <-> startOfDay s <= d <= endOfDay e.
Proof.
  intros Hs He Hok Hfresh. unfold Tasks.post in *. rewrite Hs, He in *.
  destruct (negb (isEmpty (Tasks.c_errors body))); [discriminate|].
  destruct (Tasks.endBeforeStart (Some s) (Some e)); [discriminate|].
  cbn [Tasks.oneDateOnly isSome andb negb orb] in *.
  unfold Tasks.createTask, TaskModel.endDateValidator in *.
  cbn [Task.startDate Task.endDate] in *.
  destruct (s <=? e) eqn:Ese; [|discriminate].
  apply Z.leb_le in Ese. split; [exact Ese|].
  cbn [fst snd].
  match goal with |- context [tasks db ++ [?x]] => set (task := x) end.
  exists task. split; [apply tasks_withTasks|].
  split; [reflexivity|]. split; [reflexivity|]. split; [reflexivity|].
  intros d. unfold TaskModel.findTasksForDate. split.
  - intros [t [Hin Hid]]. apply sort_In, filter_In in Hin.
    destruct Hin as [Hin Hact].
    rewrite tasks_withTasks in Hin.
    apply in_app_or in Hin. destruct Hin as [Hold|[<-|[]]].
    + exfalso. exact (Hfresh t Hold Hid).
    + rewrite (activeOn_interval lawful _ d s e) in Hact by reflexivity.
      apply andb_true_iff in Hact. destruct Hact as [Hact Hend].
      apply andb_true_iff in Hact. destruct Hact as [_ Hstart].
      apply Z.leb_le in Hstart, Hend. lia.
  - intros [Hstart Hend]. exists task. split; [|reflexivity].
    apply sort_In, filter_In. split.
    + rewrite tasks_withTasks. apply in_or_app. right. left. reflexivity.
    + rewrite (activeOn_interval lawful _ d s e) by reflexivity.
      cbn [Task.userId]. rewrite Nat.eqb_refl. cbn [andb].
      apply andb_true_iff. split; apply Z.leb_le; assumption.
Qed.

(** X13 on the UTC server: a task from 10:00 of day 5 to the start of day 7
    shows at the start of day 5 and no longer on day 8. *)
Lemma created_task_shows_on_its_days_witness :
  let body :=
    Tasks.mkCreateBody [] "report" (Some (Scenario.day 5 + 36000000))
      (Some (Scenario.day 7)) in
  let db' := snd (Tasks.post emptyDb Scenario.alice body 9 100) in
  (exists t,
     In t (TaskModel.findTasksForDate (tasks db') 7 (Scenario.day 5))
     /\ Task._id t = 9%nat)
  /\ ~ (exists t,
          In t (TaskModel.findTasksForDate (tasks db') 7 (Scenario.day 8))
          /\ Task._id t = 9%nat).
Proof.
  intros body db'.
  destruct (created_task_shows_on_its_days UTC_lawful emptyDb Scenario.alice
              body 9 100 (Scenario.day 5 + 36000000) (Scenario.day 7)
              eq_refl eq_refl eq_refl (fun t Hin => match Hin with end))
    as [_ [task [_ [_ [_ [_ Hdays]]]]]].
  split.
  - apply (Hdays (Scenario.day 5)). vm_compute. split; discriminate.
  - intros Hshown. apply (Hdays (Scenario.day 8)) in Hshown.
    vm_compute in Hshown. destruct Hshown as [_ Hle]. apply Hle. reflexivity.
Defined.

(* ===================================================================== *)
(** ** Beyond the claims: accounts, the whitelist and reset codes *)
(* ===================================================================== *)

Lemma markUsed_found (coll : list Whitelist.t) (email : string)
    (usedBy : ObjectId) (w : Whitelist.t) :
  Js.find (fun x => (Whitelist.email x =? email)%string) coll = Some w ->
  Js.find (fun x => (Whitelist.email x =? email)%string)
          (Auth.markUsed coll email usedBy)
  = Some (Whitelist.mk (Whitelist._id w) (Whitelist.email w)
            (Whitelist.addedBy w) true (Some usedBy)).
Proof.
  unfold Js.find. induction coll as [|x coll IH]; simpl; [discriminate|].
  destruct (Whitelist.email x =? email)%string eqn:Ex; simpl.
  - intros [= <-]. rewrite Ex. reflexivity.
  - rewrite Ex. exact IH.
Qed.

Lemma markUsed_found_by_id (coll : list Whitelist.t) (email : string)
    (usedBy : ObjectId) (w : Whitelist.t) :
  NoDup (map Whitelist._id coll) ->
  Js.find (fun x => (Whitelist.email x =? email)%string) coll = Some w ->
  Js.find (fun x => (Whitelist._id x =? Whitelist._id w)%nat)
          (Auth.markUsed coll email usedBy)
  = Some (Whitelist.mk (Whitelist._id w) (Whitelist.email w)
            (Whitelist.addedBy w) true (Some usedBy)).
Proof.
  unfold Js.find. induction coll as [|x coll IH]; simpl; [discriminate|].
  intros Hnd Hfind. apply NoDup_cons_iff in Hnd. destruct Hnd as [Hx Hnd].
  destruct (Whitelist.email x =? email)%string eqn:Ex; simpl.
  - injection Hfind as <-. rewrite Nat.eqb_refl. reflexivity.
  - destruct (Whitelist._id x =? Whitelist._id w)%nat eqn:Eid.
    + exfalso. apply Hx. apply Nat.eqb_eq in Eid. rewrite Eid.
      apply in_map. apply find_some in Hfind. apply Hfind.
    + apply IH; assumption.
Qed.

Section AccountFacts.
Variable hash : string -> string.

(** X14.  A whitelist entry admits one registration.  When
    [POST /auth/register] answers 201 for an email other than the bootstrap
    admin's, the entry of the email was unused and is now used by the new
    user; a further registration with the email is refused with 400 and
    changes nothing, and no admin can remove the entry any more. *)
Theorem registration_uses_up_the_entry (db : Db) (body : Auth.RegisterBody)
    (oid : ObjectId) :
  Auth.r_email body <> Auth.bootstrapEmail ->
  NoDup (map Whitelist._id (whitelist db)) ->
  status (fst (Auth.register hash db body oid)) = 201%nat ->
  exists w,
    Js.find (fun x => (Whitelist.email x =? Auth.r_email body)%string)
            (whitelist db) = Some w
    /\ Whitelist.isUsed w = false
    /\ Js.find (fun x => (Whitelist.email x =? Auth.r_email body)%string)
               (whitelist (snd (Auth.register hash db body oid)))
       = Some (Whitelist.mk (Whitelist._id w) (Whitelist.email w)
                 (Whitelist.addedBy w) true (Some oid))
    /\ (exists u, users (snd (Auth.register hash db body oid))
                  = users db ++ [u]
                  /\ User._id u = oid /\ User.email u = Auth.r_email body)
    /\ (forall body' oid',
          Auth.r_errors body' = [] ->
          Auth.r_email body' = Auth.r_email body ->
          Auth.register hash (snd (Auth.register hash db body oid)) body' oid'
          = (mkResponse 400 "User already exists with this email",
             snd (Auth.register hash db body oid)))
    /\ (forall admin,
          Admin.adminAuth admin = true ->
          AdminUsers.deleteWhitelist (snd (Auth.register hash db body oid))
            admin (Whitelist._id w)
          = (mkResponse 400
               "Cannot remove email that has been used for registration",
             snd (Auth.register hash db body oid))).
Proof.
  intros Hboot Hnd Hok. apply String.eqb_neq in Hboot.
  destruct (Auth.register hash db body oid) as [response db'] eqn:Hreg.
  cbn [fst snd] in *. unfold Auth.register in Hreg. rewrite Hboot in Hreg.
  destruct (negb (isEmpty (Auth.r_errors body)));
    [injection Hreg as <- <-; discriminate|].
  destruct (Js.find _ (users db)) as [u0|] eqn:Euser;
    [injection Hreg as <- <-; discriminate|].
  cbn [negb] in Hreg.
  destruct (Js.find _ (whitelist db)) as [w|] eqn:Ew;
    [|injection Hreg as <- <-; discriminate].
  destruct (Whitelist.isUsed w) eqn:Eused;
    [injection Hreg as <- <-; discriminate|].
  injection Hreg as <- <-. exists w.
  split; [reflexivity|]. split; [exact Eused|].
  set (user := User.mk oid _ _ _ _).
  cbn [whitelist users withUsers withWhitelist].
  split; [apply markUsed_found, Ew|].
  split; [exists user; repeat split|].
  split.
  - intros body' oid' Herr Hemail. unfold Auth.register.
    rewrite Herr, Hemail. cbn [isEmpty negb users withUsers withWhitelist].
    rewrite find_snoc_fresh; [reflexivity| |].
    + intros y Hy. unfold Js.find in Euser.
      apply (find_none _ _ Euser y Hy).
    + unfold user. cbn [User.email]. apply String.eqb_refl.
  - intros admin Hadmin. unfold AdminUsers.deleteWhitelist.
    rewrite Hadmin. cbn [negb whitelist withWhitelist withUsers].
    rewrite (markUsed_found_by_id _ _ oid w Hnd Ew). reflexivity.
Qed.

(** X15.  Deleting a user does not free the email.  After
    [DELETE /admin/users/:id] answers 200 for the only user of an email whose
    whitelist entry is used, a registration with the email is refused with
    400 and the email cannot be whitelisted again: the entry outlives the
    user. *)
Theorem deleted_user_stays_locked_out (db : Db) (admin : User.t)
    (id : ObjectId) (w : Whitelist.t) (body : Auth.RegisterBody)
    (oid wid : ObjectId) :
  Auth.r_email body <> Auth.bootstrapEmail ->
  Auth.r_errors body = [] ->
  Js.find (fun x => (Whitelist.email x =? Auth.r_email body)%string)
          (whitelist db) = Some w ->
  Whitelist.isUsed w = true ->
  (forall u, In u (users db) -> User.email u = Auth.r_email body ->
             User._id u = id) ->
  status (fst (AdminUsers.deleteUser db admin id)) = 200%nat ->
  Auth.register hash (snd (AdminUsers.deleteUser db admin id)) body oid
  = (mkResponse 400 "This email has already been used for registration",
     snd (AdminUsers.deleteUser db admin id))
  /\ AdminUsers.postWhitelist (snd (AdminUsers.deleteUser db admin id)) admin
       (AdminUsers.mkWhitelistBody [] (Auth.r_email body)) wid
     = (mkResponse 400 "Email is already whitelisted",
        snd (AdminUsers.deleteUser db admin id)).
Proof.
  intros Hboot Herr Hw Hused Honly. apply String.eqb_neq in Hboot.
  unfold AdminUsers.deleteUser.
  destruct (negb (Admin.adminAuth admin)) eqn:Eadmin; [discriminate|].
  destruct (id =? User._id admin)%nat; [discriminate|].
  destruct (Js.find _ (users db)) as [target|]; [|discriminate].
  intros _. cbn [snd]. split.
  - unfold Auth.register. rewrite Herr, Hboot.
    cbn [isEmpty negb users whitelist withUsers withTasks].
    destruct (Js.find _ (filter _ (users db))) as [u|] eqn:Eu.
    + exfalso. apply find_some in Eu. destruct Eu as [Hin Hemail].
      apply filter_In in Hin. destruct Hin as [Hin Hkeep].
      apply String.eqb_eq in Hemail.
      rewrite (Honly u Hin Hemail), Nat.eqb_refl in Hkeep. discriminate.
    + rewrite Hw, Hused. reflexivity.
  - unfold AdminUsers.postWhitelist. rewrite Eadmin.
    cbn [AdminUsers.w_errors AdminUsers.w_email isEmpty negb whitelist
         withUsers withTasks].
    rewrite Hw. reflexivity.
Qed.

(** X16.  [DELETE /admin/users/:id] leaves the subtasks of the user's tasks
    in the store, out of reach: after a 200, a subtask whose task belonged
    to the deleted user is still stored, and updating or deleting it answers
    500 for every caller and changes nothing. *)
Theorem deleted_user_leaves_subtasks_behind (db : Db) (admin : User.t)
    (id : ObjectId) (subtaskId : ObjectId) (subtask : Subtask.t)
    (task : Task.t) :
  NoDup (map Task._id (tasks db)) ->
  Js.find (fun s => (Subtask._id s =? subtaskId)%nat) (subtasks db)
    = Some subtask ->
  Js.find (fun t => (Task._id t =? Subtask.taskId subtask)%nat) (tasks db)
    = Some task ->
  Task.userId task = id ->
  status (fst (AdminUsers.deleteUser db admin id)) = 200%nat ->
  In subtask (subtasks (snd (AdminUsers.deleteUser db admin id)))
  /\ (forall t, In t (tasks (snd (AdminUsers.deleteUser db admin id))) ->
                Task.userId t <> id)
  /\ forall caller updates,
       Subtasks.errors updates = [] ->
       Subtasks.put (snd (AdminUsers.deleteUser db admin id)) caller
         subtaskId updates
       = (mkResponse 500 "Server error while updating subtask",
          snd (AdminUsers.deleteUser db admin id))
       /\ Subtasks.delete (snd (AdminUsers.deleteUser db admin id)) caller
            subtaskId
          = (mkResponse 500 "Server error while deleting subtask",
             snd (AdminUsers.deleteUser db admin id)).
Proof.
  intros Hnd Hsub Htask Howner. unfold AdminUsers.deleteUser.
  destruct (negb (Admin.adminAuth admin)); [discriminate|].
  destruct (id =? User._id admin)%nat; [discriminate|].
  destruct (Js.find _ (users db)) as [target|]; [|discriminate].
  intros _. cbn [snd].
  assert (Hgone : Js.find (fun t => (Task._id t =? Subtask.taskId subtask)%nat)
                    (filter (fun t => negb (Task.userId t =? id)%nat)
                            (tasks db)) = None).
  { destruct (Js.find _ (filter _ (tasks db))) as [t|] eqn:Et; [|reflexivity].
    exfalso. apply find_some in Et. destruct Et as [Hin Hid].
    apply filter_In in Hin. destruct Hin as [Hin Hkeep].
    apply find_some in Htask. destruct Htask as [Hin' Hid'].
    apply Nat.eqb_eq in Hid, Hid'.
    assert (t = task).
    { apply (NoDup_map_inj Task._id (tasks db)); congruence. }
    subst t. rewrite Howner, Nat.eqb_refl in Hkeep. discriminate. }
  split; [|split].
  - cbn [subtasks withUsers withTasks]. apply find_some in Hsub. apply Hsub.
  - cbn [tasks withUsers withTasks]. intros t Ht. apply filter_In in Ht.
    destruct Ht as [_ Hkeep]. apply negb_true_iff, Nat.eqb_neq in Hkeep.
    exact Hkeep.
  - intros caller updates Herr. split.
    + unfold Subtasks.put. rewrite Herr.
      cbn [isEmpty negb subtasks tasks withUsers withTasks].
      rewrite Hsub, Hgone. reflexivity.
    + unfold Subtasks.delete.
      cbn [subtasks tasks withUsers withTasks].
      rewrite Hsub, Hgone. reflexivity.
Qed.

End AccountFacts.

(** X14 with Alice's email on the whitelist. *)
Lemma registration_uses_up_the_entry_witness :
  let hash := fun s : string => ("#" ++ s)%string in
  let db :=
    withWhitelist emptyDb [Whitelist.mk 30 "alice@example.com" 1 false None] in
  let body := Auth.mkRegisterBody [] "Alice" "alice@example.com" "secret1" in
  whitelist (snd (Auth.register hash db body 7))
  = [Whitelist.mk 30 "alice@example.com" 1 true (Some 7%nat)]
  /\ status (fst (Auth.register hash
                    (snd (Auth.register hash db body 7)) body 8)) = 400%nat
  /\ status (fst (AdminUsers.deleteWhitelist
                    (snd (Auth.register hash db body 7)) Scenario.root 30))
     = 400%nat.
Proof.
  intros hash db body.
  destruct (registration_uses_up_the_entry hash db body 7)
    as [w [Hw [_ [_ [_ [Hagain Hkeep]]]]]].
  - discriminate.
  - simpl. concrete_NoDup.
  - reflexivity.
  - vm_compute in Hw. injection Hw as <-.
    split; [reflexivity|]. split.
    + rewrite (Hagain body 8%nat eq_refl eq_refl). reflexivity.
    + pose proof (Hkeep Scenario.root eq_refl) as Hrefused.
      cbn [Whitelist._id] in Hrefused. rewrite Hrefused. reflexivity.
Defined.

(** X15: Alice registered, then the admin deleted her account. *)
Lemma deleted_user_stays_locked_out_witness :
  let hash := fun s : string => ("#" ++ s)%string in
  let db :=
    mkDb [Scenario.root; Scenario.alice]
         [Whitelist.mk 30 "alice@example.com" 1 true (Some 7%nat)]
         [] [] [] [] in
  let body := Auth.mkRegisterBody [] "Alice" "alice@example.com" "secret1" in
  let db' := snd (AdminUsers.deleteUser db Scenario.root 7) in
  users db' = [Scenario.root]
  /\ status (fst (Auth.register hash db' body 8)) = 400%nat
  /\ status (fst (AdminUsers.postWhitelist db' Scenario.root
                    (AdminUsers.mkWhitelistBody [] "alice@example.com") 31))
     = 400%nat.
Proof.
  intros hash db body db'.
  destruct (deleted_user_stays_locked_out hash db Scenario.root 7
              (Whitelist.mk 30 "alice@example.com" 1 true (Some 7%nat))
              body 8 31) as [Hregister Hlist].
  - discriminate.
  - reflexivity.
  - reflexivity.
  - reflexivity.
  - intros u [<-|[<-|[]]]; [discriminate|reflexivity].
  - reflexivity.
  - split; [reflexivity|]. fold db' in Hregister, Hlist.
    change (Auth.r_email body) with "alice@example.com" in Hlist.
    rewrite Hregister, Hlist. split; reflexivity.
Defined.

(** X16: Alice's task 1 has subtask 11 when the admin deletes her account. *)
Lemma deleted_user_leaves_subtasks_behind_witness :
  let db :=
    mkDb [Scenario.root; Scenario.alice] [] []
         [Scenario.static 1 1 10] [Subtask.mk 11 "A" false "" 1] [] in
  let db' := snd (AdminUsers.deleteUser db Scenario.root 7) in
  tasks db' = [] /\ subtasks db' = [Subtask.mk 11 "A" false "" 1]
  /\ status (fst (Subtasks.delete db' Scenario.alice 11)) = 500%nat
  /\ status (fst (Subtasks.put db' Scenario.root 11
                    (Subtasks.mkUpdateBody [] None (Some Js.JsonTrue) None
                       None)))
     = 500%nat.
Proof.
  intros db db'.
  destruct (deleted_user_leaves_subtasks_behind db Scenario.root 7 11
              (Subtask.mk 11 "A" false "" 1) (Scenario.static 1 1 10))
    as [_ [_ Hlost]].
  - simpl. concrete_NoDup.
  - reflexivity.
  - reflexivity.
  - reflexivity.
  - reflexivity.
  - split; [reflexivity|]. split; [reflexivity|]. fold db' in Hlost. split.
    + destruct (Hlost Scenario.alice
                  (Subtasks.mkUpdateBody [] None None None None) eq_refl)
        as [_ Hdelete].
      rewrite Hdelete. reflexivity.
    + destruct (Hlost Scenario.root
                  (Subtasks.mkUpdateBody [] None (Some Js.JsonTrue) None
                     None) eq_refl)
        as [Hput _].
      rewrite Hput. reflexivity.
Defined.

(** The store a successful [POST /admin/reset-codes] leaves. *)
Lemma postResetCodes_issued (db : Db) (user : User.t)
    (body : Admin.ResetCodeBody) (random : nat -> Js.Double.t) (fuel : nat)
    (oid : ObjectId) (now : Date) (response : Response) (db' : Db) :
  Admin.postResetCodes db user body random fuel oid now
    = Some (response, db') ->
  status response = 201%nat ->
  exists code account entry,
    Js.find (fun u => (User.email u =? Admin.rc_email body)%string) (users db)
      = Some account
    /\ Js.find (fun w => (Whitelist.email w =? Admin.rc_email body)%string)
               (whitelist db) = Some entry
    /\ db' = withResetCodes db
               (Admin.expireUnused (resetCodes db) (Admin.rc_email body) now
                ++ [ResetCode.mk oid code (Admin.rc_email body)
                      (User._id user) false None
                      (now + 24 * 60 * 60 * 1000)])
    /\ (forall rc,
          In rc (Admin.expireUnused (resetCodes db) (Admin.rc_email body) now)
          -> (ResetCode.code rc =? code)%string = false)
    /\ (exists k, code = Admin.generateResetCode (random k)).
Proof.
  unfold Admin.postResetCodes, Admin.createResetCode. intros Hrun Hok.
  destruct (negb (Admin.adminAuth user));
    [injection Hrun as <- <-; discriminate|].
  destruct (negb (isEmpty (Admin.rc_errors body)));
    [injection Hrun as <- <-; discriminate|].
  destruct (Js.find _ (users db)) as [account|];
    [|injection Hrun as <- <-; discriminate].
  destruct (Js.find _ (whitelist db)) as [entry|];
    [|injection Hrun as <- <-; discriminate].
  destruct (Admin.uniqueCode fuel random 0 _) as [code|] eqn:Ecode;
    [|discriminate].
  destruct (existsb _ _) eqn:Etaken;
    injection Hrun as <- <-; [discriminate|].
  exists code, account, entry. repeat (split; [reflexivity|]). split.
  - intros rc Hrc.
    destruct (ResetCode.code rc =? code)%string eqn:Eq; [|reflexivity].
    assert (Hex : existsb (fun x => (ResetCode.code x =? code)%string)
                    (Admin.expireUnused (resetCodes db) (Admin.rc_email body)
                       now) = true).
    { apply existsb_exists. exists rc. split; assumption. }
    cbn [ResetCode.code] in Etaken. congruence.
  - apply uniqueCode_free in Ecode. apply Ecode.
Qed.

Lemma expireUnused_ids (coll : list ResetCode.t) (email : string)
    (now : Date) :
  map ResetCode._id (Admin.expireUnused coll email now)
  = map ResetCode._id coll.
Proof.
  unfold Admin.expireUnused. rewrite map_map. apply map_ext.
  intros rc. destruct (_ && _); reflexivity.
Qed.

Lemma save_elsewhere (coll : list ResetCode.t) (id : ObjectId)
    (doc : ResetCode.t) :
  ~ In id (map ResetCode._id coll) ->
  map (fun rc => if (ResetCode._id rc =? id)%nat then doc else rc) coll
  = coll.
Proof.
  intros Hfresh. rewrite <- (map_id coll) at 2. apply map_ext_in.
  intros rc Hrc.
  destruct (ResetCode._id rc =? id)%nat eqn:E; [|reflexivity].
  exfalso. apply Hfresh. apply Nat.eqb_eq in E. rewrite <- E.
  apply in_map, Hrc.
Qed.

Section ResetFacts.
Variable hash : string -> string.

(** X17.  A code issued by [POST /admin/reset-codes] resets the password
    for 24 hours and not a millisecond longer: with the issued code,
    [POST /auth/reset-password] answers 200 at every instant before
    [now + 24h], after which the email has no unused code left; from
    [now + 24h] on it answers 400 and changes nothing. *)
Theorem issued_code_resets_for_a_day (db : Db) (admin : User.t)
    (body : Admin.ResetCodeBody) (random : nat -> Js.Double.t) (fuel : nat)
    (oid : ObjectId) (now : Date) (response : Response) (db1 : Db) :
  ~ In oid (map ResetCode._id (resetCodes db)) ->
  Admin.postResetCodes db admin body random fuel oid now
    = Some (response, db1) ->
  status response = 201%nat ->
  exists code,
    (exists k, code = Admin.generateResetCode (random k))
    /\ forall (now' : Date) (newPassword : string),
         let attempt :=
           Auth.resetPassword hash db1
             (Auth.mkResetPasswordBody [] (Admin.rc_email body) code
                newPassword) now' in
         (now' < now + 24 * 60 * 60 * 1000 ->
          status (fst attempt) = 200%nat
          /\ Spec.unusedFor (resetCodes (snd attempt)) (Admin.rc_email body)
             = [])
         /\ (now + 24 * 60 * 60 * 1000 <= now' ->
             attempt = (mkResponse 400 "Invalid or expired access code", db1)).
Proof.
  intros Hfresh Hrun Hok.
  destruct (postResetCodes_issued _ _ _ _ _ _ _ _ _ Hrun Hok)
    as [code [account [entry [Haccount [Hentry [-> [Hfree Hdrawn]]]]]]].
  exists code. split; [exact Hdrawn|]. intros now' newPassword.
  set (expired := Admin.expireUnused (resetCodes db) (Admin.rc_email body)
                    now) in *.
  set (issued := ResetCode.mk oid code (Admin.rc_email body) (User._id admin)
                   false None (now + 24 * 60 * 60 * 1000)).
  cbv zeta. unfold Auth.resetPassword.
  cbn [Auth.p_errors Auth.p_email Auth.p_code Auth.p_newPassword isEmpty negb
       users whitelist resetCodes withResetCodes].
  rewrite Haccount, Hentry.
  assert (Hmiss : forall rc, In rc expired ->
            (ResetCode.code rc =? code)%string
            && (ResetCode.email rc =? Admin.rc_email body)%string
            && negb (ResetCode.isUsed rc) && (now' <? ResetCode.expiresAt rc)
            = false).
  { intros rc Hrc. rewrite (Hfree rc Hrc). reflexivity. }
  split.
  - intros Hlive. rewrite find_snoc_fresh; [|exact Hmiss|].
    2:{ unfold issued.
        cbn [ResetCode.code ResetCode.email ResetCode.isUsed
             ResetCode.expiresAt negb].
        rewrite !String.eqb_refl. apply Z.ltb_lt in Hlive. rewrite Hlive.
        reflexivity. }
    cbn [fst snd status resetCodes withResetCodes withUsers].
    split; [reflexivity|].
    rewrite map_app, save_elsewhere.
    + cbn [map ResetCode._id issued]. rewrite Nat.eqb_refl.
      rewrite unusedFor_app. unfold expired. rewrite expireUnused_none.
      unfold Spec.unusedFor. cbn [filter ResetCode.email ResetCode.isUsed].
      rewrite String.eqb_refl. reflexivity.
    + unfold expired. rewrite expireUnused_ids. exact Hfresh.
  - intros Hlate. rewrite find_app_miss.
    + destruct (Js.find _ expired) as [rc|] eqn:Efound; [|reflexivity].
      apply find_In in Efound. destruct Efound as [Hin Hhit].
      rewrite (Hmiss rc Hin) in Hhit. discriminate.
    + unfold issued.
      cbn [ResetCode.code ResetCode.email ResetCode.isUsed
           ResetCode.expiresAt negb].
      apply andb_false_iff. right. apply Z.ltb_ge. exact Hlate.
Qed.

Lemma account_survives_save (coll : list User.t) (email : string)
    (account saved : User.t) :
  Js.find (fun u => (User.email u =? email)%string) coll = Some account ->
  User.email saved = email ->
  exists again,
    Js.find (fun u => (User.email u =? email)%string)
            (map (fun u => if (User._id u =? User._id account)%nat
                           then saved else u) coll)
    = Some again.
Proof.
  intros Hfind Hemail.
  destruct (Js.find _ (map _ coll)) as [again|] eqn:Eagain;
    [exists again; reflexivity|].
  exfalso. apply find_In in Hfind. destruct Hfind as [Hin _].
  unfold Js.find in Eagain.
  assert (Hsaved : In saved (map (fun u =>
                      if (User._id u =? User._id account)%nat
                      then saved else u) coll)).
  { apply in_map_iff. exists account. rewrite Nat.eqb_refl. auto. }
  apply (find_none _ _ Eagain) in Hsaved.
  rewrite Hemail, String.eqb_refl in Hsaved. discriminate.
Qed.

(** X18.  A reset code works once.  With codes unique in the collection
    (the schema's unique index), after [POST /auth/reset-password] has
    answered 200, every further request with the same email and code is
    answered 400 and changes nothing, at whatever time and with whatever
    new password. *)
Theorem reset_code_works_once (db : Db) (body : Auth.ResetPasswordBody)
    (now : Date) :
  NoDup (map ResetCode.code (resetCodes db)) ->
  status (fst (Auth.resetPassword hash db body now)) = 200%nat ->
  forall (body' : Auth.ResetPasswordBody) (now' : Date),
    Auth.p_errors body' = [] ->
    Auth.p_email body' = Auth.p_email body ->
    Auth.p_code body' = Auth.p_code body ->
    Auth.resetPassword hash (snd (Auth.resetPassword hash db body now)) body'
      now'
    = (mkResponse 400 "Invalid or expired access code",
       snd (Auth.resetPassword hash db body now)).
Proof.
  intros Hcodes Hok body' now' Herr Hemail Hcode.
  destruct (Auth.resetPassword hash db body now) as [response db1] eqn:Hrun.
  cbn [fst snd] in *. unfold Auth.resetPassword in Hrun.
  destruct (negb (isEmpty (Auth.p_errors body)));
    [injection Hrun as <- <-; discriminate|].
  destruct (Js.find _ (users db)) as [account|] eqn:Eaccount;
    [|injection Hrun as <- <-; discriminate].
  destruct (Js.find _ (whitelist db)) as [entry|] eqn:Eentry;
    [|injection Hrun as <- <-; discriminate].
  destruct (Js.find _ (resetCodes db)) as [resetCode|] eqn:Efound;
    [|injection Hrun as <- <-; discriminate].
  injection Hrun as <- <-. clear Hok.
  unfold Auth.resetPassword. rewrite Herr, Hemail, Hcode.
  cbn [isEmpty negb users whitelist resetCodes withUsers withResetCodes].
  destruct (account_survives_save (users db) (Auth.p_email body) account
              (User.mk (User._id account) (User.name account)
                 (User.email account) (hash (Auth.p_newPassword body))
                 (User.isAdmin account)) Eaccount) as [again Hagain].
  { apply find_In in Eaccount. destruct Eaccount as [_ He].
    apply String.eqb_eq in He. exact He. }
  rewrite Hagain, Eentry.
  destruct (Js.find _ (map _ (resetCodes db))) as [rc|] eqn:Esecond;
    [|reflexivity].
  exfalso. apply find_In in Esecond. destruct Esecond as [Hin Hhit].
  apply find_In in Efound. destruct Efound as [Hin0 Hhit0].
  apply in_map_iff in Hin. destruct Hin as [old [Hsaved Hold]].
  destruct (ResetCode._id old =? ResetCode._id resetCode)%nat eqn:Eid.
  - subst rc. cbn [ResetCode.isUsed negb] in Hhit.
    rewrite andb_false_r in Hhit. discriminate.
  - subst rc.
    assert (old = resetCode).
    { apply (NoDup_map_inj ResetCode.code (resetCodes db));
        [assumption..|].
      repeat (apply andb_true_iff in Hhit; destruct Hhit as [Hhit ?]).
      repeat (apply andb_true_iff in Hhit0; destruct Hhit0 as [Hhit0 ?]).
      apply String.eqb_eq in Hhit, Hhit0. congruence. }
    subst old. rewrite Nat.eqb_refl in Eid. discriminate.
Qed.

(** X19.  [POST /auth/verify-reset-code] is a dry run of the reset: for the
    same email and code, both bodies valid, it answers with the status the
    reset would answer at that instant. *)
Theorem verify_predicts_the_reset (db : Db) (probe : AuthCodes.VerifyBody)
    (body : Auth.ResetPasswordBody) (now : Date) :
  AuthCodes.v_errors probe = [] -> Auth.p_errors body = [] ->
  AuthCodes.v_email probe = Auth.p_email body ->
  AuthCodes.v_code probe = Auth.p_code body ->
  status (AuthCodes.verifyResetCode db probe now)
  = status (fst (Auth.resetPassword hash db body now)).
Proof.
  intros Hv Hp Hemail Hcode.
  unfold AuthCodes.verifyResetCode, Auth.resetPassword.
  rewrite Hv, Hp, Hemail, Hcode. cbn [isEmpty negb].
  destruct (Js.find _ (users db)); [|reflexivity].
  destruct (Js.find _ (whitelist db)); [|reflexivity].
  destruct (Js.find _ (resetCodes db)); reflexivity.
Qed.

End ResetFacts.

(** X17 for Alice: the admin issues a code at time 1000. *)
Lemma issued_code_resets_for_a_day_witness :
  let hash := fun s : string => ("#" ++ s)%string in
  let entry := Whitelist.mk 3 "alice@example.com" 1 true (Some 7%nat) in
  let db := mkDb [Scenario.root; Scenario.alice] [entry] [] [] [] [] in
  let body := Admin.mkResetCodeBody [] "alice@example.com" in
  exists (code : string) (db1 : Db),
    Admin.postResetCodes db Scenario.root body (fun _ => Js.Double.quarter) 1 60 1000
      = Some (mkResponse 201 "Reset code generated successfully", db1)
    /\ status (fst (Auth.resetPassword hash db1
                      (Auth.mkResetPasswordBody [] "alice@example.com" code
                         "secret2") 86400999)) = 200%nat
    /\ Auth.resetPassword hash db1
         (Auth.mkResetPasswordBody [] "alice@example.com" code "secret2")
         86401000
       = (mkResponse 400 "Invalid or expired access code", db1).
Proof.
  intros hash entry db body.
  destruct (Admin.postResetCodes db Scenario.root body (fun _ => Js.Double.quarter)
              1 60 1000) as [[response db1]|] eqn:Hrun;
    [|vm_compute in Hrun; discriminate].
  assert (Hresponse : response
                      = mkResponse 201 "Reset code generated successfully").
  { pose proof Hrun as Hvalue. vm_compute in Hvalue.
    injection Hvalue as <- _. reflexivity. }
  assert (Hok : status response = 201%nat) by (rewrite Hresponse; reflexivity).
  destruct (issued_code_resets_for_a_day hash db Scenario.root body
              (fun _ => Js.Double.quarter) 1%nat 60%nat 1000 response db1)
    as [code [_ Hday]].
  - simpl. intros [].
  - exact Hrun.
  - exact Hok.
  - exists code, db1. rewrite Hresponse. split; [reflexivity|].
    destruct (Hday 86400999 "secret2") as [Hlive _].
    destruct (Hday 86401000 "secret2") as [_ Hlate].
    split.
    + apply Hlive. reflexivity.
    + apply Hlate. discriminate.
Defined.

(** X18 and X19 on a store with one code for Alice that expires at 5000. *)
Lemma reset_code_works_once_witness :
  let hash := fun s : string => ("#" ++ s)%string in
  let entry := Whitelist.mk 3 "alice@example.com" 1 true (Some 7%nat) in
  let db :=
    mkDb [Scenario.root; Scenario.alice] [entry]
         [ResetCode.mk 60 "123456" "alice@example.com" 1 false None 5000]
         [] [] [] in
  let body :=
    Auth.mkResetPasswordBody [] "alice@example.com" "123456" "secret2" in
  status (fst (Auth.resetPassword hash db body 2000)) = 200%nat
  /\ status (fst (Auth.resetPassword hash
                    (snd (Auth.resetPassword hash db body 2000)) body 2001))
     = 400%nat.
Proof.
  intros hash entry db body. split; [reflexivity|].
  rewrite (reset_code_works_once hash db body 2000); [reflexivity|..].
  - simpl. concrete_NoDup.
  - reflexivity.
  - reflexivity.
  - reflexivity.
  - reflexivity.
Defined.

Lemma verify_predicts_the_reset_witness :
  let hash := fun s : string => ("#" ++ s)%string in
  let entry := Whitelist.mk 3 "alice@example.com" 1 true (Some 7%nat) in
  let db :=
    mkDb [Scenario.root; Scenario.alice] [entry]
         [ResetCode.mk 60 "123456" "alice@example.com" 1 false None 5000]
         [] [] [] in
  let probe := AuthCodes.mkVerifyBody [] "alice@example.com" "123456" in
  let body :=
    Auth.mkResetPasswordBody [] "alice@example.com" "123456" "secret2" in
  status (AuthCodes.verifyResetCode db probe 2000)
  = status (fst (Auth.resetPassword hash db body 2000))
  /\ status (AuthCodes.verifyResetCode db probe 2000) = 200%nat
  /\ status (AuthCodes.verifyResetCode db probe 5000)
     = status (fst (Auth.resetPassword hash db body 5000))
  /\ status (AuthCodes.verifyResetCode db probe 5000) = 400%nat.
Proof.
  intros hash entry db probe body. split; [|split; [|split]].
  - apply (verify_predicts_the_reset hash db probe body 2000); reflexivity.
  - reflexivity.
  - apply (verify_predicts_the_reset hash db probe body 5000); reflexivity.
  - reflexivity.
Defined.

(* ===================================================================== *)
(** ** Beyond the claims: a move and the opposite move *)
(* ===================================================================== *)

Section StrictSort.
Context {A : Type}.
Variable cmp : A -> A -> Z.
Hypothesis cmp_anti : forall a b, cmp b a = - cmp a b.

(** An arrangement in strictly ascending order is the only ordered one. *)
Lemma ordered_arrangement_unique (s l : list A) :
  StronglySorted (fun a b => cmp a b <= 0) s ->
  StronglySorted (fun a b => cmp a b < 0) l ->
  Permutation s l -> s = l.
Proof.
  intros Hs Hl. revert s Hs.
  induction Hl as [|x r Hr IH Hx]; intros s Hs Hperm.
  - apply Permutation_sym, Permutation_nil in Hperm. exact Hperm.
  - destruct s as [|y s'].
    + apply Permutation_nil in Hperm. discriminate.
    + inversion Hs as [|? ? Hs' Hy]; subst.
      assert (Hxy : y = x).
      { assert (Hyin : In y (x :: r)).
        { eapply Permutation_in; [exact Hperm|left; reflexivity]. }
        assert (Hxin : In x (y :: s')).
        { eapply Permutation_in; [apply Permutation_sym, Hperm|].
          left; reflexivity. }
        destruct Hyin as [->|Hyr]; [reflexivity|].
        destruct Hxin as [->|Hxs]; [reflexivity|].
        rewrite Forall_forall in Hx, Hy.
        pose proof (Hx y Hyr). pose proof (Hy x Hxs).
        pose proof (cmp_anti x y). lia. }
      subst y. f_equal. apply IH; [exact Hs'|].
      eapply Permutation_cons_inv, Hperm.
Qed.

End StrictSort.

Lemma findIndex_at {A : Type} (p : A -> bool) (pre rest : list A) (t : A) :
  p t = true -> (forall y, In y pre -> p y = false) ->
  Js.findIndex p (pre ++ t :: rest) = Some (List.length pre).
Proof.
  intros Pt. induction pre as [|y pre IH]; intros Hpre; simpl.
  - rewrite Pt. reflexivity.
  - rewrite (Hpre y) by (simpl; auto).
    rewrite IH by (intros; apply Hpre; simpl; auto). reflexivity.
Qed.

Lemma nth_error_at {A : Type} (pre rest : list A) (t : A) :
  nth_error (pre ++ t :: rest) (List.length pre) = Some t.
Proof. induction pre as [|y pre IH]; simpl; [reflexivity|exact IH]. Qed.

Lemma adjacent_split {A : Type} (l : list A) (i : nat) (a b : A) :
  nth_error l i = Some a -> nth_error l (S i) = Some b ->
  exists pre post, l = pre ++ a :: b :: post.
Proof.
  revert i. induction l as [|x l IH]; intros i Ha Hb.
  - destruct i; discriminate.
  - destruct i as [|i].
    + simpl in Ha. injection Ha as ->. destruct l as [|y l]; [discriminate|].
      simpl in Hb. injection Hb as ->. exists [], l. reflexivity.
    + simpl in Ha, Hb. destruct (IH i Ha Hb) as [pre [post ->]].
      exists (x :: pre), post. reflexivity.
Qed.

Lemma setOrder_same (t : Task.t) : Task.setOrder t (Task.order t) = t.
Proof. destruct t; reflexivity. Qed.

Lemma sorted_strictly (l : list Task.t) :
  NoDup (map Task.order l) ->
  StronglySorted (fun a b => Tasks.cmpOrder a b <= 0) l ->
  StronglySorted (fun a b => Task.order a < Task.order b) l.
Proof.
  intros Hnd Hs. induction Hs as [|x r Hr IH Hx]; constructor.
  - apply IH. inversion Hnd; assumption.
  - simpl in Hnd. apply NoDup_cons_iff in Hnd. destruct Hnd as [Hxr _].
    rewrite Forall_forall in *. intros y Hy. specialize (Hx y Hy).
    unfold Tasks.cmpOrder in Hx.
    assert (Task.order x <> Task.order y).
    { intros Heq. apply Hxr. rewrite Heq. apply in_map, Hy. }
    lia.
Qed.

Lemma strictly_by_orders (l l' : list Task.t) :
  map Task.order l = map Task.order l' ->
  StronglySorted (fun a b => Task.order a < Task.order b) l ->
  StronglySorted (fun a b => Task.order a < Task.order b) l'.
Proof.
  intros Heq Hs. revert l' Heq.
  induction Hs as [|x r Hr IH Hx]; intros l' Heq.
  - destruct l'; [constructor|discriminate].
  - destruct l' as [|x' r']; [discriminate|].
    simpl in Heq. injection Heq as Hx' Hr'.
    constructor; [apply IH, Hr'|].
    apply Forall_forall. intros y Hy. apply (in_map Task.order) in Hy.
    rewrite <- Hr' in Hy. apply in_map_iff in Hy.
    destruct Hy as [z [Hz Hzin]]. rewrite Forall_forall in Hx.
    specialize (Hx z Hzin). lia.
Qed.

(** The two saves of a swap, in either order, on a collection with unique
    ids. *)
Lemma save_pair (coll : list Task.t) (a b : Task.t) :
  NoDup (map Task._id coll) -> In a coll -> In b coll ->
  Task._id a <> Task._id b ->
  fold_left Tasks.saveTask
    [Task.setOrder a (Task.order b); Task.setOrder b (Task.order a)] coll
  = map (Inv.exchangeOrders a b) coll
  /\ fold_left Tasks.saveTask
       [Task.setOrder b (Task.order a); Task.setOrder a (Task.order b)] coll
     = map (Inv.exchangeOrders a b) coll.
Proof.
  intros Hnd Ha Hb Hab.
  assert (Hsame : forall t x, In t coll -> In x coll ->
            (Task._id t =? Task._id x)%nat = true -> t = x).
  { intros t x Ht Hx Heq. apply Nat.eqb_eq in Heq.
    apply (NoDup_map_inj Task._id coll); assumption. }
  apply Nat.eqb_neq in Hab.
  assert (Hba : (Task._id b =? Task._id a)%nat = false)
    by (rewrite Nat.eqb_sym; exact Hab).
  simpl. unfold Tasks.saveTask. rewrite !map_map.
  split; apply map_ext_in; intros t Ht; unfold Inv.exchangeOrders;
    cbn [Task._id Task.setOrder];
    destruct (Task._id t =? Task._id a)%nat eqn:Eta;
    destruct (Task._id t =? Task._id b)%nat eqn:Etb;
    cbn [Task._id Task.setOrder]; rewrite ?Hab, ?Hba, ?Eta, ?Etb;
    try reflexivity;
    try reflexivity;
    try (rewrite (Hsame t a Ht Ha Eta); reflexivity);
    try (rewrite (Hsame t b Ht Hb Etb); reflexivity);
    exfalso; rewrite (Hsame t a Ht Ha Eta) in Etb; congruence.
Qed.

(** Saving the two documents as they were undoes the exchange. *)
Lemma exchange_back (coll : list Task.t) (a b : Task.t) :
  NoDup (map Task._id coll) -> In a coll -> In b coll ->
  Task._id a <> Task._id b ->
  fold_left Tasks.saveTask [a; b] (map (Inv.exchangeOrders a b) coll) = coll
  /\ fold_left Tasks.saveTask [b; a] (map (Inv.exchangeOrders a b) coll)
     = coll.
Proof.
  intros Hnd Ha Hb Hab.
  assert (Hsame : forall t x, In t coll -> In x coll ->
            (Task._id t =? Task._id x)%nat = true -> x = t).
  { intros t x Ht Hx Heq. apply Nat.eqb_eq in Heq. symmetry.
    apply (NoDup_map_inj Task._id coll); assumption. }
  apply Nat.eqb_neq in Hab.
  assert (Hba : (Task._id b =? Task._id a)%nat = false)
    by (rewrite Nat.eqb_sym; exact Hab).
  simpl. unfold Tasks.saveTask. rewrite !map_map.
  split; rewrite <- (map_id coll) at 2; apply map_ext_in; intros t Ht;
    unfold Inv.exchangeOrders;
    destruct (Task._id t =? Task._id a)%nat eqn:Eta;
    destruct (Task._id t =? Task._id b)%nat eqn:Etb;
    repeat (progress (cbn [Task._id Task.setOrder];
                      rewrite ?Eta, ?Etb, ?Hab, ?Hba));
    try reflexivity;
    try (apply (Hsame t a Ht Ha Eta));
    try (apply (Hsame t b Ht Hb Etb)).
Qed.

Lemma exchange_keeps (a b t : Task.t) :
  Task._id (Inv.exchangeOrders a b t) = Task._id t
  /\ Task.userId (Inv.exchangeOrders a b t) = Task.userId t
  /\ exists o, Inv.exchangeOrders a b t = Task.setOrder t o.
Proof.
  unfold Inv.exchangeOrders.
  destruct (Task._id t =? Task._id a)%nat;
    [|destruct (Task._id t =? Task._id b)%nat].
  - repeat split. eexists; reflexivity.
  - repeat split. eexists; reflexivity.
  - repeat split. exists (Task.order t). symmetry. apply setOrder_same.
Qed.

Lemma exchange_elsewhere (a b : Task.t) (l : list Task.t) :
  (forall y, In y l -> Task._id y <> Task._id a /\ Task._id y <> Task._id b) ->
  map (Inv.exchangeOrders a b) l = l.
Proof.
  intros Hl. rewrite <- (map_id l) at 2. apply map_ext_in. intros y Hy.
  destruct (Hl y Hy) as [Hya Hyb]. apply Nat.eqb_neq in Hya, Hyb.
  unfold Inv.exchangeOrders. rewrite Hya, Hyb. reflexivity.
Qed.

Lemma filter_exchange (p : Task.t -> bool) (a b : Task.t)
    (coll : list Task.t) :
  (forall t o, p (Task.setOrder t o) = p t) ->
  filter p (map (Inv.exchangeOrders a b) coll)
  = map (Inv.exchangeOrders a b) (filter p coll).
Proof.
  intros Hp. induction coll as [|t coll IH]; simpl; [reflexivity|].
  destruct (exchange_keeps a b t) as [_ [_ [o Ho]]].
  rewrite Ho at 1. rewrite Hp.
  destruct (p t); simpl; rewrite IH; reflexivity.
Qed.

(** Two neighbours of the sorted group: moving the later one up, or the
    earlier one down, succeeds and saves the two with their orders traded. *)
Lemma reorderGroup_adjacent (group pre post : list Task.t) (a b : Task.t) :
  NoDup (map Task._id group) -> Tasks.hasProperOrders group = true ->
  Js.sort Tasks.cmpOrder group = pre ++ a :: b :: post ->
  TaskModel.validates a = true -> TaskModel.validates b = true ->
  Tasks.reorderGroup group (Task._id b) "up"
  = (mkResponse 200 "Task order updated successfully",
     [Task.setOrder b (Task.order a); Task.setOrder a (Task.order b)])
  /\ Tasks.reorderGroup group (Task._id a) "down"
     = (mkResponse 200 "Task order updated successfully",
        [Task.setOrder a (Task.order b); Task.setOrder b (Task.order a)]).
Proof.
  intros Hids Hproper Hsorted Hva Hvb.
  assert (Hsids : NoDup (map Task._id (pre ++ a :: b :: post))).
  { rewrite <- Hsorted. apply sort_NoDup_map, Hids. }
  assert (Hlen : List.length group
                 = (List.length pre + S (S (List.length post)))%nat).
  { rewrite <- (sort_length Tasks.cmpOrder group), Hsorted, length_app.
    reflexivity. }
  rewrite map_app in Hsids. cbn [map] in Hsids.
  assert (Hpre : forall y, In y pre ->
            Task._id y <> Task._id a /\ Task._id y <> Task._id b).
  { intros y Hy. apply (in_map Task._id) in Hy.
    split; intros Heq; rewrite Heq in Hy.
    - apply (NoDup_remove_2 _ _ _ Hsids), in_or_app. left. exact Hy.
    - pose proof (NoDup_remove_1 _ _ _ Hsids) as Hrest.
      apply (NoDup_remove_2 _ _ _ Hrest), in_or_app. left. exact Hy. }
  assert (Hab : Task._id a <> Task._id b).
  { apply NoDup_app_remove_l in Hsids. apply NoDup_cons_iff in Hsids.
    intros Heq. apply (proj1 Hsids). rewrite Heq. left. reflexivity. }
  rewrite !reorderGroup_proper by exact Hproper.
  assert (Hmany : (List.length group <=? 1)%nat = false)
    by (apply Nat.leb_gt; lia).
  rewrite Hmany, Hsorted. split.
  - replace (pre ++ a :: b :: post) with ((pre ++ [a]) ++ b :: post)
      by (rewrite <- app_assoc; reflexivity).
    rewrite findIndex_at.
    + rewrite length_app. cbn [List.length]. rewrite Nat.add_1_r.
      unfold Tasks.targetIndex. cbn [String.eqb Ascii.eqb Bool.eqb andb].
      cbn [Nat.ltb Nat.leb Nat.sub]. rewrite Nat.sub_0_r.
      replace (S (List.length pre)) with (List.length (pre ++ [a]))
        by (rewrite length_app; cbn [List.length]; lia).
      rewrite nth_error_at.
      rewrite <- app_assoc. cbn [app]. rewrite nth_error_at.
      rewrite Hva, Hvb. reflexivity.
    + apply Nat.eqb_refl.
    + intros y Hy. apply Nat.eqb_neq. apply in_app_or in Hy.
      destruct Hy as [Hy|[<-|[]]]; [apply Hpre, Hy|exact Hab].
  - rewrite findIndex_at.
    + unfold Tasks.targetIndex. cbn [String.eqb Ascii.eqb Bool.eqb andb].
      assert (Hroom : (List.length pre
                       <? List.length (pre ++ a :: b :: post) - 1)%nat = true).
      { apply Nat.ltb_lt. rewrite length_app. cbn [List.length]. lia. }
      rewrite Hroom. rewrite nth_error_at.
      replace (pre ++ a :: b :: post) with ((pre ++ [a]) ++ b :: post)
        by (rewrite <- app_assoc; reflexivity).
      replace (List.length pre + 1)%nat with (List.length (pre ++ [a]))
        by (rewrite length_app; reflexivity).
      rewrite nth_error_at. rewrite Hva, Hvb. reflexivity.
    + apply Nat.eqb_refl.
    + intros y Hy. apply Nat.eqb_neq, Hpre, Hy.
Qed.

(** A successful move has a neighbour to trade with. *)
Lemma reorderGroup_moved (group : list Task.t) (id : ObjectId)
    (direction : string) :
  Tasks.hasProperOrders group = true ->
  status (fst (Tasks.reorderGroup group id direction)) = 200%nat ->
  exists pre a b post,
    Js.sort Tasks.cmpOrder group = pre ++ a :: b :: post
    /\ ((direction = "up" /\ Task._id b = id)
        \/ (direction = "down" /\ Task._id a = id))
    /\ TaskModel.validates a = true /\ TaskModel.validates b = true.
Proof.
  intros Hproper. rewrite reorderGroup_proper by exact Hproper.
  destruct (List.length group <=? 1)%nat; [discriminate|].
  set (sorted := Js.sort Tasks.cmpOrder group).
  destruct (Js.findIndex _ sorted) as [ci|] eqn:Efind; [|discriminate].
  destruct (Tasks.targetIndex direction ci (List.length sorted)) as [ti|]
    eqn:Etarget; [|discriminate].
  destruct (nth_error sorted ci) as [current|] eqn:Ecur; [|discriminate].
  destruct (nth_error sorted ti) as [target|] eqn:Etgt; [|discriminate].
  destruct (TaskModel.validates current) eqn:Hvc; [|discriminate].
  destruct (TaskModel.validates target) eqn:Hvt; [|discriminate].
  intros _.
  destruct (findIndex_Some _ _ _ Efind) as [x [Ex Hx]].
  rewrite Ecur in Ex. injection Ex as <-. apply Nat.eqb_eq in Hx.
  destruct (targetIndex_Some _ _ _ _ Etarget)
    as [[Hdir [Hpos ->]]|[Hdir [Hlast ->]]].
  - destruct ci as [|ci]; [lia|].
    replace (S ci - 1)%nat with ci in Etgt by lia.
    destruct (adjacent_split sorted ci target current Etgt Ecur)
      as [pre [post Hsplit]].
    exists pre, target, current, post. split; [exact Hsplit|].
    split; [left|]; auto.
  - rewrite Nat.add_1_r in Etgt.
    destruct (adjacent_split sorted ci current target Ecur Etgt)
      as [pre [post Hsplit]].
    exists pre, current, target, post. split; [exact Hsplit|].
    split; [right|]; auto.
Qed.

Lemma neighbours_apart (pre post : list Task.t) (a b : Task.t) :
  NoDup (map Task._id (pre ++ a :: b :: post)) ->
  Task._id a <> Task._id b
  /\ forall y, In y pre \/ In y post ->
       Task._id y <> Task._id a /\ Task._id y <> Task._id b.
Proof.
  rewrite map_app. cbn [map]. intros Hnd.
  pose proof (NoDup_remove_2 _ _ _ Hnd) as Ha.
  pose proof (NoDup_remove_1 _ _ _ Hnd) as Hrest.
  pose proof (NoDup_remove_2 _ _ _ Hrest) as Hb.
  split.
  - intros Heq. apply Ha, in_or_app. right. left. symmetry. exact Heq.
  - intros y Hy. split; intros Heq.
    + apply Ha. rewrite <- Heq. apply in_or_app.
      destruct Hy as [Hy|Hy]; [left|right; right]; apply in_map, Hy.
    + apply Hb. rewrite <- Heq. apply in_or_app.
      destruct Hy as [Hy|Hy]; [left|right]; apply in_map, Hy.
Qed.

Lemma exchanged_group (coll : list Task.t) (p : Task.t -> bool)
    (pre post : list Task.t) (a b : Task.t) :
  NoDup (map Task._id coll) ->
  (forall t o, p (Task.setOrder t o) = p t) ->
  Tasks.hasProperOrders
    (Js.sort TaskModel.cmpOrderNewest (filter p coll)) = true ->
  Js.sort Tasks.cmpOrder (Js.sort TaskModel.cmpOrderNewest (filter p coll))
    = pre ++ a :: b :: post ->
  let group' :=
    Js.sort TaskModel.cmpOrderNewest
      (filter p (map (Inv.exchangeOrders a b) coll)) in
  NoDup (map Task._id group')
  /\ Tasks.hasProperOrders group' = true
  /\ Js.sort Tasks.cmpOrder group'
     = pre ++ Task.setOrder b (Task.order a)
           :: Task.setOrder a (Task.order b) :: post.
Proof.
  intros Hids Hp Hproper Hsorted group'.
  set (group := Js.sort TaskModel.cmpOrderNewest (filter p coll)) in *.
  set (ea := Task.setOrder a (Task.order b)).
  set (eb := Task.setOrder b (Task.order a)).
  assert (Hgids : NoDup (map Task._id group))
    by apply sort_NoDup_map, NoDup_map_filter, Hids.
  assert (Hsids : NoDup (map Task._id (pre ++ a :: b :: post)))
    by (rewrite <- Hsorted; apply sort_NoDup_map, Hgids).
  destruct (neighbours_apart pre post a b Hsids) as [Hab Hrest].
  apply hasProperOrders_iff in Hproper. destruct Hproper as [Hpos Horders].
  assert (Hmapped : map (Inv.exchangeOrders a b) (pre ++ a :: b :: post)
                    = pre ++ ea :: eb :: post).
  { rewrite map_app. cbn [map].
    rewrite !exchange_elsewhere by (intros y Hy; apply Hrest; auto).
    unfold Inv.exchangeOrders at 1 2. apply Nat.eqb_neq in Hab.
    rewrite Nat.eqb_refl, Nat.eqb_sym, Hab, Nat.eqb_refl. reflexivity. }
  assert (Hperm : Permutation group' (pre ++ eb :: ea :: post)).
  { unfold group'. rewrite filter_exchange by exact Hp.
    eapply perm_trans; [apply sort_perm|].
    eapply perm_trans.
    { apply Permutation_map. apply Permutation_sym.
      eapply perm_trans; [apply (sort_perm Tasks.cmpOrder group)|].
      apply sort_perm. }
    rewrite Hsorted, Hmapped. apply Permutation_app_head, perm_swap. }
  assert (Horders' : map Task.order (pre ++ eb :: ea :: post)
                     = map Task.order (pre ++ a :: b :: post)).
  { rewrite !map_app. reflexivity. }
  assert (Hperm_orders : Permutation (map Task.order group)
                           (map Task.order group')).
  { eapply perm_trans;
      [|apply Permutation_map, Permutation_sym, Hperm].
    rewrite Horders', <- Hsorted.
    apply Permutation_map, Permutation_sym, sort_perm. }
  split; [|split].
  - unfold group'. rewrite filter_exchange by exact Hp.
    apply sort_NoDup_map. rewrite map_map.
    rewrite (map_ext _ Task._id)
      by (intros t; apply (exchange_keeps a b t)).
    apply NoDup_map_filter, Hids.
  - apply hasProperOrders_iff. split.
    + apply Forall_forall. intros t Ht. apply (in_map Task.order) in Ht.
      eapply Permutation_in in Ht; [|apply Permutation_sym, Hperm_orders].
      apply in_map_iff in Ht. destruct Ht as [t0 [<- Ht0]].
      rewrite Forall_forall in Hpos. apply Hpos, Ht0.
    + eapply Permutation_NoDup; [exact Hperm_orders|exact Horders].
  - apply (ordered_arrangement_unique Tasks.cmpOrder cmpOrder_anti).
    + apply sort_sorted; [apply cmpOrder_total|apply cmpOrder_trans].
    + apply strongly_sorted_impl
        with (R := fun x y => Task.order x < Task.order y).
      { unfold Tasks.cmpOrder. intros; lia. }
      apply (strictly_by_orders (pre ++ a :: b :: post));
        [symmetry; exact Horders'|].
      rewrite <- Hsorted. apply sorted_strictly.
      * apply sort_NoDup_map, Horders.
      * apply sort_sorted; [apply cmpOrder_total|apply cmpOrder_trans].
    + eapply perm_trans; [apply sort_perm|exact Hperm].
Qed.

Section RoundTrip.
Context `{LocalTime}.

Lemma siblingGroup_by_dates (userId : ObjectId) (task : Task.t) :
  exists p : Task.t -> bool,
    (forall t o, p (Task.setOrder t o) = p t)
    /\ (forall coll o,
          Tasks.siblingGroup coll userId (Task.setOrder task o)
          = Js.sort TaskModel.cmpOrderNewest (filter p coll)).
Proof.
  unfold Tasks.siblingGroup, TaskModel.findTasksForDate.
  cbn [Task.startDate Task.endDate Task.setOrder].
  destruct (Task.startDate task) as [s|];
    [destruct (Task.endDate task) as [e|]|].
  - exists (TaskModel.activeOn userId s). split; [|reflexivity].
    intros t o. destruct t; reflexivity.
  - exists (TaskModel.isStaticOf userId). split; [|reflexivity].
    intros t o. destruct t; reflexivity.
  - exists (TaskModel.isStaticOf userId). split; [|reflexivity].
    intros t o. destruct t; reflexivity.
Qed.

(** A successful move on a group with proper orders: the two neighbours and
    the store it leaves. *)
Lemma putOrder_exchanges (db : Db) (user : User.t) (id : ObjectId)
    (direction : string) (task : Task.t) (p : Task.t -> bool) :
  NoDup (map Task._id (tasks db)) ->
  Js.find (fun t => (Task._id t =? id)%nat
                    && (Task.userId t =? User._id user)%nat) (tasks db)
    = Some task ->
  Tasks.siblingGroup (tasks db) (User._id user) task
    = Js.sort TaskModel.cmpOrderNewest (filter p (tasks db)) ->
  Tasks.hasProperOrders
    (Js.sort TaskModel.cmpOrderNewest (filter p (tasks db))) = true ->
  status (fst (Tasks.putOrder db user id direction)) = 200%nat ->
  exists pre a b post,
    Js.sort Tasks.cmpOrder
      (Js.sort TaskModel.cmpOrderNewest (filter p (tasks db)))
    = pre ++ a :: b :: post
    /\ ((direction = "up" /\ Task._id b = id)
        \/ (direction = "down" /\ Task._id a = id))
    /\ In a (tasks db) /\ In b (tasks db) /\ Task._id a <> Task._id b
    /\ TaskModel.validates a = true /\ TaskModel.validates b = true
    /\ Tasks.putOrder db user id direction
       = (mkResponse 200 "Task order updated successfully",
          withTasks db (map (Inv.exchangeOrders a b) (tasks db))).
Proof.
  intros Hids Hfind Hg Hproper Hok.
  assert (Hmoved : exists pre a b post,
            Js.sort Tasks.cmpOrder
              (Js.sort TaskModel.cmpOrderNewest (filter p (tasks db)))
            = pre ++ a :: b :: post
            /\ ((direction = "up" /\ Task._id b = id)
                \/ (direction = "down" /\ Task._id a = id))
            /\ TaskModel.validates a = true
            /\ TaskModel.validates b = true).
  { unfold Tasks.putOrder in Hok.
    destruct (negb (isEmpty (Tasks.directionErrors direction)));
      [discriminate|].
    rewrite Hfind, Hg in Hok.
    apply (reorderGroup_moved _ id direction Hproper).
    destruct (Tasks.reorderGroup _ id direction). exact Hok. }
  destruct Hmoved as [pre [a [b [post [Hsorted [Hdir [Hva Hvb]]]]]]].
  exists pre, a, b, post.
  set (group := Js.sort TaskModel.cmpOrderNewest (filter p (tasks db))) in *.
  assert (Hgids : NoDup (map Task._id group))
    by apply sort_NoDup_map, NoDup_map_filter, Hids.
  assert (Hsids : NoDup (map Task._id (pre ++ a :: b :: post)))
    by (rewrite <- Hsorted; apply sort_NoDup_map, Hgids).
  destruct (neighbours_apart pre post a b Hsids) as [Hab _].
  assert (Hin : forall t, In t (pre ++ a :: b :: post) -> In t (tasks db)).
  { intros t Ht. rewrite <- Hsorted in Ht.
    apply sort_In, sort_In, filter_In in Ht. apply Ht. }
  assert (Ha : In a (tasks db))
    by (apply Hin, in_or_app; right; left; reflexivity).
  assert (Hb : In b (tasks db))
    by (apply Hin, in_or_app; right; right; left; reflexivity).
  destruct (reorderGroup_adjacent group pre post a b Hgids Hproper Hsorted
              Hva Hvb) as [Hup Hdown].
  destruct (save_pair (tasks db) a b Hids Ha Hb Hab) as [Hsave_ab Hsave_ba].
  repeat (split; [assumption|]).
  unfold Tasks.putOrder.
  destruct Hdir as [[-> <-]|[-> <-]];
    (change (negb (isEmpty (Tasks.directionErrors _))) with false;
     cbv iota; rewrite Hfind, Hg; fold group).
  - rewrite Hup, Hsave_ba. reflexivity.
  - rewrite Hdown, Hsave_ab. reflexivity.
Qed.

(** X20.  A move and the opposite move cancel.  When
    [PUT /tasks/:id/order] moves a task of a group with positive, pairwise
    distinct orders (status 200), the same request with the opposite
    direction succeeds as well and gives back the store as it was. *)
Theorem opposite_moves_cancel (db : Db) (user : User.t) (id : ObjectId)
    (direction : string) (task : Task.t) :
  NoDup (map Task._id (tasks db)) ->
  Js.find (fun t => (Task._id t =? id)%nat
                    && (Task.userId t =? User._id user)%nat) (tasks db)
    = Some task ->
  Tasks.hasProperOrders
    (Tasks.siblingGroup (tasks db) (User._id user) task) = true ->
  status (fst (Tasks.putOrder db user id direction)) = 200%nat ->
  Tasks.putOrder (snd (Tasks.putOrder db user id direction)) user id
    (Inv.opposite direction)
  = (mkResponse 200 "Task order updated successfully", db).
Proof.
  intros Hids Hfind Hproper Hok.
  destruct (siblingGroup_by_dates (User._id user) task) as [p [Hp Hgroup]].
  pose proof (Hgroup (tasks db) (Task.order task)) as Hg.
  rewrite setOrder_same in Hg. rewrite Hg in Hproper.
  destruct (putOrder_exchanges db user id direction task p Hids Hfind Hg
              Hproper Hok)
    as [pre [a [b [post
         [Hsorted [Hdir [Ha [Hb [Hab [Hva [Hvb Hfirst]]]]]]]]]]].
  destruct (exchanged_group (tasks db) p pre post a b Hids Hp Hproper Hsorted)
    as [Hgids' [Hproper' Hsorted']].
  destruct (reorderGroup_adjacent _ pre post _ _ Hgids' Hproper' Hsorted')
    as [Hup' Hdown'];
    [rewrite validates_setOrder; exact Hvb
    |rewrite validates_setOrder; exact Hva|].
  assert (Hea : Task.setOrder (Task.setOrder a (Task.order b))
                  (Task.order (Task.setOrder b (Task.order a))) = a)
    by (destruct a, b; reflexivity).
  assert (Heb : Task.setOrder (Task.setOrder b (Task.order a))
                  (Task.order (Task.setOrder a (Task.order b))) = b)
    by (destruct a, b; reflexivity).
  rewrite Hea, Heb in Hup', Hdown'.
  change (Task._id (Task.setOrder a (Task.order b))) with (Task._id a)
    in Hup'.
  change (Task._id (Task.setOrder b (Task.order a))) with (Task._id b)
    in Hdown'.
  destruct (exchange_back (tasks db) a b Hids Ha Hb Hab) as [Hback_ab Hback_ba].
  assert (Hagain : exists o,
            Js.find (fun t => (Task._id t =? id)%nat
                              && (Task.userId t =? User._id user)%nat)
                    (map (Inv.exchangeOrders a b) (tasks db))
            = Some (Task.setOrder task o)).
  { rewrite find_map_same.
    - rewrite Hfind. cbn [option_map].
      destruct (exchange_keeps a b task) as [_ [_ [o Ho]]].
      exists o. rewrite Ho. reflexivity.
    - intros t _. destruct (exchange_keeps a b t) as [-> [-> _]].
      reflexivity. }
  destruct Hagain as [o Hagain].
  rewrite Hfirst. cbn [snd]. unfold Tasks.putOrder.
  rewrite tasks_withTasks, Hagain, Hgroup.
  destruct Hdir as [[-> <-]|[-> <-]];
    (change (negb (isEmpty (Tasks.directionErrors _))) with false; cbv iota).
  - change (Inv.opposite "up") with "down". rewrite Hdown', Hback_ba.
    destruct db; reflexivity.
  - change (Inv.opposite "down") with "up". rewrite Hup', Hback_ab.
    destruct db; reflexivity.
Qed.

Lemma cmpOrderNewest_total (a b : Task.t) :
  TaskModel.cmpOrderNewest a b <= 0 \/ TaskModel.cmpOrderNewest b a <= 0.
Proof.
  unfold TaskModel.cmpOrderNewest. rewrite (Z.eqb_sym (Task.order b)).
  destruct (Task.order a =? Task.order b); cbn [negb]; lia.
Qed.

Lemma cmpOrderNewest_trans (a b c : Task.t) :
  TaskModel.cmpOrderNewest a b <= 0 -> TaskModel.cmpOrderNewest b c <= 0 ->
  TaskModel.cmpOrderNewest a c <= 0.
Proof.
  unfold TaskModel.cmpOrderNewest.
  destruct (Task.order a =? Task.order b) eqn:Eab;
    destruct (Task.order b =? Task.order c) eqn:Ebc;
    destruct (Task.order a =? Task.order c) eqn:Eac; cbn [negb];
    rewrite ?Z.eqb_eq, ?Z.eqb_neq in *; lia.
Qed.

(** The query's order is the order of the handler's re-sort: sorting the
    queried group by order leaves it as it is. *)
Lemma resort_keeps_the_query_order (coll : list Task.t) :
  Js.sort Tasks.cmpOrder (Js.sort TaskModel.cmpOrderNewest coll)
  = Js.sort TaskModel.cmpOrderNewest coll.
Proof.
  apply sort_of_sorted.
  apply strongly_sorted_impl
    with (R := fun a b => TaskModel.cmpOrderNewest a b <= 0).
  - intros a b. unfold TaskModel.cmpOrderNewest, Tasks.cmpOrder.
    destruct (Task.order a =? Task.order b) eqn:E; cbn [negb];
      rewrite ?Z.eqb_eq in E; lia.
  - apply sort_sorted;
      [apply cmpOrderNewest_total|apply cmpOrderNewest_trans].
Qed.

Lemma getStatic_tasks (db : Db) (user : User.t) :
  map fst (TaskLists.getStatic db user)
  = Js.sort TaskModel.cmpOrderNewest
      (filter (TaskModel.isStaticOf (User._id user)) (tasks db)).
Proof.
  unfold TaskLists.getStatic, TaskLists.populated. rewrite map_map.
  apply map_id.
Qed.

(** X25.  A move shows in the list of static tasks.  When
    [PUT /tasks/:id/order] answers 200 for a static task whose list has
    positive, pairwise distinct orders, [GET /tasks/static] lists the same
    tasks afterwards with the moved task and its neighbour in the requested
    direction in each other's place, each with the other's order. *)
Theorem move_shows_in_the_static_list (db : Db) (user : User.t)
    (id : ObjectId) (direction : string) (task : Task.t) :
  NoDup (map Task._id (tasks db)) ->
  Js.find (fun t => (Task._id t =? id)%nat
                    && (Task.userId t =? User._id user)%nat) (tasks db)
    = Some task ->
  Task.startDate task = None \/ Task.endDate task = None ->
  Tasks.hasProperOrders (map fst (TaskLists.getStatic db user)) = true ->
  status (fst (Tasks.putOrder db user id direction)) = 200%nat ->
  exists pre a b post,
    map fst (TaskLists.getStatic db user) = pre ++ a :: b :: post
    /\ ((direction = "up" /\ Task._id b = id)
        \/ (direction = "down" /\ Task._id a = id))
    /\ map fst (TaskLists.getStatic
                  (snd (Tasks.putOrder db user id direction)) user)
       = pre ++ Task.setOrder b (Task.order a)
             :: Task.setOrder a (Task.order b) :: post.
Proof.
  intros Hids Hfind Hstatic Hproper Hok. rewrite getStatic_tasks in *.
  set (p := TaskModel.isStaticOf (User._id user)) in *.
  assert (Hp : forall t o, p (Task.setOrder t o) = p t)
    by (intros t o; destruct t; reflexivity).
  assert (Hg : Tasks.siblingGroup (tasks db) (User._id user) task
               = Js.sort TaskModel.cmpOrderNewest (filter p (tasks db))).
  { unfold Tasks.siblingGroup.
    destruct Hstatic as [-> | ->]; [reflexivity|].
    destruct (Task.startDate task); reflexivity. }
  destruct (putOrder_exchanges db user id direction task p Hids Hfind Hg
              Hproper Hok)
    as [pre [a [b [post [Hsorted [Hdir [Ha [Hb [Hab [_ [_ Hfirst]]]]]]]]]]].
  destruct (exchanged_group (tasks db) p pre post a b Hids Hp Hproper Hsorted)
    as [_ [_ Hsorted']].
  rewrite resort_keeps_the_query_order in Hsorted, Hsorted'.
  exists pre, a, b, post. split; [exact Hsorted|]. split; [exact Hdir|].
  rewrite Hfirst. cbn [snd]. rewrite getStatic_tasks, tasks_withTasks.
  exact Hsorted'.
Qed.

End RoundTrip.

(* ===================================================================== *)
(** ** The repair step and the store *)
(* ===================================================================== *)

Lemma fold_saveTask (docs coll : list Task.t) :
  NoDup (map Task._id docs) ->
  fold_left Tasks.saveTask docs coll = map (Inv.savedAs docs) coll.
Proof.
  revert coll. induction docs as [|d docs IH]; intros coll Hnd; simpl.
  - symmetry. apply map_id.
  - apply NoDup_cons_iff in Hnd. destruct Hnd as [Hd Hrest].
    rewrite IH by exact Hrest. unfold Tasks.saveTask at 1.
    rewrite map_map. apply map_ext. intros x. unfold Inv.savedAs.
    cbn [Js.find List.find]. rewrite (Nat.eqb_sym (Task._id d)).
    destruct (Task._id x =? Task._id d)%nat eqn:E; [|reflexivity].
    fold (Js.find (fun d0 => (Task._id d0 =? Task._id d)%nat) docs).
    destruct (Js.find _ docs) as [d'|] eqn:Efind; [|reflexivity].
    exfalso. apply Hd. apply find_In in Efind.
    destruct Efind as [Hin Hid]. apply Nat.eqb_eq in Hid.
    rewrite <- Hid. apply in_map, Hin.
Qed.

Lemma Forall2_In_r {A B : Type} (R : A -> B -> Prop) (l : list A)
    (l' : list B) :
  Forall2 R l l' -> Forall2 (fun x y => R x y /\ In y l') l l'.
Proof.
  induction 1 as [|x y l l' Hxy _ IH]; constructor.
  - split; [exact Hxy|left; reflexivity].
  - eapply Forall2_impl; [|exact IH].
    intros a b [Hab Hb]. split; [exact Hab|right; exact Hb].
Qed.

Lemma Forall2_map_eq {A B : Type} (f : A -> B) (l : list A) (l' : list B) :
  Forall2 (fun x y => f x = y) l l' -> map f l = l'.
Proof. induction 1; simpl; congruence. Qed.

Lemma filter_map_in {A : Type} (p : A -> bool) (f : A -> A) (l : list A) :
  (forall x, In x l -> p (f x) = p x) ->
  filter p (map f l) = map f (filter p l).
Proof.
  induction l as [|x l IH]; intros Hp; simpl; [reflexivity|].
  rewrite (Hp x) by (simpl; auto).
  rewrite IH by (intros y Hy; apply Hp; simpl; auto).
  destruct (p x); reflexivity.
Qed.

(** The renumbered documents, saved, replace the tasks of the group one for
    one. *)
Lemma savedAs_renumbered (docs sorted : list Task.t) :
  NoDup (map Task._id docs) ->
  Forall2 Spec.sameButOrder sorted docs ->
  map (Inv.savedAs docs) sorted = docs.
Proof.
  intros Hnd Hsame. apply Forall2_map_eq.
  eapply Forall2_impl; [|apply Forall2_In_r, Hsame].
  intros t d [[o ->] Hd]. unfold Inv.savedAs.
  change (Task._id t) with (Task._id (Task.setOrder t o)).
  unfold Js.find.
  destruct (List.find _ docs) as [d'|] eqn:E.
  - apply find_some in E. destruct E as [Hd' Hid]. apply Nat.eqb_eq in Hid.
    apply (NoDup_map_inj Task._id docs); assumption.
  - apply (find_none _ _ E) in Hd. rewrite Nat.eqb_refl in Hd.
    discriminate.
Qed.

Lemma savedAs_order_only (coll docs : list Task.t) (t : Task.t) :
  NoDup (map Task._id coll) -> In t coll ->
  (forall d, In d docs -> exists g o, In g coll /\ d = Task.setOrder g o) ->
  exists o, Inv.savedAs docs t = Task.setOrder t o.
Proof.
  intros Hnd Ht Hfrom. unfold Inv.savedAs.
  destruct (Js.find _ docs) as [d|] eqn:E.
  - apply find_In in E. destruct E as [Hd Hid]. apply Nat.eqb_eq in Hid.
    destruct (Hfrom d Hd) as [g [o [Hg ->]]]. exists o. f_equal.
    apply (NoDup_map_inj Task._id coll); assumption.
  - exists (Task.order t). symmetry. apply setOrder_same.
Qed.

(** A group with proper orders whose documents pass validation: a request
    that does not end in 200 saves nothing. *)
Lemma proper_refusal_saves_nothing (group : list Task.t) (id : ObjectId)
    (direction : string) :
  Tasks.hasProperOrders group = true ->
  status (fst (Tasks.reorderGroup group id direction)) <> 200%nat ->
  forallb TaskModel.validates group = true
  \/ status (fst (Tasks.reorderGroup group id direction)) <> 500%nat ->
  snd (Tasks.reorderGroup group id direction) = [].
Proof.
  intros Hproper. rewrite reorderGroup_proper by exact Hproper.
  destruct (List.length group <=? 1)%nat; [reflexivity|].
  destruct (Js.findIndex _ _) as [ci|]; [|reflexivity].
  destruct (Tasks.targetIndex _ _ _) as [ti|]; [|reflexivity].
  destruct (nth_error _ ci) as [c|] eqn:Ec; [|reflexivity].
  destruct (nth_error _ ti) as [t|] eqn:Et; [|reflexivity].
  destruct (TaskModel.validates c && TaskModel.validates t) eqn:Hv.
  - intros Hno. contradiction Hno. reflexivity.
  - intros _ [Hvalid|Hno]; [|contradiction Hno; reflexivity].
    rewrite forallb_forall in Hvalid.
    rewrite (Hvalid c) in Hv
      by (eapply (sort_In Tasks.cmpOrder), nth_error_In, Ec).
    rewrite (Hvalid t) in Hv
      by (eapply (sort_In Tasks.cmpOrder), nth_error_In, Et).
    discriminate.
Qed.

Lemma Forall2_split_pair {A B : Type} (R : A -> B -> Prop) (l : list A)
    (pre' post' : list B) (a' b' : B) :
  Forall2 R l (pre' ++ a' :: b' :: post') ->
  exists pre a b post,
    l = pre ++ a :: b :: post
    /\ Forall2 R pre pre' /\ R a a' /\ R b b' /\ Forall2 R post post'.
Proof.
  intros Hall. apply Forall2_app_inv_r in Hall.
  destruct Hall as [pre [rest [Hpre [Hrest ->]]]].
  inversion Hrest as [|a a0 rest1 rest1' Ha Hrest1]; subst.
  inversion Hrest1 as [|b b0 post post0 Hb Hpost]; subst.
  exists pre, a, b, post. auto.
Qed.

Section RepairFacts.
Context `{LocalTime}.

(** The store after the repair loop: the group, queried again, is the
    renumbered array. *)
Lemma repaired_group (coll : list Task.t) (p : Task.t -> bool) :
  NoDup (map Task._id coll) ->
  (forall t o, p (Task.setOrder t o) = p t) ->
  let group := Js.sort TaskModel.cmpOrderNewest (filter p coll) in
  let renumbered :=
    Tasks.assignSequential 0 (Js.sort Tasks.cmpRepair group) in
  NoDup (map Task._id (fold_left Tasks.saveTask renumbered coll))
  /\ Js.sort TaskModel.cmpOrderNewest
       (filter p (fold_left Tasks.saveTask renumbered coll))
     = renumbered.
Proof.
  intros Hids Hp group renumbered.
  set (sorted := Js.sort Tasks.cmpRepair group) in *.
  assert (Hgroup : forall t, In t sorted -> In t coll).
  { intros t Ht. unfold sorted, group in Ht.
    apply sort_In, sort_In, filter_In in Ht. apply Ht. }
  assert (Hrids : NoDup (map Task._id renumbered)).
  { unfold renumbered. rewrite assignSequential_ids.
    apply sort_NoDup_map, sort_NoDup_map, NoDup_map_filter, Hids. }
  assert (Hfrom : forall d, In d renumbered ->
            exists g o, In g coll /\ d = Task.setOrder g o).
  { intros d Hd. destruct (renumbered_from _ _ _ Hd) as [g [o [Hg ->]]].
    exists g, o. split; [apply Hgroup, Hg|reflexivity]. }
  rewrite fold_saveTask by exact Hrids.
  split.
  - rewrite map_map. rewrite (map_ext_in _ Task._id); [exact Hids|].
    intros t Ht.
    destruct (savedAs_order_only coll renumbered t Hids Ht Hfrom) as [o ->].
    reflexivity.
  - rewrite filter_map_in.
    2:{ intros t Ht.
        destruct (savedAs_order_only coll renumbered t Hids Ht Hfrom)
          as [o ->].
        apply Hp. }
    apply (ordered_arrangement_unique Tasks.cmpOrder cmpOrder_anti).
    + apply strongly_sorted_impl
        with (R := fun a b => TaskModel.cmpOrderNewest a b <= 0).
      * intros a b. unfold TaskModel.cmpOrderNewest, Tasks.cmpOrder.
        destruct (Task.order a =? Task.order b) eqn:E; cbn [negb];
          rewrite ?Z.eqb_eq in E; lia.
      * apply sort_sorted;
          [apply cmpOrderNewest_total|apply cmpOrderNewest_trans].
    + apply strongly_sorted_impl
        with (R := fun x y => Task.order x < Task.order y).
      { unfold Tasks.cmpOrder. intros; lia. }
      apply sorted_strictly.
      * unfold renumbered. rewrite assignSequential_orders.
        apply (oneTo_NoDup (List.length sorted)).
      * apply assignSequential_sorted.
    + eapply perm_trans; [apply sort_perm|].
      apply perm_trans with (l' := map (Inv.savedAs renumbered) sorted).
      * apply Permutation_map.
        eapply perm_trans;
          [apply Permutation_sym,
             (sort_perm TaskModel.cmpOrderNewest (filter p coll))|].
        fold group. apply Permutation_sym, sort_perm.
      * rewrite (savedAs_renumbered renumbered sorted Hrids
                   (assignSequential_same 0 sorted)).
        apply Permutation_refl.
Qed.

End RepairFacts.

Section RepairOnTheStore.
Context `{LocalTime}.

(** C1 (as amended).  In the reorder operation on a sibling group of more
    than one task, the repair step runs exactly when some task of the group
    has an order that is not positive or two tasks share an order value; a
    group of positive, pairwise distinct orders is left as it is, dense or
    not (a request that is refused changes nothing).  When the step runs and
    every task of the group passes the schema's date validation on save, the
    group is stable-sorted by existing order ascending, then creation time
    ascending, and the orders 1..N are assigned along the sorted array and
    saved: the group, queried again after the request, has a unique order
    per task and exactly the orders 1..N, each task at its place in the
    sorted array, but for the moved task and its neighbour, which have
    traded places when the request goes on to the swap (status 200).  When
    the step runs and a task of the group fails the validation, the loop
    throws and the request is answered 500. *)
Theorem repair_renumbers_improper_groups (db : Db) (user : User.t)
    (id : ObjectId) (direction : string) (task : Task.t)
    (response : Response) (db' : Db) :
  NoDup (map Task._id (tasks db)) ->
  Js.find (fun t => (Task._id t =? id)%nat
                    && (Task.userId t =? User._id user)%nat) (tasks db)
    = Some task ->
  Tasks.directionErrors direction = [] ->
  (1 < List.length
         (Tasks.siblingGroup (tasks db) (User._id user) task))%nat ->
  Tasks.putOrder db user id direction = (response, db') ->
  let group := Tasks.siblingGroup (tasks db) (User._id user) task in
  let group' := Tasks.siblingGroup (tasks db') (User._id user) task in
  (Tasks.hasProperOrders group = true <->
     Forall (fun t => 0 < Task.order t) group
     /\ NoDup (map Task.order group))
  /\ (Tasks.hasProperOrders group = true ->
      status response <> 200%nat -> status response <> 500%nat ->
      db' = db)
  /\ (Tasks.hasProperOrders group = false ->
      Forall (fun t => TaskModel.validates t = true) group ->
      exists sorted : list Task.t,
        Permutation sorted group
        /\ StronglySorted Spec.orderThenCreated sorted
        /\ (forall k, filter (Spec.sameKey k) sorted
                      = filter (Spec.sameKey k) group)
        /\ map Task.order group' = Spec.oneTo (List.length group)
        /\ NoDup (map Task.order group')
        /\ Spec.dense group'
        /\ (status response <> 200%nat ->
            Forall2 Spec.sameButOrder sorted group')
        /\ (status response = 200%nat ->
            exists pre a b post,
              sorted = pre ++ a :: b :: post
              /\ ((direction = "up" /\ Task._id b = id)
                  \/ (direction = "down" /\ Task._id a = id))
              /\ Forall2 Spec.sameButOrder (pre ++ b :: a :: post) group')
        /\ db' = withTasks db (tasks db'))
  /\ (Tasks.hasProperOrders group = false ->
      (exists sibling,
         In sibling group /\ TaskModel.validates sibling = false) ->
      response = mkResponse 500 "Server error while updating task order").
Proof.
  intros Hids Hfind Hdir Hlen Hrun group group'.
  destruct (siblingGroup_by_dates (User._id user) task) as [p [Hp Hquery]].
  assert (Hg : forall coll,
            Tasks.siblingGroup coll (User._id user) task
            = Js.sort TaskModel.cmpOrderNewest (filter p coll)).
  { intros coll. rewrite <- (Hquery coll (Task.order task)), setOrder_same.
    reflexivity. }
  unfold Tasks.putOrder in Hrun. rewrite Hdir, Hfind in Hrun.
  cbn [isEmpty negb] in Hrun. fold group in Hrun, Hlen.
  destruct (Tasks.reorderGroup group id direction) as [r saved] eqn:Egroup.
  injection Hrun as -> <-.
  split; [apply hasProperOrders_iff|]. split.
  { intros Hproper Hno200 Hno500.
    pose proof (proper_refusal_saves_nothing group id direction Hproper)
      as Hnone.
    rewrite Egroup in Hnone. cbn [fst snd] in Hnone.
    rewrite Hnone by auto. apply withTasks_same. }
  split.
  2:{ intros Himproper [sibling [Hin Hv]].
      rewrite reorderGroup_stopped in Egroup; [congruence|exact Hlen
                                              |exact Himproper|].
      apply not_true_is_false. intros Hall.
      rewrite forallb_forall in Hall. rewrite (Hall _ Hin) in Hv.
      discriminate. }
  intros Himproper Hvalid.
  assert (Hvalidb : forallb TaskModel.validates group = true)
    by (apply forallb_forall, Forall_forall, Hvalid).
  pose proof (reorderGroup_repaired group id direction Hlen Himproper
                Hvalidb) as Hrepaired.
  cbv zeta in Hrepaired. rewrite Egroup in Hrepaired.
  set (sorted := Js.sort Tasks.cmpRepair group) in *.
  set (renumbered := Tasks.assignSequential 0 sorted) in *.
  injection Hrepaired as Hr Hsaved.
  assert (Hlength : List.length renumbered = List.length group).
  { unfold renumbered, sorted.
    rewrite assignSequential_length. apply sort_length. }
  assert (Horders : map Task.order renumbered
                    = Spec.oneTo (List.length group)).
  { rewrite <- Hlength. unfold renumbered.
    rewrite assignSequential_orders, assignSequential_length.
    reflexivity. }
  assert (Hrproper : Tasks.hasProperOrders renumbered = true)
    by apply renumbered_proper.
  assert (Hrvalid : forallb TaskModel.validates renumbered = true)
    by apply renumbered_valid, Hvalidb.
  assert (Hresort : Js.sort Tasks.cmpOrder renumbered = renumbered)
    by apply sort_of_sorted, assignSequential_sorted.
  pose proof (repaired_group (tasks db) p Hids Hp) as Hmid.
  cbv zeta in Hmid. rewrite <- (Hg (tasks db)) in Hmid.
  fold group sorted renumbered in Hmid.
  destruct Hmid as [Hmid_ids Hmid_group].
  set (mid := fold_left Tasks.saveTask renumbered (tasks db)) in *.
  assert (Hdense : forall G,
            map Task.order G = Spec.oneTo (List.length group) ->
            NoDup (map Task.order G) /\ Spec.dense G).
  { intros G HG. split; [rewrite HG; apply oneTo_NoDup|].
    unfold Spec.dense. rewrite HG.
    rewrite <- (length_map Task.order G), HG. unfold Spec.oneTo.
    rewrite length_map, length_seq. apply Permutation_refl. }
  exists sorted.
  split; [apply sort_perm|].
  split.
  { apply strongly_sorted_impl with (R := fun a b => Tasks.cmpRepair a b <= 0).
    - intros a b. apply cmpRepair_le.
    - apply sort_sorted; [apply cmpRepair_total|apply cmpRepair_trans]. }
  split; [intros k; apply sort_stable, sameKey_class|].
  unfold group'. rewrite tasks_withTasks, Hg, Hsaved, fold_left_app.
  fold mid.
  destruct (Nat.eq_dec (status response) 200) as [Hok|Hrefused].
  - (* the request goes on to the swap *)
    rewrite Hr in Hok.
    destruct (reorderGroup_moved renumbered id direction Hrproper Hok)
      as [pre' [a' [b' [post' [Hsplit [Hmoved [Hva Hvb]]]]]]].
    rewrite Hresort in Hsplit.
    assert (Hrids : NoDup (map Task._id renumbered)).
    { rewrite <- Hmid_group. apply sort_NoDup_map, NoDup_map_filter.
      exact Hmid_ids. }
    destruct (reorderGroup_adjacent renumbered pre' post' a' b' Hrids
                Hrproper) as [Hup Hdown]; [congruence|exact Hva|exact Hvb|].
    assert (Hin : forall t, In t renumbered -> In t mid).
    { intros t Ht. rewrite <- Hmid_group in Ht.
      apply sort_In, filter_In in Ht. apply Ht. }
    assert (Ha : In a' mid)
      by (apply Hin; rewrite Hsplit; apply in_or_app; right; left;
          reflexivity).
    assert (Hb : In b' mid)
      by (apply Hin; rewrite Hsplit; apply in_or_app; right; right; left;
          reflexivity).
    assert (Hab : Task._id a' <> Task._id b').
    { rewrite Hsplit in Hrids.
      exact (proj1 (neighbours_apart pre' post' a' b' Hrids)). }
    destruct (save_pair mid a' b' Hmid_ids Ha Hb Hab) as [Hsave_ab Hsave_ba].
    assert (Hstore : fold_left Tasks.saveTask
                       (snd (Tasks.reorderGroup renumbered id direction)) mid
                     = map (Inv.exchangeOrders a' b') mid).
    { destruct Hmoved as [[-> <-]|[-> <-]].
      - rewrite Hup. exact Hsave_ba.
      - rewrite Hdown. exact Hsave_ab. }
    rewrite Hstore.
    destruct (exchanged_group mid p pre' post' a' b' Hmid_ids Hp)
      as [_ [_ Hafter]].
    { rewrite Hmid_group. exact Hrproper. }
    { rewrite Hmid_group, Hresort. exact Hsplit. }
    rewrite resort_keeps_the_query_order in Hafter. rewrite Hafter.
    assert (Hfinal : map Task.order
                       (pre' ++ Task.setOrder b' (Task.order a')
                             :: Task.setOrder a' (Task.order b') :: post')
                     = Spec.oneTo (List.length group)).
    { rewrite <- Horders, Hsplit, !map_app. reflexivity. }
    split; [exact Hfinal|].
    split; [apply Hdense, Hfinal|]. split; [apply Hdense, Hfinal|].
    split; [intros Hno; contradiction Hno; rewrite Hr; exact Hok|].
    split; [|reflexivity].
    intros _.
    pose proof (assignSequential_same 0 sorted) as Hsame.
    fold renumbered in Hsame. rewrite Hsplit in Hsame.
    destruct (Forall2_split_pair _ _ _ _ _ _ Hsame)
      as [pre [a [b [post [Hsorted [Hpre [[oa Hoa] [[ob Hob] Hpost]]]]]]]].
    exists pre, a, b, post. split; [exact Hsorted|]. split.
    + destruct Hmoved as [[Hd <-]|[Hd <-]]; [left|right];
        (split; [exact Hd|]); subst a' b'; reflexivity.
    + apply Forall2_app; [exact Hpre|].
      constructor; [exists (Task.order a'); rewrite Hob; reflexivity|].
      constructor; [exists (Task.order b'); rewrite Hoa; reflexivity|].
      exact Hpost.
  - (* the request ends without a swap *)
    assert (Hnone : snd (Tasks.reorderGroup renumbered id direction) = []).
    { apply proper_refusal_saves_nothing; [exact Hrproper| |left; exact Hrvalid].
      rewrite <- Hr. exact Hrefused. }
    rewrite Hnone. cbn [fold_left]. rewrite Hmid_group.
    split; [exact Horders|].
    split; [apply Hdense, Horders|]. split; [apply Hdense, Horders|].
    split; [intros _; apply assignSequential_same|].
    split; [intros Hok; contradiction|reflexivity].
Qed.

End RepairOnTheStore.

(** The theorem on the three overlapping tasks, the siblings of Y on day 5
    with the orders 1, 2, 2: moving Y up leaves the orders 1, 2, 3. *)
Lemma repair_renumbers_improper_groups_witness :
  map Task.order
    (Tasks.siblingGroup
       (tasks (snd (Tasks.putOrder Scenario.overlapDb Scenario.alice 2 "up")))
       (User._id Scenario.alice) (Scenario.ranged 2 2 5 5 200))
  = [1; 2; 3].
Proof.
  destruct (repair_renumbers_improper_groups Scenario.overlapDb
              Scenario.alice 2 "up" (Scenario.ranged 2 2 5 5 200)
              (fst (Tasks.putOrder Scenario.overlapDb Scenario.alice 2 "up"))
              (snd (Tasks.putOrder Scenario.overlapDb Scenario.alice 2 "up")))
    as [_ [_ [Hrepair _]]].
  - simpl. concrete_NoDup.
  - reflexivity.
  - reflexivity.
  - vm_compute. lia.
  - reflexivity.
  - destruct Hrepair as [sorted [_ [_ [_ [Horders _]]]]].
    + reflexivity.
    + repeat constructor.
    + exact Horders.
Defined.

(** X20 on two static tasks of Alice. *)
Lemma opposite_moves_cancel_witness :
  let db :=
    withTasks emptyDb [Scenario.static 1 1 10; Scenario.static 2 2 20] in
  tasks (snd (Tasks.putOrder db Scenario.alice 2 "up"))
  = [Scenario.static 1 2 10; Scenario.static 2 1 20]
  /\ Tasks.putOrder (snd (Tasks.putOrder db Scenario.alice 2 "up"))
       Scenario.alice 2 "down"
     = (mkResponse 200 "Task order updated successfully", db).
Proof.
  intros db. split; [reflexivity|].
  apply (opposite_moves_cancel db Scenario.alice 2 "up"
           (Scenario.static 2 2 20)).
  - simpl. concrete_NoDup.
  - reflexivity.
  - reflexivity.
  - reflexivity.
Defined.

(* ===================================================================== *)
(** ** Beyond the claims: who may change what *)
(* ===================================================================== *)

Lemma foreign_task_not_found (coll : list Task.t) (task : Task.t)
    (userId : ObjectId) :
  NoDup (map Task._id coll) -> In task coll -> Task.userId task <> userId ->
  Js.find (fun t => (Task._id t =? Task._id task)%nat
                    && (Task.userId t =? userId)%nat) coll = None.
Proof.
  intros Hnd Hin Hforeign.
  destruct (Js.find _ coll) as [t|] eqn:Efound; [|reflexivity].
  exfalso. apply find_In in Efound. destruct Efound as [Ht Hq].
  apply andb_true_iff in Hq. destruct Hq as [Hid Huser].
  apply Nat.eqb_eq in Hid, Huser.
  assert (t = task) by (apply (NoDup_map_inj Task._id coll); assumption).
  subst t. contradiction.
Qed.

Lemma foreign_instance_not_found (coll : list TaskInstance.t)
    (instance : TaskInstance.t) (userId : ObjectId) :
  NoDup (map TaskInstance._id coll) -> In instance coll ->
  TaskInstance.userId instance <> userId ->
  Js.find (fun x => (TaskInstance._id x =? TaskInstance._id instance)%nat
                    && (TaskInstance.userId x =? userId)%nat) coll = None.
Proof.
  intros Hnd Hin Hforeign.
  destruct (Js.find _ coll) as [x|] eqn:Efound; [|reflexivity].
  exfalso. apply find_In in Efound. destruct Efound as [Hx Hq].
  apply andb_true_iff in Hq. destruct Hq as [Hid Huser].
  apply Nat.eqb_eq in Hid, Huser.
  assert (x = instance)
    by (apply (NoDup_map_inj TaskInstance._id coll); assumption).
  subst x. contradiction.
Qed.

Section GuardFacts.
Context `{LocalTime}.

(** X21.  A task of another user is out of reach of the task routes: for a
    stored task that is not the caller's, update, delete, reorder and
    subtask creation all leave the store unchanged and answer 404, or 400
    when the body is invalid. *)
Theorem foreign_task_is_out_of_reach (db : Db) (user : User.t)
    (task : Task.t) :
  NoDup (map Task._id (tasks db)) -> In task (tasks db) ->
  Task.userId task <> User._id user ->
  (forall updates,
     snd (Tasks.put db user (Task._id task) updates) = db
     /\ (status (fst (Tasks.put db user (Task._id task) updates)) = 404%nat
         \/ status (fst (Tasks.put db user (Task._id task) updates))
            = 400%nat))
  /\ Tasks.delete db user (Task._id task)
     = (mkResponse 404 "Task not found", db)
  /\ (forall direction,
        snd (Tasks.putOrder db user (Task._id task) direction) = db
        /\ (status (fst (Tasks.putOrder db user (Task._id task) direction))
              = 404%nat
            \/ status (fst (Tasks.putOrder db user (Task._id task) direction))
               = 400%nat))
  /\ (forall body oid,
        snd (TaskSubtasks.post db user (Task._id task) body oid) = db
        /\ (status (fst (TaskSubtasks.post db user (Task._id task) body oid))
              = 404%nat
            \/ status (fst (TaskSubtasks.post db user (Task._id task) body
                              oid)) = 400%nat)).
Proof.
  intros Hnd Hin Hforeign.
  pose proof (foreign_task_not_found _ _ _ Hnd Hin Hforeign) as Hnone.
  split; [|split; [|split]].
  - intros updates. unfold Tasks.put.
    destruct (negb (isEmpty (Tasks.u_errors updates))); [auto|].
    rewrite Hnone. auto.
  - unfold Tasks.delete. rewrite Hnone. reflexivity.
  - intros direction. unfold Tasks.putOrder.
    destruct (negb (isEmpty (Tasks.directionErrors direction))); [auto|].
    rewrite Hnone. auto.
  - intros body oid. unfold TaskSubtasks.post.
    destruct (negb (isEmpty (TaskSubtasks.errors body))); [auto|].
    rewrite Hnone. auto.
Qed.

End GuardFacts.

(** X22.  Subtasks and instances of another user are out of reach as well:
    updating or deleting a subtask whose task is not the caller's answers
    403 (400 for an invalid body), toggling an instance of another user or
    one of its entries answers 404, and none of them changes the store. *)
Theorem foreign_documents_are_out_of_reach (db : Db) (user : User.t)
    (subtask : Subtask.t) (task : Task.t) (instance : TaskInstance.t) :
  Js.find (fun s => (Subtask._id s =? Subtask._id subtask)%nat) (subtasks db)
    = Some subtask ->
  Js.find (fun t => (Task._id t =? Subtask.taskId subtask)%nat) (tasks db)
    = Some task ->
  Task.userId task <> User._id user ->
  NoDup (map TaskInstance._id (taskInstances db)) ->
  In instance (taskInstances db) ->
  TaskInstance.userId instance <> User._id user ->
  (forall updates,
     snd (Subtasks.put db user (Subtask._id subtask) updates) = db
     /\ (status (fst (Subtasks.put db user (Subtask._id subtask) updates))
           = 403%nat
         \/ status (fst (Subtasks.put db user (Subtask._id subtask) updates))
            = 400%nat))
  /\ Subtasks.delete db user (Subtask._id subtask)
     = (mkResponse 403 "Access denied", db)
  /\ TaskInstances.putComplete db user (TaskInstance._id instance)
     = (mkResponse 404 "Task instance not found", db)
  /\ (forall subtaskId,
        TaskInstances.putSubtask db user (TaskInstance._id instance) subtaskId
        = (mkResponse 404 "Task instance not found", db)).
Proof.
  intros Hsub Htask Hforeign Hnd Hin Hother.
  apply Nat.eqb_neq in Hforeign.
  pose proof (foreign_instance_not_found _ _ _ Hnd Hin Hother) as Hnone.
  split; [|split; [|split]].
  - intros updates. unfold Subtasks.put.
    destruct (negb (isEmpty (Subtasks.errors updates))); [auto|].
    rewrite Hsub, Htask, Hforeign. auto.
  - unfold Subtasks.delete. rewrite Hsub, Htask, Hforeign. reflexivity.
  - unfold TaskInstances.putComplete. rewrite Hnone. reflexivity.
  - intros subtaskId. unfold TaskInstances.putSubtask. rewrite Hnone.
    reflexivity.
Qed.

Section AdminGate.
Context `{LocalTime}.

(** X23.  The admin routes do nothing for a caller without the admin flag:
    each of them answers 403 before it looks at the body, and leaves the
    store as it is. *)
Theorem admin_routes_refuse_other_users (db : Db) (user : User.t) :
  User.isAdmin user = false ->
  (forall id, AdminUsers.deleteUser db user id = (Admin.accessDenied, db))
  /\ (forall body oid now,
        Admin.postCreateTask db user body oid now = (Admin.accessDenied, db))
  /\ (forall body oid,
        AdminUsers.postWhitelist db user body oid = (Admin.accessDenied, db))
  /\ (forall id,
        AdminUsers.deleteWhitelist db user id = (Admin.accessDenied, db))
  /\ (forall body random fuel oid now,
        Admin.postResetCodes db user body random fuel oid now
        = Some (Admin.accessDenied, db))
  /\ (forall id,
        Admin.deleteResetCode db user id = (Admin.accessDenied, db))
  /\ (forall userId date oid,
        AdminUsers.getUserTasks db user userId date oid
        = (Admin.accessDenied, [], db)).
Proof.
  intros Hplain.
  unfold AdminUsers.deleteUser, Admin.postCreateTask, AdminUsers.postWhitelist,
    AdminUsers.deleteWhitelist, Admin.postResetCodes, Admin.deleteResetCode,
    AdminUsers.getUserTasks, Admin.adminAuth.
  rewrite Hplain. cbn [negb]. repeat split.
Qed.

End AdminGate.

(** X21 to X23 for Alice, who is no admin, and a task, subtask and instance
    of user 8. *)
Lemma foreign_task_is_out_of_reach_witness :
  let task := Task.mk 1 "task" false 1 None None 8 None [11%nat] 100 in
  let db := mkDb [] [] [] [task] [Subtask.mk 11 "A" false "" 1] [] in
  Tasks.delete db Scenario.alice 1 = (mkResponse 404 "Task not found", db)
  /\ snd (Tasks.put db Scenario.alice 1
            (Tasks.mkUpdateBody [] None (Some true) None None None None None None)) = db.
Proof.
  intros task db.
  destruct (foreign_task_is_out_of_reach db Scenario.alice task)
    as [Hput [Hdelete _]].
  - simpl. concrete_NoDup.
  - left. reflexivity.
  - discriminate.
  - split; [exact Hdelete|]. apply Hput.
Defined.

Lemma foreign_documents_are_out_of_reach_witness :
  let task := Task.mk 1 "task" false 1 None None 8 None [11%nat] 100 in
  let subtask := Subtask.mk 11 "A" false "" 1 in
  let instance :=
    TaskInstance.mk 50 1 8 (Scenario.day 5) false
      [SubtaskInstance.mk 11 false] in
  let db := mkDb [] [] [] [task] [subtask] [instance] in
  Subtasks.delete db Scenario.alice 11 = (mkResponse 403 "Access denied", db)
  /\ TaskInstances.putComplete db Scenario.alice 50
     = (mkResponse 404 "Task instance not found", db).
Proof.
  intros task subtask instance db.
  destruct (foreign_documents_are_out_of_reach db Scenario.alice subtask task
              instance) as [_ [Hdelete [Hcomplete _]]].
  - reflexivity.
  - reflexivity.
  - discriminate.
  - simpl. concrete_NoDup.
  - left. reflexivity.
  - discriminate.
  - split; [exact Hdelete|exact Hcomplete].
Defined.

Lemma admin_routes_refuse_other_users_witness :
  AdminUsers.deleteUser Scenario.seededDb Scenario.alice 2
  = (Admin.accessDenied, Scenario.seededDb)
  /\ AdminUsers.postWhitelist Scenario.seededDb Scenario.alice
       (AdminUsers.mkWhitelistBody [] "alice@example.com") 30
     = (Admin.accessDenied, Scenario.seededDb).
Proof.
  destruct (admin_routes_refuse_other_users Scenario.seededDb Scenario.alice
              eq_refl) as [Hdelete [_ [Hlist _]]].
  split; [apply Hdelete|apply Hlist].
Defined.

(* ===================================================================== *)
(** ** Beyond the claims: tasks created by an admin *)
(* ===================================================================== *)

Section AdminCreate.
Context `{LocalTime}.

(** X24.  [POST /admin/create-task] acts as the target user's own
    [POST /tasks]: for an admin, a valid body and an existing target user it
    answers with the status the user's request with the same title and
    dates would get, refuses with the same message, and on 201 stores the
    task the user's request would store, with the same order, marked as
    created by the admin. *)
Theorem admin_create_acts_as_the_user (db : Db) (admin target : User.t)
    (body : Admin.CreateTaskBody) (oid : ObjectId) (now : Date) :
  Admin.adminAuth admin = true ->
  Admin.ct_errors body = [] ->
  Js.find (fun u => (User._id u =? Admin.ct_userId body)%nat) (users db)
    = Some target ->
  let own :=
    Tasks.post db target
      (Tasks.mkCreateBody [] (Admin.ct_title body) (Admin.ct_startDate body)
         (Admin.ct_endDate body)) oid now in
  let given := Admin.postCreateTask db admin body oid now in
  status (fst given) = status (fst own)
  /\ ((status (fst own) = 201%nat
       /\ exists task,
            snd own = withTasks db (tasks db ++ [task])
            /\ snd given
               = withTasks db
                   (tasks db
                    ++ [Inv.setCreatedBy task (Some (User._id admin))])
            /\ Task.userId task = User._id target
            /\ Task.createdBy task = None)
      \/ (status (fst own) <> 201%nat
          /\ snd own = db /\ snd given = db
          /\ message (fst given) = message (fst own))).
Proof.
  intros Hadmin Hvalid Htarget.
  assert (Hid : User._id target = Admin.ct_userId body).
  { apply find_In in Htarget. destruct Htarget as [_ Heq].
    apply Nat.eqb_eq in Heq. exact Heq. }
  cbv zeta. unfold Admin.postCreateTask, Tasks.post.
  rewrite Hadmin, Hvalid, Htarget, Hid.
  cbn [negb isEmpty Tasks.c_errors Tasks.c_title Tasks.c_startDate
       Tasks.c_endDate].
  destruct (Tasks.endBeforeStart _ _).
  { split; [reflexivity|]. right. repeat split. discriminate. }
  destruct (Tasks.oneDateOnly _ _).
  { split; [reflexivity|]. right. repeat split. discriminate. }
  unfold Tasks.createTask, TaskModel.endDateValidator.
  cbn [Task.startDate Task.endDate].
  match goal with
  | |- context [if ?valid then Some _ else None] => destruct valid
  end.
  - split; [reflexivity|]. left. split; [reflexivity|].
    eexists. split; [reflexivity|]. split; [reflexivity|].
    split; reflexivity.
  - split; [reflexivity|]. right. repeat split. discriminate.
Qed.

End AdminCreate.

(** X24: the admin creates a static task for Alice, who has one already. *)
Lemma admin_create_acts_as_the_user_witness :
  let db :=
    mkDb [Scenario.root; Scenario.alice] [] [] [Scenario.static 1 1 10] []
         [] in
  let body := Admin.mkCreateTaskBody [] 7 "report" None None in
  tasks (snd (Admin.postCreateTask db Scenario.root body 9 100))
  = [Scenario.static 1 1 10;
     Task.mk 9 "report" false 2 None None 7 (Some 1%nat) [] 100]
  /\ status (fst (Admin.postCreateTask db Scenario.root body 9 100))
     = status (fst (Tasks.post db Scenario.alice
                      (Tasks.mkCreateBody [] "report" None None) 9 100)).
Proof.
  intros db body. split; [reflexivity|].
  apply (admin_create_acts_as_the_user db Scenario.root Scenario.alice body
           9 100); reflexivity.
Defined.

(** X25 on two static tasks of Alice: moving the second one up. *)
Lemma move_shows_in_the_static_list_witness :
  let db :=
    withTasks emptyDb [Scenario.static 1 1 10; Scenario.static 2 2 20] in
  map fst (TaskLists.getStatic (snd (Tasks.putOrder db Scenario.alice 2 "up"))
             Scenario.alice)
  = [Scenario.static 2 1 20; Scenario.static 1 2 10].
Proof.
  intros db.
  destruct (move_shows_in_the_static_list db Scenario.alice 2 "up"
              (Scenario.static 2 2 20))
    as [pre [a [b [post [Hbefore [_ Hafter]]]]]].
  - simpl. concrete_NoDup.
  - reflexivity.
  - left. reflexivity.
  - reflexivity.
  - reflexivity.
  - rewrite Hafter. vm_compute in Hbefore.
    destruct pre as [|x [|y pre]]; simpl in Hbefore.
    + injection Hbefore as <- <- <-. reflexivity.
    + injection Hbefore as _ _ Hrest. discriminate.
    + injection Hbefore as _ _ Hrest. destruct pre; discriminate.
Defined.

(* ===================================================================== *)
(** ** Beyond the claims: what the day views list *)
(* ===================================================================== *)

Section DayViews.
Context `{LocalTime}.

Lemma getOrCreate_fields (db : Db) (taskId userId : ObjectId) (date : Date)
    (oid : ObjectId) :
  Js.find (fun t => (Task._id t =? taskId)%nat) (tasks db) <> None ->
  exists instance db',
    TaskInstances.getOrCreateTaskInstance db taskId userId date oid
      = Some (instance, db')
    /\ tasks db' = tasks db
    /\ TaskInstance.taskId instance = taskId
    /\ TaskInstance.userId instance = userId
    /\ TaskInstance.date instance = startOfDay date.
Proof.
  intros Hstored. unfold TaskInstances.getOrCreateTaskInstance.
  destruct (Js.find _ (tasks db)) as [task|]; [|contradiction].
  destruct (TaskInstances.findInstance (taskInstances db) taskId userId
              (startOfDay date)) as [found|] eqn:Efound.
  - destruct (findInstance_fields _ _ _ _ _ Efound) as [_ [Ht [Hu Hd]]].
    cbv zeta.
    match goal with
    | |- context [if ?needsUpdate then _ else _] => destruct needsUpdate
    end; eexists; eexists; (split; [reflexivity|]);
      cbn [tasks withTaskInstances TaskInstance.taskId TaskInstance.userId
           TaskInstance.date TaskInstances.setSubtaskInstances]; auto.
  - eexists; eexists; (split; [reflexivity|]).
    cbn [tasks withTaskInstances TaskInstance.taskId TaskInstance.userId
         TaskInstance.date]. auto.
Qed.

Lemma collectInstances_tasks (userId : ObjectId) (targetDate : Date)
    (oid : nat -> ObjectId) (activeTasks : list Task.t) :
  forall (db : Db) (i : nat),
    (forall t, In t activeTasks ->
       Js.find (fun x => (Task._id x =? Task._id t)%nat) (tasks db) <> None) ->
    map TaskInstance.taskId
        (fst (TaskInstances.collectInstances db userId targetDate oid i
                activeTasks))
    = map Task._id activeTasks
    /\ Forall (fun x => TaskInstance.userId x = userId
                        /\ TaskInstance.date x = startOfDay targetDate)
              (fst (TaskInstances.collectInstances db userId targetDate oid i
                      activeTasks)).
Proof.
  induction activeTasks as [|task rest IH]; intros db i Hstored; simpl.
  - split; constructor.
  - destruct (getOrCreate_fields db (Task._id task) userId targetDate (oid i))
      as [instance [db' [Hrun [Htasks [Ht [Hu Hd]]]]]].
    { apply Hstored. left. reflexivity. }
    rewrite Hrun.
    destruct (IH db' (S i)) as [Hids Hshape].
    { intros t Ht'. rewrite Htasks. apply Hstored. right. exact Ht'. }
    destruct (TaskInstances.collectInstances db' userId targetDate oid (S i)
                rest) as [more db''].
    cbn [fst map] in *. split.
    + rewrite Ht, Hids. reflexivity.
    + constructor; [split; assumption|exact Hshape].
Qed.

Lemma collectStored_tasks (userId : ObjectId) (targetDate : Date)
    (oid : nat -> ObjectId) (activeTasks : list Task.t) :
  forall (db : Db) (i : nat),
    map TaskInstance.taskId
        (fst (AdminUsers.collectStored db userId targetDate oid i
                activeTasks))
    = map Task._id activeTasks.
Proof.
  induction activeTasks as [|task rest IH]; intros db i; simpl.
  - reflexivity.
  - destruct (TaskInstances.findInstance (taskInstances db) (Task._id task)
                userId targetDate) as [found|] eqn:Efound.
    + destruct (findInstance_fields _ _ _ _ _ Efound) as [_ [Ht _]].
      specialize (IH db (S i)).
      destruct (AdminUsers.collectStored db userId targetDate oid (S i) rest)
        as [more db'].
      cbn [fst map] in *. rewrite Ht, IH. reflexivity.
    + match goal with
      | |- context [AdminUsers.collectStored ?db1 userId targetDate oid (S i)
                      rest] =>
          specialize (IH db1 (S i));
          destruct (AdminUsers.collectStored db1 userId targetDate oid (S i)
                      rest) as [more db']
      end.
      cbn [fst map TaskInstance.taskId] in *. rewrite IH. reflexivity.
Qed.

Lemma activeIn_rebuilt (userId : ObjectId) (targetDate : Date) :
  Inv.rebuiltInPlace targetDate ->
  forall t,
    AdminUsers.activeIn userId (AdminUsers.rebuild targetDate)
      (endOfDay (AdminUsers.rebuild targetDate)) t
    = TaskModel.activeOn userId targetDate t.
Proof.
  intros [-> ->] t. reflexivity.
Qed.

(** X26.  Both day views list one instance per active task, in the order of
    the task list.  For a well-formed date, the instances in the response
    of [GET /task-instances/date/:date] are, task by task, those of
    [Task.findTasksForDate] for the caller and the day (ascending order,
    newest first among equal orders), each for the caller and dated at the
    start of the day.  The admin's
    [GET /admin/user-tasks/:userId/date/:date] rebuilds the day from the
    year, month and day of the target date: when that gives the start of
    the same day (as for every year from 100 on), it lists, for an existing
    user, instances of the same tasks in the same order. *)
Theorem day_views_follow_the_task_list (db : Db) (user admin : User.t)
    (date : string) (oid oid' : nat -> ObjectId) (year month day : Z)
    (account : User.t) :
  TaskInstances.parseDateParam date = Some (year, month, day) ->
  Admin.adminAuth admin = true ->
  Js.find (fun u => (User._id u =? User._id user)%nat) (users db)
    = Some account ->
  let listed :=
    TaskModel.findTasksForDate (tasks db) (User._id user)
      (localDate year (month - 1) day) in
  let own := snd (fst (TaskInstances.getDate db user date oid)) in
  let seen :=
    snd (fst (AdminUsers.getUserTasks db admin (User._id user) date oid')) in
  map TaskInstance.taskId own = map Task._id listed
  /\ Forall (fun x =>
               TaskInstance.userId x = User._id user
               /\ TaskInstance.date x
                  = startOfDay (localDate year (month - 1) day)) own
  /\ (Inv.rebuiltInPlace (localDate year (month - 1) day) ->
      map TaskInstance.taskId seen = map Task._id listed).
Proof.
  intros Hdate Hadmin Haccount. cbv zeta.
  unfold TaskInstances.getDate, AdminUsers.getUserTasks.
  rewrite Hdate, Hadmin, Haccount. cbn [negb].
  set (targetDate := localDate year (month - 1) day).
  set (listed := TaskModel.findTasksForDate (tasks db) (User._id user)
                   targetDate).
  destruct (collectInstances_tasks (User._id user) targetDate oid listed db O)
    as [Hids Hshape].
  { intros t Ht. unfold listed, TaskModel.findTasksForDate in Ht.
    apply sort_In, filter_In in Ht. destruct Ht as [Hin _].
    unfold Js.find. intros Hnone.
    apply (find_none _ _ Hnone) in Hin. rewrite Nat.eqb_refl in Hin.
    discriminate. }
  change (Js.sort TaskModel.cmpOrderNewest
            (filter (TaskModel.activeOn (User._id user) targetDate)
                    (tasks db))) with listed.
  destruct (TaskInstances.collectInstances db (User._id user) targetDate oid
              0 listed) as [own db1].
  cbn [fst snd] in *. split; [exact Hids|]. split; [exact Hshape|].
  intros Hrebuilt.
  rewrite (filter_ext _ _ (activeIn_rebuilt (User._id user) targetDate
                             Hrebuilt)).
  fold (TaskModel.findTasksForDate (tasks db) (User._id user) targetDate).
  fold listed.
  pose proof (collectStored_tasks (User._id user)
                (AdminUsers.rebuild targetDate) oid' listed db O) as Hseen.
  destruct (AdminUsers.collectStored db (User._id user)
              (AdminUsers.rebuild targetDate) oid' 0 listed) as [seen db2].
  exact Hseen.
Qed.

End DayViews.

(** X26 for Alice on day 19875 (2024-06-01), with two tasks of equal
    order. *)
Lemma day_views_follow_the_task_list_witness :
  let older :=
    Task.mk 1 "older" false 1 (Some (Scenario.day 19875))
      (Some (Scenario.day 19875)) 7 None [] 100 in
  let newer :=
    Task.mk 2 "newer" false 1 (Some (Scenario.day 19870))
      (Some (Scenario.day 19880)) 7 None [] 200 in
  let db := mkDb [Scenario.root; Scenario.alice] [] [] [older; newer] [] [] in
  let oid := fun n : nat => (n + 100)%nat in
  map TaskInstance.taskId
      (snd (fst (TaskInstances.getDate db Scenario.alice "2024-06-01" oid)))
  = [2; 1]%nat
  /\ map TaskInstance.taskId
         (snd (fst (AdminUsers.getUserTasks db Scenario.root 7 "2024-06-01"
                      oid)))
     = [2; 1]%nat.
Proof.
  intros older newer db oid.
  destruct (day_views_follow_the_task_list db Scenario.alice Scenario.root
              "2024-06-01" oid oid 2024 6 1 Scenario.alice eq_refl eq_refl
              eq_refl) as [Hown [_ Hseen]].
  split; [rewrite Hown; reflexivity|].
  etransitivity; [apply Hseen; split; reflexivity|reflexivity].
Defined.

(** The date 0100-00-15 is 15 December 0099, which the admin route rebuilds
    as 15 December 1999: the user's view of the day is empty, and the admin
    is shown a task of 1999. *)
Example admin_view_of_the_year_99 :
  let task :=
    Task.mk 1 "task" false 1 (Some (Scenario.day 10940))
      (Some (Scenario.day 10940)) 7 None [] 100 in
  let db := mkDb [Scenario.root; Scenario.alice] [] [] [task] [] [] in
  let oid := fun n : nat => (n + 100)%nat in
  snd (fst (TaskInstances.getDate db Scenario.alice "0100-00-15" oid)) = []
  /\ map TaskInstance.taskId
         (snd (fst (AdminUsers.getUserTasks db Scenario.root 7 "0100-00-15"
                      oid)))
     = [1%nat].
Proof. split; reflexivity. Qed.

(* ===================================================================== *)
(** ** Beyond the claims: the task list with subtasks *)
(* ===================================================================== *)

Lemma insertBy_map {A : Type} (cmp : A -> A -> Z) (g : A -> A) (x : A)
    (l : list A) :
  (forall u v, cmp (g u) (g v) = cmp u v) ->
  Js.insertBy cmp (g x) (map g l) = map g (Js.insertBy cmp x l).
Proof.
  intros Hcmp. induction l as [|y l IH]; simpl; [reflexivity|].
  rewrite Hcmp. destruct (cmp x y <=? 0); simpl; [reflexivity|].
  rewrite IH. reflexivity.
Qed.

(** A change of the documents that the comparator does not see commutes
    with the sort. *)
Lemma sort_map {A : Type} (cmp : A -> A -> Z) (g : A -> A) (l : list A) :
  (forall u v, cmp (g u) (g v) = cmp u v) ->
  Js.sort cmp (map g l) = map g (Js.sort cmp l).
Proof.
  intros Hcmp. induction l as [|x l IH]; simpl; [reflexivity|].
  rewrite IH. apply insertBy_map, Hcmp.
Qed.

Lemma filter_unseen {A : Type} (keep : A -> bool) (g : A -> A) (l : list A) :
  (forall u, keep (g u) = keep u) ->
  filter keep (map g l) = map g (filter keep l).
Proof.
  intros Hkeep. induction l as [|x l IH]; simpl; [reflexivity|].
  rewrite Hkeep. destruct (keep x); simpl; rewrite IH; reflexivity.
Qed.

Lemma populate_unreferenced (coll : list Subtask.t) (subtask : Subtask.t)
    (task : Task.t) :
  ~ In (Subtask._id subtask) (Task.subtasks task) ->
  TaskInstances.populateSubtasks (coll ++ [subtask]) task
  = TaskInstances.populateSubtasks coll task.
Proof.
  unfold TaskInstances.populateSubtasks.
  induction (Task.subtasks task) as [|ref refs IH]; intros Hfresh; simpl;
    [reflexivity|].
  rewrite IH by (intros Hin; apply Hfresh; right; exact Hin).
  rewrite find_app_miss; [reflexivity|].
  apply Nat.eqb_neq. intros Heq. apply Hfresh. left. symmetry. exact Heq.
Qed.

Lemma populate_appended (coll : list Subtask.t) (subtask : Subtask.t)
    (task : Task.t) :
  (forall s, In s coll -> Subtask._id s <> Subtask._id subtask) ->
  TaskInstances.populateSubtasks (coll ++ [subtask])
    (TaskSubtasks.setSubtasks task
       (Task.subtasks task ++ [Subtask._id subtask]))
  = TaskInstances.populateSubtasks (coll ++ [subtask]) task ++ [subtask].
Proof.
  intros Hfresh. unfold TaskInstances.populateSubtasks.
  cbn [Task.subtasks TaskSubtasks.setSubtasks].
  rewrite flat_map_app. f_equal. cbn [flat_map].
  rewrite find_snoc_fresh; [reflexivity| |apply Nat.eqb_refl].
  intros s Hs. apply Nat.eqb_neq, Hfresh, Hs.
Qed.

(** X27.  A created subtask shows under its task in the task list.  When
    [POST /tasks/:taskId/subtasks] answers 201 with a fresh id, the list of
    [GET /tasks] afterwards is the list before with one change: the entry of
    the task has the new id appended to its references and the new subtask,
    open and with the body's title, appended to its subtasks. *)
Theorem created_subtask_is_listed (db : Db) (user : User.t)
    (taskId : ObjectId) (body : TaskSubtasks.Body) (oid : ObjectId) :
  NoDup (map Task._id (tasks db)) ->
  (forall s, In s (subtasks db) -> Subtask._id s <> oid) ->
  (forall t, In t (tasks db) -> ~ In oid (Task.subtasks t)) ->
  status (fst (TaskSubtasks.post db user taskId body oid)) = 201%nat ->
  exists subtask,
    Subtask._id subtask = oid
    /\ Subtask.title subtask = TaskSubtasks.title body
    /\ Subtask.completed subtask = false
    /\ TaskLists.get (snd (TaskSubtasks.post db user taskId body oid)) user
       = map (fun entry =>
                if (Task._id (fst entry) =? taskId)%nat
                then (TaskSubtasks.setSubtasks (fst entry)
                        (Task.subtasks (fst entry) ++ [oid]),
                      snd entry ++ [subtask])
                else entry)
             (TaskLists.get db user).
Proof.
  intros Hids Hfresh Hunref. unfold TaskSubtasks.post.
  destruct (negb (isEmpty (TaskSubtasks.errors body))); [discriminate|].
  destruct (Js.find _ (tasks db)) as [task|] eqn:Etask; [|discriminate].
  unfold Tasks.save. destruct (TaskModel.validates _); [|discriminate].
  intros _. cbv zeta. cbn [snd].
  set (subtask := Subtask.mk oid (TaskSubtasks.title body) false _ taskId).
  exists subtask. repeat (split; [reflexivity|]).
  apply find_In in Etask. destruct Etask as [Hin Hq].
  apply andb_true_iff in Hq. destruct Hq as [Hid _].
  apply Nat.eqb_eq in Hid.
  set (grow := fun t : Task.t =>
                 if (Task._id t =? taskId)%nat
                 then TaskSubtasks.setSubtasks t (Task.subtasks t ++ [oid])
                 else t).
  assert (Hsaved : Tasks.saveTask (tasks db)
                     (TaskSubtasks.setSubtasks task
                        (Task.subtasks task ++ [oid]))
                   = map grow (tasks db)).
  { unfold Tasks.saveTask. apply map_ext_in. intros t Ht. unfold grow.
    cbn [Task._id TaskSubtasks.setSubtasks]. rewrite Hid.
    destruct (Task._id t =? taskId)%nat eqn:Et; [|reflexivity].
    apply Nat.eqb_eq in Et.
    assert (t = task)
      by (apply (NoDup_map_inj Task._id (tasks db)); congruence).
    subst t. reflexivity. }
  unfold TaskLists.get, TaskLists.populated.
  cbn [tasks subtasks withSubtasks withTasks withTaskInstances].
  rewrite Hsaved.
  rewrite filter_unseen
    by (intros t; unfold grow; destruct (Task._id t =? taskId)%nat;
        reflexivity).
  rewrite sort_map
    by (intros u v; unfold grow, TaskLists.cmpNewest;
        destruct (Task._id u =? taskId)%nat;
        destruct (Task._id v =? taskId)%nat; reflexivity).
  rewrite !map_map. apply map_ext_in. intros t Ht.
  apply sort_In, filter_In in Ht. destruct Ht as [Ht _].
  cbn [fst snd]. unfold grow.
  destruct (Task._id t =? taskId)%nat.
  - f_equal.
    change oid with (Subtask._id subtask) at 1.
    rewrite populate_appended by exact Hfresh.
    rewrite populate_unreferenced by (apply Hunref, Ht). reflexivity.
  - f_equal. apply populate_unreferenced, Hunref, Ht.
Qed.

(** X27 for Alice's task 1, which has subtask 11. *)
Lemma created_subtask_is_listed_witness :
  let task := Task.mk 1 "task" false 1 None None 7 None [11%nat] 100 in
  let db := mkDb [] [] [] [task] [Subtask.mk 11 "A" true "" 1] [] in
  let body := TaskSubtasks.mkBody [] "B" None in
  map (fun entry => map Subtask._id (snd entry))
      (TaskLists.get (snd (TaskSubtasks.post db Scenario.alice 1 body 12))
         Scenario.alice)
  = [[11; 12]%nat].
Proof.
  intros task db body.
  destruct (created_subtask_is_listed db Scenario.alice 1 body 12)
    as [subtask [Hid [_ [_ Hlist]]]].
  - simpl. concrete_NoDup.
  - simpl. intros s [<-|[]]. discriminate.
  - simpl. intros t [<-|[]]. simpl. intuition discriminate.
  - reflexivity.
  - rewrite Hlist. cbn. rewrite Hid. reflexivity.
Defined.

(* ===================================================================== *)
(** ** Beyond the claims: the admin's view after the user's read *)
(* ===================================================================== *)

Section ViewsAgree.
Context `{LocalTime}.

Lemma getOrCreate_users (db : Db) (taskId userId : ObjectId)
    (date : Date) (oid : ObjectId) (instance : TaskInstance.t) (db' : Db) :
  TaskInstances.getOrCreateTaskInstance db taskId userId date oid
    = Some (instance, db') ->
  users db' = users db.
Proof.
  unfold TaskInstances.getOrCreateTaskInstance.
  destruct (Js.find _ (tasks db)); [|discriminate].
  destruct (TaskInstances.findInstance _ _ _ _).
  - destruct (_ || _); intros [= _ <-]; reflexivity.
  - intros [= _ <-]. reflexivity.
Qed.

Lemma collectInstances_users (userId : ObjectId) (targetDate : Date)
    (oid : nat -> ObjectId) (activeTasks : list Task.t) :
  forall (db : Db) (i : nat),
    users (snd (TaskInstances.collectInstances db userId targetDate oid i
                  activeTasks))
    = users db.
Proof.
  induction activeTasks as [|task rest IH]; intros db i; simpl.
  - reflexivity.
  - destruct (TaskInstances.getOrCreateTaskInstance db (Task._id task) userId
                targetDate (oid i)) as [[instance db1]|] eqn:E.
    + specialize (IH db1 (S i)).
      destruct (TaskInstances.collectInstances db1 userId targetDate oid
                  (S i) rest) as [more db2].
      simpl in *. rewrite IH. eapply getOrCreate_users, E.
    + apply IH.
Qed.

Lemma collectStored_found (userId : ObjectId) (targetDate : Date)
    (oid : nat -> ObjectId) (db : Db) (activeTasks : list Task.t)
    (instances : list TaskInstance.t) :
  Forall2 (fun task instance =>
             TaskInstances.findInstance (taskInstances db) (Task._id task)
               userId targetDate = Some instance)
          activeTasks instances ->
  forall i,
    AdminUsers.collectStored db userId targetDate oid i activeTasks
    = (instances, db).
Proof.
  induction 1 as [|task instance rest more Hfound _ IH]; intros i; simpl.
  - reflexivity.
  - rewrite Hfound, (IH (S i)). reflexivity.
Qed.

(** Instances that come task by task, one per task, are the ones the store
    finds for the tasks. *)
Lemma listed_are_found (coll : list TaskInstance.t) (userId : ObjectId)
    (date : Date) (activeTasks : list Task.t) :
  NoDup (map Task._id activeTasks) ->
  forall instances,
    map TaskInstance.taskId instances = map Task._id activeTasks ->
    (forall task, In task activeTasks ->
       exists instance,
         In instance instances
         /\ TaskInstances.findInstance coll (Task._id task) userId date
            = Some instance) ->
    Forall2 (fun task instance =>
               TaskInstances.findInstance coll (Task._id task) userId date
               = Some instance)
            activeTasks instances.
Proof.
  induction activeTasks as [|task rest IH]; intros Hnd instances Hids Hall.
  - destruct instances; [constructor|discriminate].
  - destruct instances as [|first more]; [discriminate|].
    simpl in Hids. injection Hids as Hfirst Hmore.
    simpl in Hnd. apply NoDup_cons_iff in Hnd. destruct Hnd as [Hout Hnd].
    constructor.
    + destruct (Hall task (or_introl eq_refl)) as [x [[<-|Hx] Hfound]];
        [exact Hfound|].
      exfalso. apply Hout. rewrite <- Hmore.
      destruct (findInstance_fields _ _ _ _ _ Hfound) as [_ [<- _]].
      apply in_map, Hx.
    + apply IH; [exact Hnd|exact Hmore|].
      intros t Ht.
      destruct (Hall t (or_intror Ht)) as [x [[<-|Hx] Hfound]];
        [|exists x; auto].
      exfalso. apply Hout.
      destruct (findInstance_fields _ _ _ _ _ Hfound) as [_ [Heq _]].
      rewrite <- Hfirst, Heq. apply in_map, Ht.
Qed.

(** X28.  After the user has read a day, the admin sees what the user saw:
    when the admin route rebuilds the target date to the start of the same
    day (as for every year from 100 on),
    [GET /admin/user-tasks/:userId/date/:date] on the store the user's
    [GET /task-instances/date/:date] left answers with the same status, the
    same instances in the same order, and writes nothing. *)
Theorem admin_sees_what_the_user_read (db : Db) (user admin account : User.t)
    (date : string) (oid oid' : nat -> ObjectId) :
  (forall year month day,
     TaskInstances.parseDateParam date = Some (year, month, day) ->
     Inv.rebuiltInPlace (localDate year (month - 1) day)) ->
  NoDup (map Task._id (tasks db)) ->
  NoDup (map TaskInstance._id (taskInstances db)) ->
  (forall j, ~ In (oid j) (map TaskInstance._id (taskInstances db))) ->
  (forall j k, oid j = oid k -> j = k) ->
  Admin.adminAuth admin = true ->
  Js.find (fun u => (User._id u =? User._id user)%nat) (users db)
    = Some account ->
  AdminUsers.getUserTasks (snd (TaskInstances.getDate db user date oid))
    admin (User._id user) date oid'
  = TaskInstances.getDate db user date oid.
Proof.
  intros Hrebuilt Htasks Hinsts Hfresh Hinj Hadmin Haccount.
  unfold TaskInstances.getDate, AdminUsers.getUserTasks.
  rewrite Hadmin. cbn [negb].
  destruct (TaskInstances.parseDateParam date) as [[[year month] day]|];
    [|reflexivity].
  specialize (Hrebuilt year month day eq_refl).
  set (targetDate := localDate year (month - 1) day) in *.
  set (listed := TaskModel.findTasksForDate (tasks db) (User._id user)
                   targetDate).
  assert (Hsub : forall t, In t listed -> In t (tasks db)).
  { intros t Ht. unfold listed, TaskModel.findTasksForDate in Ht.
    apply sort_In, filter_In in Ht. apply Ht. }
  assert (Hlisted : NoDup (map Task._id listed))
    by apply sort_NoDup_map, NoDup_map_filter, Htasks.
  destruct (collectInstances_spec (User._id user) targetDate oid listed
              Hinj Hlisted db O Htasks Hinsts (fun j _ => Hfresh j) Hsub)
    as [instances [db1 [Hloop [Ht1 [_ [_ Heach]]]]]].
  destruct (collectInstances_tasks (User._id user) targetDate oid listed db O)
    as [Hids _].
  { intros t Ht. rewrite (find_by_id _ t Htasks (Hsub t Ht)). discriminate. }
  pose proof (collectInstances_users (User._id user) targetDate oid listed
                db O) as Husers.
  rewrite Hloop in Hids, Husers |- *. cbn [fst snd] in *.
  rewrite Husers, Haccount, Ht1.
  rewrite (filter_ext _ _ (activeIn_rebuilt (User._id user) targetDate
                             Hrebuilt)).
  change (Js.sort TaskModel.cmpOrderNewest
            (filter (TaskModel.activeOn (User._id user) targetDate)
                    (tasks db))) with listed.
  destruct Hrebuilt as [Hday _]. rewrite Hday.
  rewrite (collectStored_found (User._id user) (startOfDay targetDate) oid'
             db1 listed instances); [reflexivity|].
  apply listed_are_found; [exact Hlisted|exact Hids|].
  intros task Htask. destruct (Heach task Htask) as [x [Hx [Hfound _]]].
  exists x. auto.
Qed.

End ViewsAgree.

(** X28 on the store of the sync scenario, where the user's read repairs
    the stored instance first. *)
Lemma admin_sees_what_the_user_read_witness :
  let task :=
    Task.mk 1 "task" false 1 (Some (Scenario.day 19875))
      (Some (Scenario.day 19875)) 7 None [11; 12]%nat 100 in
  let stored :=
    TaskInstance.mk 50 1 7 (Scenario.day 19875) false
      [SubtaskInstance.mk 11 true; SubtaskInstance.mk 13 false] in
  let db :=
    mkDb [Scenario.root; Scenario.alice] [] [] [task]
      [Subtask.mk 11 "A" false "" 1; Subtask.mk 12 "B" false "" 1]
      [stored] in
  let oid := fun n : nat => (n + 100)%nat in
  AdminUsers.getUserTasks
    (snd (TaskInstances.getDate db Scenario.alice "2024-06-01" oid))
    Scenario.root 7 "2024-06-01" oid
  = TaskInstances.getDate db Scenario.alice "2024-06-01" oid
  /\ snd (fst (AdminUsers.getUserTasks db Scenario.root 7 "2024-06-01" oid))
     = [stored].
Proof.
  intros task stored db oid. split; [|reflexivity].
  apply (admin_sees_what_the_user_read db Scenario.alice Scenario.root
           Scenario.alice "2024-06-01" oid oid).
  - intros year month day [= <- <- <-]. split; reflexivity.
  - simpl. concrete_NoDup.
  - simpl. concrete_NoDup.
  - intros j Hj. unfold oid in Hj. simpl in Hj. lia.
  - intros j k Hjk. unfold oid in Hjk. lia.
  - reflexivity.
  - reflexivity.
Defined.
